(** * URL_scraper: the crawl frontier engine, embedded and verified

  The repository holds four variants of one website analyzer:
  - [Url_finder.py]   ([SmartWebsiteAnalyzer], sample cap 5, undamped estimate),
  - [url_finder2.py]  ([SmartWebsiteAnalyzer], sample cap 15, estimate damped by 0.7),
  - [url_finder3.py]  ([WebsiteAnalyzer], recursive crawl),
  - [url_scraper.py]  ([AdvancedWebsiteAnalyzer], level-by-level crawl).

  The methods are translated one by one.  Python strings are [string],
  the bytes of their UTF-8 encoding, sets are [gset string], the deque of
  pending URLs is a [list],
  Python floats are binary64 values of [SpecFloat], read as real numbers
  where the estimate is compared with exact arithmetic.  What the code gets
  from libraries (urllib, BeautifulSoup, requests) is a field of the class
  [Runtime]; a small concrete instance, [Demo.runtime], runs the methods on
  explicit inputs. *)

From Stdlib Require Import ZArith Ascii String Lia.
From Stdlib Require Import Floats.SpecFloat.
From Stdlib Require Reals Lra QArith.
From stdpp Require Import base gmap sets list strings sorting.



(** ** Python string built-ins used by the analyzers *)

Module Py.

(** [s.lower()] on the ASCII range. *)
Definition lower_char (c : ascii) : ascii :=
  let n := nat_of_ascii c in
  if (65 <=? n)%nat && (n <=? 90)%nat then ascii_of_nat (n + 32) else c.

Fixpoint lower (s : string) : string :=
  match s with
  | EmptyString => EmptyString
  | String c s' => String (lower_char c) (lower s')
  end.

(** [s.startswith(p)]. *)
Fixpoint startswith (s p : string) : bool :=
  match p, s with
  | EmptyString, _ => true
  | String _ _, EmptyString => false
  | String a p', String b s' => Ascii.eqb a b && startswith s' p'
  end.

(** [s.endswith(p)]: some suffix of [s] is [p]. *)
Fixpoint endswith (s p : string) : bool :=
  String.eqb s p ||
  match s with
  | EmptyString => false
  | String _ s' => endswith s' p
  end.

(** [sub in s] for strings. *)
Fixpoint contains (sub s : string) : bool :=
  startswith s sub ||
  match s with
  | EmptyString => false
  | String _ s' => contains sub s'
  end.

(** [s.split(sep)] for a one-character separator. *)
Fixpoint split (sep : ascii) (s : string) : list string :=
  match s with
  | EmptyString => [EmptyString]
  | String c s' =>
      if Ascii.eqb c sep then EmptyString :: split sep s'
      else match split sep s' with
           | [] => [String c EmptyString]
           | w :: ws => String c w :: ws
           end
  end.

(** [sep.join(parts)]. *)
Definition join (sep : string) (parts : list string) : string :=
  String.concat sep parts.

(** [s.lstrip(chars)] and [s.rstrip(chars)], the character set given as a
    predicate. *)
Fixpoint lstrip_by (p : ascii -> bool) (s : string) : string :=
  match s with
  | EmptyString => EmptyString
  | String c s' => if p c then lstrip_by p s' else s
  end.

Fixpoint rstrip_by (p : ascii -> bool) (s : string) : string :=
  match s with
  | EmptyString => EmptyString
  | String c s' =>
      match rstrip_by p s' with
      | EmptyString => if p c then EmptyString else String c EmptyString
      | r => String c r
      end
  end.

Definition is_slash (c : ascii) : bool := Ascii.eqb c "/".

Definition lstrip_slash : string -> string := lstrip_by is_slash.
Definition rstrip_slash : string -> string := rstrip_by is_slash.
Definition strip_slash (s : string) : string := lstrip_slash (rstrip_slash s).

(** The white space of [str.strip()], that is the characters for which
    [str.isspace] holds: U+0009 to U+000D and U+001C to U+0020, one byte
    each; U+0085 and U+00A0, two bytes; U+1680, U+2000 to U+200A, U+2028,
    U+2029, U+202F, U+205F and U+3000, three bytes. *)
Definition is_space (c : ascii) : bool :=
  let n := nat_of_ascii c in
  ((9 <=? n)%nat && (n <=? 13)%nat) || ((28 <=? n)%nat && (n <=? 32)%nat).

Definition byte_is (c : ascii) (n : nat) : bool := (nat_of_ascii c =? n)%nat.

Definition is_space2 (c d : ascii) : bool :=
  byte_is c 194 && (byte_is d 133 || byte_is d 160).

Definition is_space3 (c d e : ascii) : bool :=
  let n := nat_of_ascii e in
  (byte_is c 225 && byte_is d 154 && byte_is e 128)
  || (byte_is c 226 && byte_is d 128
      && (((128 <=? n)%nat && (n <=? 138)%nat)
          || byte_is e 168 || byte_is e 169 || byte_is e 175))
  || (byte_is c 226 && byte_is d 129 && byte_is e 159)
  || (byte_is c 227 && byte_is d 128 && byte_is e 128).

(** The first byte of a white-space character of two or of three bytes. *)
Definition leads_space2 (c : ascii) : bool := byte_is c 194.
Definition leads_space3 (c : ascii) : bool :=
  byte_is c 225 || byte_is c 226 || byte_is c 227.

(** [s.lstrip()]: the white-space characters at the start are dropped. *)
Fixpoint lstrip_space (s : string) : string :=
  match s with
  | EmptyString => EmptyString
  | String c s1 =>
      if is_space c then lstrip_space s1
      else if leads_space2 c then
        match s1 with
        | String d s2 => if is_space2 c d then lstrip_space s2 else s
        | EmptyString => s
        end
      else if leads_space3 c then
        match s1 with
        | String d (String e s3) => if is_space3 c d e then lstrip_space s3 else s
        | _ => s
        end
      else s
  end.

(** [s.rstrip()]: what is left when the longest end of [s] that is all
    white space is dropped. *)
Fixpoint rstrip_space (s : string) : string :=
  match s with
  | EmptyString => EmptyString
  | String c s' =>
      match lstrip_space s with
      | EmptyString => EmptyString
      | String _ _ => String c (rstrip_space s')
      end
  end.

(** [s.strip()] *)
Definition strip (s : string) : string := lstrip_space (rstrip_space s).

(** [s.replace(old, new)] for a non-empty [old]: occurrences are replaced
    from the left and do not overlap.  [skip] counts the characters of an
    occurrence still to be dropped. *)
Fixpoint replace_go (old new : string) (skip : nat) (s : string) : string :=
  match s with
  | EmptyString => EmptyString
  | String c s' =>
      match skip with
      | S k => replace_go old new k s'
      | O =>
          if startswith s old
          then new +:+ replace_go old new (String.length old - 1) s'
          else String c (replace_go old new 0 s')
      end
  end.

Definition replace (old new s : string) : string := replace_go old new 0 s.

(** [bool(s)]: a string is truthy when it is not empty. *)
Definition truthy (s : string) : bool :=
  match s with EmptyString => false | _ => true end.

(** [xs[-2:]] and [xs[:-1]]. *)
Definition last_two {A} (xs : list A) : list A := drop (length xs - 2) xs.
Definition but_last {A} (xs : list A) : list A := take (length xs - 1) xs.

(** [sorted(xs)] and [sorted(xs, reverse=True)] on strings: Python compares
    strings by code point, [String.le] compares them byte by byte. *)
Definition sorted (xs : list string) : list string := merge_sort String.le xs.
Definition sorted_reverse (xs : list string) : list string := reverse (sorted xs).

(** [re.search(r'url=(.+)', content, re.IGNORECASE)], the text of group 1:
    the leftmost place where [url=] (in any case) is followed by at least one
    character other than a newline, and the rest of that line. *)
Fixpoint drop_chars (n : nat) (s : string) : string :=
  match n, s with
  | S k, String _ s' => drop_chars k s'
  | _, _ => s
  end.

Definition newline : ascii := ascii_of_nat 10.

Fixpoint rest_of_line (s : string) : string :=
  match s with
  | EmptyString => EmptyString
  | String c s' => if Ascii.eqb c newline then EmptyString else String c (rest_of_line s')
  end.

Fixpoint search_url (content : string) : option string :=
  match content with
  | EmptyString => None
  | String _ s' =>
      if startswith (lower content) "url=" then
        match rest_of_line (drop_chars 4 content) with
        | EmptyString => search_url s'
        | group1 => Some group1
        end
      else search_url s'
  end.

End Py.

(** ** Python floats: IEEE 754 binary64, rounding to nearest even *)

Module Float.

Definition prec : Z := 53.
Definition emax : Z := 1024.

(** [float(n)] for an integer [n]. *)
Definition of_int (n : Z) : spec_float := binary_normalize prec emax n 0 false.

(** [a / b] on integers (the call site guards [b > 0]) and [x * y]. *)
Definition truediv (a b : Z) : spec_float := SFdiv prec emax (of_int a) (of_int b).
Definition mul (x y : spec_float) : spec_float := SFmul prec emax x y.

(** The literal [0.7], that is 0x1.6666666666666p-1. *)
Definition lit_0_7 : spec_float := S754_finite false 6305039478318694 (-53).

(** [int(x)]: truncation towards zero; [None] stands for the OverflowError
    or ValueError that [int] raises on an infinity or a NaN. *)
Definition to_int (x : spec_float) : option Z :=
  match x with
  | S754_zero _ => Some 0%Z
  | S754_finite s m e => Some (cond_Zopp s (Z.shiftl (Zpos m) e))
  | S754_infinity _ | S754_nan => None
  end.

(** The sign bit of [x]; a NaN has none. *)
Definition sign_bit (x : spec_float) : bool :=
  match x with
  | S754_zero s | S754_infinity s | S754_finite s _ _ => s
  | S754_nan => false
  end.

(** The mathematical floor of the value of [x]. *)
Definition floor (x : spec_float) : option Z :=
  match x with
  | S754_zero _ => Some 0%Z
  | S754_finite s m e => Some (Z.shiftl (cond_Zopp s (Zpos m)) e)
  | S754_infinity _ | S754_nan => None
  end.

End Float.


(** ** What the analyzers get from libraries and from the network *)

(** [urllib.parse.ParseResult]. *)
Record ParseResult := {
  scheme : string;
  netloc : string;
  path : string;
  params : string;
  query : string;
  fragment : string }.

(** A parsed document as far as the analyzers look at it: its tags in
    document order, each with its name and its attributes. *)
Record tag := { tag_name : string; tag_attrs : list (string * string) }.

(** [tag.get(name)] *)
Fixpoint attr (name : string) (attrs : list (string * string)) : option string :=
  match attrs with
  | [] => None
  | (k, v) :: rest => if String.eqb k name then Some v else attr name rest
  end.

(** [soup.find_all(names, href=True)] *)
Definition find_all_href (names : list string) (doc : list tag) : list tag :=
  filter (fun t => tag_name t ∈ names /\ is_Some (attr "href" (tag_attrs t))) doc.

(** [soup.find('meta', attrs={'http-equiv': 'refresh'})] *)
Definition find_meta_refresh (doc : list tag) : option tag :=
  snd <$> list_find
    (fun t => tag_name t = "meta" /\ attr "http-equiv" (tag_attrs t) = Some "refresh") doc.

(** The exceptions of [requests] that [session.get] raises (network failure,
    timeout, ...); all of them derive from [Exception].  An interrupt of the
    operator is outside this model. *)
Inductive request_exception :=
| ConnectionError
| ReadTimeout
| TooManyRedirects
| RequestException.

Inductive get_result :=
| Response (status_code : Z) (text : string)
| Raises (e : request_exception).

(** - [urlparse] and [urljoin] of urllib ([None]: ValueError is raised);
    - [BeautifulSoup(html, 'html.parser')] ([None]: the parser raises);
    - [session_get t url timeout]: what [session.get(url, timeout=timeout,
      allow_redirects=True)] gives at the logical time [t], the number of
      effects of the session so far, so that the network may change while
      the session runs;
    - [set_order]: the order in which Python iterates over a set. *)
Class Runtime := {
  urlparse : string -> option ParseResult;
  urljoin : string -> string -> option string;
  BeautifulSoup : string -> option (list tag);
  session_get : nat -> string -> Z -> get_result;
  set_order : gset string -> list string;
  set_order_perm : forall s, set_order s ≡ₚ elements s }.

(** What a session does, in order: [Mark u] is [visited.add(u)], [Get u] is
    one [session.get(u, ...)], a fetch attempt. *)
Inductive event :=
| Mark (u : string)
| Get (u : string).

Definition is_get (e : event) : bool :=
  match e with Get _ => true | Mark _ => false end.

(** The fetch-attempt log of a trace. *)
Fixpoint fetch_log (tr : list event) : list string :=
  match tr with
  | [] => []
  | Get u :: tr' => u :: fetch_log tr'
  | Mark _ :: tr' => fetch_log tr'
  end.

(** [parsed.netloc.split('.')[-2:]] joined by dots, when there are at least
    two labels ([extract_base_domain], [get_base_domain]). *)
Definition base_of_netloc (host : string) : string :=
  let domain_parts := Py.split "." host in
  if (2 <=? length domain_parts)%nat
  then Py.join "." (Py.last_two domain_parts)
  else host.

(** ** [SmartWebsiteAnalyzer] of Url_finder.py and url_finder2.py
       (its [classify_url] is also that of [WebsiteAnalyzer], url_finder3.py) *)

Module Smart.

(** Where the two files differ. *)
Record variant := {
  sample_cap : nat;
  sample_timeout : Z;
  crawl_timeout : Z;
  damping : option spec_float;
  page_extensions : list string }.

Definition Url_finder : variant := {|
  sample_cap := 5;
  sample_timeout := 10;
  crawl_timeout := 10;
  damping := None;
  page_extensions := [".html"; ".htm"; ".php"; ".asp"; ".jsp"; ".py"] |}.

Definition url_finder2 : variant := {|
  sample_cap := 15;
  sample_timeout := 8;
  crawl_timeout := 8;
  damping := Some Float.lit_0_7;
  page_extensions := [".html"; ".htm"; ".php"; ".asp"; ".jsp"; ".py"; ".pdf"; ".doc"] |}.

(** The attributes of [self] that [__init__] fixes. *)
Record analyzer := {
  url : string;
  domain : string;
  base_domain : string;
  max_depth : Z;
  max_pages : Z }.

(** The attributes of [self] that change, the pending queue
    ([urls_to_crawl], [self.crawl_queue] in url_finder2.py), and the trace
    of what the session did. *)
Record state := {
  initial_urls_found : gset string;
  estimated_total : Z;
  found_subdomains : gset string;
  found_subdirectories : gset string;
  found_pages : gset string;
  visited_urls : gset string;
  crawl_count : Z;
  urls_to_crawl : list string;
  trace : list event }.

Definition fresh : state := {|
  initial_urls_found := ∅;
  estimated_total := 0;
  found_subdomains := ∅;
  found_subdirectories := ∅;
  found_pages := ∅;
  visited_urls := ∅;
  crawl_count := 0;
  urls_to_crawl := [];
  trace := [] |}.

Definition set_initial_urls_found (v : gset string) (s : state) : state :=
  {| initial_urls_found := v; estimated_total := estimated_total s;
     found_subdomains := found_subdomains s;
     found_subdirectories := found_subdirectories s;
     found_pages := found_pages s; visited_urls := visited_urls s;
     crawl_count := crawl_count s; urls_to_crawl := urls_to_crawl s;
     trace := trace s |}.

Definition set_estimated_total (v : Z) (s : state) : state :=
  {| initial_urls_found := initial_urls_found s; estimated_total := v;
     found_subdomains := found_subdomains s;
     found_subdirectories := found_subdirectories s;
     found_pages := found_pages s; visited_urls := visited_urls s;
     crawl_count := crawl_count s; urls_to_crawl := urls_to_crawl s;
     trace := trace s |}.

Definition set_found_subdomains (v : gset string) (s : state) : state :=
  {| initial_urls_found := initial_urls_found s;
     estimated_total := estimated_total s; found_subdomains := v;
     found_subdirectories := found_subdirectories s;
     found_pages := found_pages s; visited_urls := visited_urls s;
     crawl_count := crawl_count s; urls_to_crawl := urls_to_crawl s;
     trace := trace s |}.

Definition set_found_subdirectories (v : gset string) (s : state) : state :=
  {| initial_urls_found := initial_urls_found s;
     estimated_total := estimated_total s;
     found_subdomains := found_subdomains s; found_subdirectories := v;
     found_pages := found_pages s; visited_urls := visited_urls s;
     crawl_count := crawl_count s; urls_to_crawl := urls_to_crawl s;
     trace := trace s |}.

Definition set_found_pages (v : gset string) (s : state) : state :=
  {| initial_urls_found := initial_urls_found s;
     estimated_total := estimated_total s;
     found_subdomains := found_subdomains s;
     found_subdirectories := found_subdirectories s; found_pages := v;
     visited_urls := visited_urls s; crawl_count := crawl_count s;
     urls_to_crawl := urls_to_crawl s; trace := trace s |}.

Definition set_visited_urls (v : gset string) (s : state) : state :=
  {| initial_urls_found := initial_urls_found s;
     estimated_total := estimated_total s;
     found_subdomains := found_subdomains s;
     found_subdirectories := found_subdirectories s;
     found_pages := found_pages s; visited_urls := v;
     crawl_count := crawl_count s; urls_to_crawl := urls_to_crawl s;
     trace := trace s |}.

Definition set_crawl_count (v : Z) (s : state) : state :=
  {| initial_urls_found := initial_urls_found s;
     estimated_total := estimated_total s;
     found_subdomains := found_subdomains s;
     found_subdirectories := found_subdirectories s;
     found_pages := found_pages s; visited_urls := visited_urls s;
     crawl_count := v; urls_to_crawl := urls_to_crawl s; trace := trace s |}.

Definition set_urls_to_crawl (v : list string) (s : state) : state :=
  {| initial_urls_found := initial_urls_found s;
     estimated_total := estimated_total s;
     found_subdomains := found_subdomains s;
     found_subdirectories := found_subdirectories s;
     found_pages := found_pages s; visited_urls := visited_urls s;
     crawl_count := crawl_count s; urls_to_crawl := v; trace := trace s |}.

Definition record (e : event) (s : state) : state :=
  {| initial_urls_found := initial_urls_found s;
     estimated_total := estimated_total s;
     found_subdomains := found_subdomains s;
     found_subdirectories := found_subdirectories s;
     found_pages := found_pages s; visited_urls := visited_urls s;
     crawl_count := crawl_count s; urls_to_crawl := urls_to_crawl s;
     trace := trace s ++ [e] |}.

Section Methods.
Context `{Runtime}.

(** [extract_domain]: [urlparse(url).netloc]. *)
Definition extract_domain (url : string) : option string :=
  netloc <$> urlparse url.

(** [extract_base_domain]. *)
Definition extract_base_domain (url : string) : option string :=
  (fun parsed => base_of_netloc (netloc parsed)) <$> urlparse url.

(** [__init__]; [None] when [urlparse] raises. *)
Definition init (url0 : string) (max_depth0 max_pages0 : Z) : option analyzer :=
  match extract_domain url0, extract_base_domain url0 with
  | Some d, Some b =>
      Some {| url := Py.rstrip_slash url0; domain := d; base_domain := b;
              max_depth := max_depth0; max_pages := max_pages0 |}
  | _, _ => None
  end.

(** [is_valid_url] *)
Definition is_valid_url (u : string) : bool :=
  match urlparse u with
  | Some parsed => Py.truthy (netloc parsed) && Py.truthy (scheme parsed)
  | None => false
  end.

(** [get_page_content]: one [session.get]; the text of the response when
    its status code is 200, [None] otherwise and when [session.get] raises. *)
Definition get_page_content (u : string) (timeout : Z) (s : state)
  : option string * state :=
  let s' := record (Get u) s in
  match session_get (length (trace s)) u timeout with
  | Response status_code text =>
      if (status_code =? 200)%Z then (Some text, s') else (None, s')
  | Raises _ => (None, s')
  end.

(** [is_same_domain] *)
Definition is_same_domain (a : analyzer) (u : string) : bool :=
  match urlparse u with
  | Some parsed =>
      let url_domain := netloc parsed in
      Py.contains (base_domain a) url_domain || Py.contains url_domain (domain a)
  | None => false
  end.

(** [f"{parsed.scheme}://{parsed.netloc}{parsed.path}"] *)
Definition clean_url_of (parsed : ParseResult) : string :=
  scheme parsed +:+ "://" +:+ netloc parsed +:+ path parsed.

(** The loop of [extract_links_from_page] over the [a] and [link] tags.  The
    boolean tells that an exception left the loop; the [except] clause of
    the method then keeps the links collected so far. *)
Fixpoint anchor_links (a : analyzer) (u : string) (tags : list tag)
  (links : gset string) : gset string * bool :=
  match tags with
  | [] => (links, false)
  | t :: tags' =>
      let href := Py.strip (default EmptyString (attr "href" (tag_attrs t))) in
      if Py.truthy href then
        match urljoin u href with
        | None => (links, true)
        | Some full_url =>
            if is_same_domain a full_url then
              match urlparse full_url with
              | None => (links, true)
              | Some parsed =>
                  let clean_url := clean_url_of parsed in
                  if bool_decide (clean_url ≠ u)
                  then anchor_links a u tags' ({[clean_url]} ∪ links)
                  else anchor_links a u tags' links
              end
            else anchor_links a u tags' links
        end
      else anchor_links a u tags' links
  end.

(** The meta-refresh part of [extract_links_from_page]. *)
Definition meta_refresh_links (a : analyzer) (u : string) (doc : list tag)
  (links : gset string) : gset string :=
  match find_meta_refresh doc with
  | Some meta_refresh =>
      match attr "content" (tag_attrs meta_refresh) with
      | Some content =>
          match Py.search_url content with
          | Some group1 =>
              match urljoin u group1 with
              | Some redirect_url =>
                  if is_same_domain a redirect_url
                  then {[redirect_url]} ∪ links
                  else links
              | None => links
              end
          | None => links
          end
      | None => links
      end
  | None => links
  end.

(** [extract_links_from_page] *)
Definition extract_links_from_page (a : analyzer) (u html_content : string)
  : gset string :=
  match BeautifulSoup html_content with
  | None => ∅
  | Some doc =>
      match anchor_links a u (find_all_href ["a"; "link"] doc) ∅ with
      | (links, true) => links
      | (links, false) => meta_refresh_links a u doc links
      end
  end.

(** One round of the sample loop of [initial_scan]; the accumulator holds
    [total_additional_links], [successful_samples] and the state. *)
Definition sample_page (V : variant) (a : analyzer)
  (acc : Z * Z * state) (link : string) : Z * Z * state :=
  let '(total_additional_links, successful_samples, s) := acc in
  let '(content, s1) := get_page_content link (sample_timeout V) s in
  match content with
  | Some c =>
      if Py.truthy c then
        let sample_links_found := extract_links_from_page a link c in
        let new_links :=
          filter (fun l => l ∉ initial_urls_found s1) (set_order sample_links_found) in
        ((total_additional_links + Z.of_nat (length new_links))%Z,
         (successful_samples + 1)%Z,
         set_initial_urls_found (initial_urls_found s1 ∪ list_to_set new_links) s1)
      else (total_additional_links, successful_samples, s1)
  | None => (total_additional_links, successful_samples, s1)
  end.

(** The estimate computed at the end of [initial_scan]
    ([initial_scan_for_count] in url_finder2.py); [None] when [int] raises. *)
Definition estimate (V : variant)
  (discovered total_additional_links successful_samples main_links sample_size : Z)
  : option Z :=
  if (0 <? successful_samples)%Z then
    let avg_new_links_per_page :=
      Float.truediv total_additional_links successful_samples in
    let remaining_pages := (main_links - sample_size)%Z in
    let additional_estimate :=
      Float.mul avg_new_links_per_page (Float.of_int remaining_pages) in
    match damping V with
    | None =>
        (fun k => (discovered + k)%Z) <$> Float.to_int additional_estimate
    | Some factor =>
        (fun k => (discovered + k)%Z) <$>
          Float.to_int (Float.mul additional_estimate factor)
    end
  else Some discovered.

(** [initial_scan]: the boolean it returns and the new state. *)
Definition initial_scan (V : variant) (a : analyzer) (s : state)
  : option (bool * state) :=
  let '(html_content, s1) := get_page_content (url a) 10 s in
  match html_content with
  | Some html =>
      if Py.truthy html then
        let main_page_links := extract_links_from_page a (url a) html in
        let s2 :=
          set_initial_urls_found
            (initial_urls_found s1 ∪ {[url a]} ∪ main_page_links) s1 in
        let sample_size := Nat.min (sample_cap V) (size main_page_links) in
        let sample_links := take sample_size (set_order main_page_links) in
        let '(total_additional_links, successful_samples, s3) :=
          fold_left (sample_page V a) sample_links (0%Z, 0%Z, s2) in
        match estimate V (Z.of_nat (size (initial_urls_found s3)))
                total_additional_links successful_samples
                (Z.of_nat (size main_page_links)) (Z.of_nat sample_size) with
        | Some total => Some (true, set_estimated_total total s3)
        | None => None
        end
      else Some (false, s1)
  | None => Some (false, s1)
  end.

(** [classify_url]: the label returned and the new state; [None] when
    [urlparse] raises. *)
Definition classify_url (V : variant) (a : analyzer) (u : string) (s : state)
  : option (string * state) :=
  match urlparse u with
  | None => None
  | Some parsed =>
      let dom := netloc parsed in
      let pth := Py.rstrip_slash (path parsed) in
      if bool_decide (dom ≠ domain a) && Py.contains (base_domain a) dom then
        Some ("subdomain", set_found_subdomains ({[dom]} ∪ found_subdomains s) s)
      else if Py.truthy pth then
        let path_parts := filter (fun part => Py.truthy part = true) (Py.split "/" pth) in
        match path_parts with
        | [] => Some ("page", s)
        | _ :: _ =>
            if existsb (Py.endswith (Py.lower pth)) (page_extensions V) then
              let s1 := set_found_pages ({[u]} ∪ found_pages s) s in
              let s2 :=
                if (1 <? length path_parts)%nat then
                  let dir_path := Py.join "/" (Py.but_last path_parts) in
                  set_found_subdirectories ({[dir_path]} ∪ found_subdirectories s1) s1
                else s1 in
              Some ("page", s2)
            else
              Some ("subdirectory",
                    set_found_subdirectories
                      ({[Py.lstrip_slash pth]} ∪ found_subdirectories s) s)
        end
      else Some ("page", s)
  end.

(** [urls_to_crawl.appendleft(link)] for every link of [links], in order. *)
Definition appendleft_all (links : list string) (queue : list string) : list string :=
  fold_left (fun q link => link :: q) links queue.

Inductive step_result :=
| Continue (s : state)
| Finished (s : state)
| Raised (s : state).

(** One evaluation of the loop condition of [controlled_crawl] followed,
    when it holds, by one run of the loop body.  [Raised]: [classify_url]
    raised and the exception leaves [controlled_crawl]. *)
Definition crawl_step (V : variant) (a : analyzer) (s : state) : step_result :=
  match urls_to_crawl s with
  | [] => Finished s
  | current_url :: rest =>
      if negb (crawl_count s <? max_pages a)%Z then Finished s
      else
        let s0 := set_urls_to_crawl rest s in
        if bool_decide (current_url ∈ visited_urls s0) then Continue s0
        else
          let s1 := set_crawl_count (crawl_count s0 + 1)%Z s0 in
          let s2 := record (Mark current_url)
                      (set_visited_urls ({[current_url]} ∪ visited_urls s1) s1) in
          match classify_url V a current_url s2 with
          | None => Raised s2
          | Some (_, s3) =>
              let '(content, s4) := get_page_content current_url (crawl_timeout V) s3 in
              match content with
              | Some c =>
                  if Py.truthy c then
                    let new_links := extract_links_from_page a current_url c in
                    let fresh_links :=
                      filter (fun l => (l ∉ visited_urls s4) /\ (l ∉ urls_to_crawl s4))
                             (set_order new_links) in
                    Continue
                      (set_urls_to_crawl
                         (appendleft_all (reverse (Py.sorted fresh_links))
                                         (urls_to_crawl s4)) s4)
                  else Continue s4
              | None => Continue s4
              end
          end
  end.

Definition state_of (r : step_result) : state :=
  match r with Continue s | Finished s | Raised s => s end.

(** The states that the loop of [controlled_crawl] goes through from a
    given state. *)
Inductive reaches (V : variant) (a : analyzer) : state -> state -> Prop :=
| reaches_here (s : state) : reaches V a s s
| reaches_next (s s1 s2 : state) :
    crawl_step V a s = Continue s1 -> reaches V a s1 s2 -> reaches V a s s2.

(** The loop of [controlled_crawl], at most [fuel] rounds of it; [None] when
    the fuel does not suffice. *)
Fixpoint crawl_loop (V : variant) (a : analyzer) (fuel : nat) (s : state)
  : option step_result :=
  match crawl_step V a s with
  | Continue s' =>
      match fuel with
      | O => None
      | S fuel' => crawl_loop V a fuel' s'
      end
  | r => Some r
  end.

(** [controlled_crawl]: the queue starts as the URLs of the initial scan in
    descending order. *)
Definition controlled_crawl_start (s : state) : state :=
  set_urls_to_crawl (Py.sorted_reverse (set_order (initial_urls_found s))) s.

Definition controlled_crawl (V : variant) (a : analyzer) (fuel : nat) (s : state)
  : option step_result :=
  crawl_loop V a fuel (controlled_crawl_start s).

End Methods.
End Smart.

(** ** [AdvancedWebsiteAnalyzer] of url_scraper.py *)

Module Advanced.

Record analyzer := {
  url : string;
  domain : string;
  base_domain : string;
  max_depth : Z;
  max_pages : Z }.

Record state := {
  all_internal_links : gset string;
  visited_pages : gset string;
  trace : list event }.

Definition fresh : state :=
  {| all_internal_links := ∅; visited_pages := ∅; trace := [] |}.

Definition skip_extensions : list string :=
  [".pdf"; ".jpg"; ".jpeg"; ".png"; ".gif"; ".css"; ".js";
   ".xml"; ".zip"; ".tar"; ".gz"; ".mp4"; ".mp3"; ".avi"].

Section Methods.
Context `{Runtime}.

(** [extract_domain]: [urlparse(url).netloc.replace('www.', '')]. *)
Definition extract_domain (url0 : string) : option string :=
  (fun parsed => Py.replace "www." EmptyString (netloc parsed)) <$> urlparse url0.

(** [get_base_domain] *)
Definition get_base_domain (dom : string) : string :=
  let parts := Py.split "." dom in
  if (2 <=? length parts)%nat then Py.join "." (Py.last_two parts) else dom.

(** [__init__] *)
Definition init (url0 : string) (max_depth0 max_pages0 : Z) : option analyzer :=
  match extract_domain url0 with
  | Some d =>
      Some {| url := Py.rstrip_slash url0; domain := d;
              base_domain := get_base_domain d;
              max_depth := max_depth0; max_pages := max_pages0 |}
  | None => None
  end.

(** [is_valid_url] *)
Definition is_valid_url (u : string) : bool :=
  match urlparse u with
  | Some parsed => Py.truthy (netloc parsed) && Py.truthy (scheme parsed)
  | None => false
  end.

(** [should_crawl_url]; the second [urlparse] cannot raise where the first,
    in [is_valid_url], did not. *)
Definition should_crawl_url (a : analyzer) (u : string) : bool :=
  if negb (is_valid_url u) then false
  else
    match urlparse u with
    | None => false
    | Some parsed =>
        if existsb (Py.endswith (Py.lower u)) skip_extensions then false
        else if negb (Py.contains (base_domain a) (netloc parsed)) then false
        else true
    end.

(** The loop of [crawl_single_page] over the [a] tags; [None] when [urljoin]
    raises.  [all_internal_links] keeps what was added before. *)
Fixpoint page_links (a : analyzer) (u : string) (tags : list tag)
  (links : list string) (s : state) : option (list string) * state :=
  match tags with
  | [] => (Some links, s)
  | t :: tags' =>
      let href := default EmptyString (attr "href" (tag_attrs t)) in
      match urljoin u href with
      | None => (None, s)
      | Some full_url =>
          if should_crawl_url a full_url then
            page_links a u tags' (links ++ [full_url])
              {| all_internal_links := {[full_url]} ∪ all_internal_links s;
                 visited_pages := visited_pages s; trace := trace s |}
          else page_links a u tags' links s
      end
  end.

(** [crawl_single_page]: one [session.get]; the links of the page, [[]] when
    the status code is not 200 and when anything raises. *)
Definition crawl_single_page (a : analyzer) (u : string) (s : state)
  : list string * state :=
  let s' := {| all_internal_links := all_internal_links s;
               visited_pages := visited_pages s;
               trace := trace s ++ [Get u] |} in
  match session_get (length (trace s)) u 10 with
  | Response status_code content =>
      if negb (status_code =? 200)%Z then ([], s')
      else
        match BeautifulSoup content with
        | None => ([], s')
        | Some doc =>
            match page_links a u (find_all_href ["a"] doc) [] s' with
            | (Some links, s'') => (links, s'')
            | (None, s'') => ([], s'')
            end
        end
  | Raises _ => ([], s')
  end.

(** One URL of a level of [crawl_website]: the pages of a level are fetched
    by a thread pool; here they are fetched one after the other, in the
    order [set_order] gives. *)
Definition crawl_one (a : analyzer) (acc : gset string * state) (u : string)
  : gset string * state :=
  let '(next_level, s) := acc in
  let '(links, s1) := crawl_single_page a u s in
  (next_level ∪ list_to_set links,
   {| all_internal_links := all_internal_links s1;
      visited_pages := {[u]} ∪ visited_pages s1;
      trace := trace s1 ++ [Mark u] |}).

(** The [while] loop of [crawl_website]; every round adds one to [depth], so
    [max_depth] rounds are all it can make. *)
Fixpoint crawl_levels (fuel : nat) (a : analyzer) (depth : Z)
  (current_level : gset string) (s : state) : state :=
  match fuel with
  | O => s
  | S fuel' =>
      if bool_decide (current_level ≠ ∅) && (depth <? max_depth a)%Z
         && (Z.of_nat (size (visited_pages s)) <? max_pages a)%Z
      then
        let todo := filter (fun u => u ∉ visited_pages s) (set_order current_level) in
        let '(next_level, s1) := fold_left (crawl_one a) todo (∅, s) in
        let current_level' :=
          filter (fun u => (u ∉ visited_pages s1) /\ (should_crawl_url a u = true))
                 next_level in
        crawl_levels fuel' a (depth + 1)%Z current_level' s1
      else s
  end.

(** [crawl_website] *)
Definition crawl_website (a : analyzer) (s : state) : state :=
  crawl_levels (Z.to_nat (max_depth a)) a 0%Z {[url a]} s.

End Methods.
End Advanced.

(** ** A concrete runtime, for running the methods on explicit inputs

    [simple_urlparse] and [simple_urljoin] follow urllib on plain URLs of the shape
    [scheme://netloc/path?query#fragment] and on references that are
    absolute, root-relative or relative to the directory of the base; dot
    segments are not resolved.  Documents and the network are tables. *)

Module Demo.

(** The longest prefix without a character of [p], and the rest. *)
Fixpoint span (p : ascii -> bool) (s : string) : string * string :=
  match s with
  | EmptyString => (EmptyString, EmptyString)
  | String c s' =>
      if p c then (EmptyString, s)
      else let '(b, r) := span p s' in (String c b, r)
  end.

Definition is_char (a c : ascii) : bool := Ascii.eqb c a.

Definition is_alpha (c : ascii) : bool :=
  let n := nat_of_ascii (Py.lower_char c) in (97 <=? n)%nat && (n <=? 122)%nat.

Definition is_scheme_char (c : ascii) : bool :=
  let n := nat_of_ascii c in
  is_alpha c || ((48 <=? n)%nat && (n <=? 57)%nat)
  || is_char "+" c || is_char "-" c || is_char "." c.

Fixpoint all_chars (p : ascii -> bool) (s : string) : bool :=
  match s with
  | EmptyString => true
  | String c s' => p c && all_chars p s'
  end.

(** The scheme of a URL and what follows its colon. *)
Definition split_scheme (u : string) : string * string :=
  match span (is_char ":") u with
  | (String c b, String _ rest) =>
      if is_alpha c && all_chars is_scheme_char b
      then (Py.lower (String c b), rest)
      else (EmptyString, u)
  | _ => (EmptyString, u)
  end.

(** The last segment of a path and what precedes it. *)
Fixpoint split_last_segment (p : string) : string * string :=
  match p with
  | EmptyString => (EmptyString, EmptyString)
  | String c p' =>
      let '(dir, seg) := split_last_segment p' in
      if Ascii.eqb c "/" then
        match dir with
        | EmptyString => (String c EmptyString, seg)
        | _ => (String c dir, seg)
        end
      else
        match dir with
        | EmptyString => (EmptyString, String c seg)
        | _ => (String c dir, seg)
        end
  end.

Definition tail_of (s : string) : string :=
  match s with EmptyString => EmptyString | String _ s' => s' end.

Definition simple_urlparse (u : string) : option ParseResult :=
  let '(sch, rest) := split_scheme u in
  let '(loc, rest1) :=
    if Py.startswith rest "//"
    then span (fun c => is_char "/" c || is_char "?" c || is_char "#" c)
              (Py.drop_chars 2 rest)
    else (EmptyString, rest) in
  let '(rest2, frag) := span (is_char "#") rest1 in
  let '(pth, qry) := span (is_char "?") rest2 in
  let '(dir, seg) := split_last_segment pth in
  let '(seg', prm) := span (is_char ";") seg in
  Some {| scheme := sch; netloc := loc; path := dir +:+ seg';
          params := tail_of prm; query := tail_of qry; fragment := tail_of frag |}.

Definition simple_urljoin (base ref : string) : option string :=
  match simple_urlparse base, simple_urlparse ref with
  | Some b, Some r =>
      if negb (Py.truthy ref) then Some base
      else if Py.truthy (scheme r) then Some ref
      else if Py.startswith ref "//" then Some (scheme b +:+ ":" +:+ ref)
      else if Py.startswith ref "/" then Some (scheme b +:+ "://" +:+ netloc b +:+ ref)
      else Some (scheme b +:+ "://" +:+ netloc b
                 +:+ (match fst (split_last_segment (path b)) with
                      | EmptyString => "/"
                      | dir => dir
                      end) +:+ ref)
  | _, _ => None
  end.

Fixpoint lookup {A} (k : string) (table : list (string * A)) : option A :=
  match table with
  | [] => None
  | (k', v) :: rest => if String.eqb k' k then Some v else lookup k rest
  end.

(** A site: what [session.get] answers for each URL (a URL that is not
    listed refuses the connection) and the tags of each body. *)
Record site := {
  answers : list (string * get_result);
  documents : list (string * list tag) }.

Definition get (w : site) (t : nat) (u : string) (timeout : Z) : get_result :=
  default (Raises ConnectionError) (lookup u (answers w)).

Definition parse (w : site) (html : string) : option (list tag) :=
  Some (default [] (lookup html (documents w))).

Definition runtime (w : site) : Runtime := {|
  urlparse := simple_urlparse;
  urljoin := simple_urljoin;
  BeautifulSoup := parse w;
  session_get := get w;
  set_order := elements;
  set_order_perm := fun s => reflexivity (elements s) |}.

Definition a_href (href : string) : tag :=
  {| tag_name := "a"; tag_attrs := [("href", href)] |}.

Definition meta_refresh (content : string) : tag :=
  {| tag_name := "meta"; tag_attrs := [("http-equiv", "refresh"); ("content", content)] |}.

End Demo.


(** ** The numbers that floats stand for *)

Module FloatValue.
Import Reals.

(** [2 ^ e] for an integer [e]. *)
Definition pow2 (e : Z) : R := powerRZ 2 e.

(** The number written [m * 2 ^ e]. *)
Definition scaled (m e : Z) : R := (IZR m * pow2 e)%R.



End FloatValue.

(** ** The properties as the specification words them *)

Module Spec.

(** A URL is in scope iff its host equals the seed host or ends with a dot
    followed by the registrable domain. *)
Definition in_scope (seed_host registrable host : string) : bool :=
  String.eqb host seed_host || Py.endswith host ("." +:+ registrable).

(** A 2xx status. *)
Definition is_success (status_code : Z) : bool :=
  (200 <=? status_code)%Z && (status_code <? 300)%Z.


(** Every fetch attempt of a trace comes after the mark of its URL. *)
Definition marked_before_fetch (tr : list event) : Prop :=
  forall pre u post, tr = pre ++ Get u :: post -> Mark u ∈ pre.



(** The links that the fetch of [u] at the time [t] brings: those that
    [extract_links_from_page] finds in the body when the status code is 200
    and the body is not empty, none otherwise. *)
Definition links_fetched `{Runtime} (V : Smart.variant) (a : Smart.analyzer)
  (u : string) (t : nat) : gset string :=
  match session_get t u (Smart.crawl_timeout V) with
  | Response status_code text =>
      if (status_code =? 200)%Z && Py.truthy text
      then Smart.extract_links_from_page a u text
      else ∅
  | Raises _ => ∅
  end.

(** The projected number of further links, scaled by the damping constant
    where there is one. *)
Definition damped (factor : option spec_float) (projected : spec_float) : spec_float :=
  match factor with
  | None => projected
  | Some f => Float.mul projected f
  end.

(** The projection of the specification, in exact arithmetic:
    [avgNewLinksPerSample = totalNewLinksFromSamples / successfulSampleCount],
    [projectedRemaining = avgNewLinksPerSample * (firstLevelLinkCount -
    sampleSize)], scaled by the damping constant where there is one. *)
Definition projected (factor : option QArith_base.Q) (total ok remaining : Z)
  : QArith_base.Q :=
  let avg_new_links_per_sample :=
    QArith_base.Qdiv (QArith_base.inject_Z total) (QArith_base.inject_Z ok) in
  let projected_remaining :=
    QArith_base.Qmult avg_new_links_per_sample (QArith_base.inject_Z remaining) in
  match factor with
  | None => projected_remaining
  | Some c => QArith_base.Qmult projected_remaining c
  end.

(** The damping constant of a variant: 7/10 where the code writes [0.7]. *)
Definition damping_constant (V : Smart.variant) : option QArith_base.Q :=
  (fun _ => QArith_base.Qmake 7 10) <$> Smart.damping V.

(** [extrapolatedTotal = discoveredSoFar + floor(projectedRemaining)], and
    [discoveredSoFar] when no sample has succeeded. *)
Definition extrapolated_total (V : Smart.variant)
  (discovered total ok remaining : Z) : Z :=
  if (0 <? ok)%Z
  then (discovered + Qround.Qfloor (projected (damping_constant V) total ok remaining))%Z
  else discovered.

(** The document extensions of the specification. *)
Definition document_extensions : list string :=
  [".html"; ".htm"; ".php"; ".asp"; ".jsp"; ".py"; ".pdf"; ".doc"].

End Spec.

(** ** Sites on which the methods are run *)

Module Sites.

(** The seed page links to two pages of the site, to a subdomain, to a host
    that merely contains the registrable domain, and to a foreign host. *)
Definition shop : Demo.site := {|
  Demo.answers :=
    [("https://example.com", Response 200 "<seed>");
     ("https://example.com/docs/intro.html", Response 200 "<intro>");
     ("https://example.com/new", Response 201 "<created>");
     ("https://api.example.com/", Response 200 "<api>")];
  Demo.documents :=
    [("<seed>",
      [Demo.a_href "/docs/intro.html";
       Demo.a_href "https://api.example.com/";
       Demo.a_href "https://notexample.com/x";
       Demo.a_href "https://foreign.example.org/"]);
     ("<intro>",
      [Demo.a_href "https://example.com";
       Demo.a_href "/docs/intro.html#top"])] |}.

(** A page that redirects to itself by a meta refresh. *)
Definition loop : Demo.site := {|
  Demo.answers := [("https://example.com/a", Response 200 "<refresh>")];
  Demo.documents :=
    [("<refresh>",
      [Demo.a_href "https://example.com/a";
       Demo.meta_refresh "0; url=https://example.com/a"])] |}.

(** A seed page with three links. *)
Definition three : Demo.site := {|
  Demo.answers :=
    [("https://example.com", Response 200 "<seed>");
     ("https://example.com/a", Response 200 "<leaf>");
     ("https://example.com/b", Response 200 "<leaf>");
     ("https://example.com/c", Response 200 "<leaf>")];
  Demo.documents :=
    [("<seed>", [Demo.a_href "/a"; Demo.a_href "/b"; Demo.a_href "/c"]);
     ("<leaf>", [])] |}.

(** The initial scan finds [/z], [/c] and, behind [/z], [/y]; the page [/y],
    which the scan does not fetch, links to [/a]. *)
Definition dated : Demo.site := {|
  Demo.answers :=
    [("https://example.com", Response 200 "<seed>");
     ("https://example.com/z", Response 200 "<z>");
     ("https://example.com/y", Response 200 "<y>");
     ("https://example.com/a", Response 200 "<leaf>")];
  Demo.documents :=
    [("<seed>", [Demo.a_href "/z"; Demo.a_href "/c"]);
     ("<z>", [Demo.a_href "/y"]);
     ("<y>", [Demo.a_href "/a"]);
     ("<leaf>", [])] |}.

(** A seed page with eight links; each of these pages links to a page of
    its own and to one page that they share. *)
Definition wide : Demo.site := {|
  Demo.answers :=
    [("https://example.com", Response 200 "<seed>");
     ("https://example.com/p1", Response 200 "<p1>");
     ("https://example.com/p2", Response 200 "<p2>");
     ("https://example.com/p3", Response 200 "<p3>");
     ("https://example.com/p4", Response 200 "<p4>");
     ("https://example.com/p5", Response 200 "<p5>");
     ("https://example.com/p6", Response 200 "<p6>");
     ("https://example.com/p7", Response 200 "<p7>");
     ("https://example.com/p8", Response 200 "<p8>");
     ("https://example.com/shared", Response 200 "<leaf>")];
  Demo.documents :=
    [("<seed>",
      [Demo.a_href "/p1"; Demo.a_href "/p2"; Demo.a_href "/p3"; Demo.a_href "/p4";
       Demo.a_href "/p5"; Demo.a_href "/p6"; Demo.a_href "/p7"; Demo.a_href "/p8"]);
     ("<p1>", [Demo.a_href "/p1/x"; Demo.a_href "/shared"]);
     ("<p2>", [Demo.a_href "/p2/x"; Demo.a_href "/shared"]);
     ("<p3>", [Demo.a_href "/p3/x"; Demo.a_href "/shared"]);
     ("<p4>", [Demo.a_href "/p4/x"; Demo.a_href "/shared"]);
     ("<p5>", [Demo.a_href "/p5/x"; Demo.a_href "/shared"]);
     ("<p6>", [Demo.a_href "/p6/x"; Demo.a_href "/shared"]);
     ("<p7>", [Demo.a_href "/p7/x"; Demo.a_href "/shared"]);
     ("<p8>", [Demo.a_href "/p8/x"; Demo.a_href "/shared"]);
     ("<leaf>", [])] |}.


Definition smart (w : Demo.site) (seed : string) (max_pages : Z) : Smart.analyzer :=
  default
    {| Smart.url := seed; Smart.domain := EmptyString;
       Smart.base_domain := EmptyString; Smart.max_depth := 3;
       Smart.max_pages := max_pages |}
    (@Smart.init (Demo.runtime w) seed 3 max_pages).

Definition advanced (w : Demo.site) (seed : string) (max_pages : Z) : Advanced.analyzer :=
  default
    {| Advanced.url := seed; Advanced.domain := EmptyString;
       Advanced.base_domain := EmptyString; Advanced.max_depth := 3;
       Advanced.max_pages := max_pages |}
    (@Advanced.init (Demo.runtime w) seed 3 max_pages).

(** The state after the initial scan of a site. *)
Definition scanned (V : Smart.variant) (w : Demo.site) (seed : string) : Smart.state :=
  match @Smart.initial_scan (Demo.runtime w) V (smart w seed 100) Smart.fresh with
  | Some (_, s) => s
  | None => Smart.fresh
  end.

(** The state after the fetch of the main page, and the sample loop of the
    initial scan on the links of a main page whose body is [html]: the new
    links, the successful samples and the state. *)
Definition main_page (w : Demo.site) (seed : string) : Smart.state :=
  snd (@Smart.get_page_content (Demo.runtime w) seed 10 Smart.fresh).


(** The queue with which [controlled_crawl] starts after the initial scan. *)
Definition queued (V : Smart.variant) (w : Demo.site) (seed : string) : Smart.state :=
  @Smart.controlled_crawl_start (Demo.runtime w) (scanned V w seed).

(** The state after one more round of the loop of [controlled_crawl]. *)
Definition next (V : Smart.variant) (w : Demo.site) (seed : string)
  (max_pages : Z) (s : Smart.state) : Smart.state :=
  Smart.state_of (@Smart.crawl_step (Demo.runtime w) V (smart w seed max_pages) s).

(** The result of [controlled_crawl] after the initial scan. *)
Definition crawled (V : Smart.variant) (w : Demo.site) (seed : string)
  (max_pages : Z) : Smart.step_result :=
  default (Smart.Finished Smart.fresh)
    (@Smart.controlled_crawl (Demo.runtime w) V (smart w seed max_pages) 100
       (scanned V w seed)).

End Sites.

(** ** Further methods of the analyzers *)

(** *** What the reports compute *)

Module Report.

(** [len([p for p in subdir.split('/') if p])]: the level under which
    [print_final_results] and [print_detailed_results] list a
    subdirectory. *)
Definition directory_level (subdir : string) : nat :=
  length (filter (fun p => Py.truthy p = true) (Py.split "/" subdir)).

(** What [classify_url] records for a URL, read back from the result sets:
    the host of a subdomain, a page with an extension, or the directory of
    any other path that is not empty. *)
Definition recorded `{Runtime} (V : Smart.variant) (a : Smart.analyzer)
  (u : string) (s : Smart.state) : Prop :=
  exists parsed, urlparse u = Some parsed /\
    let pth := Py.rstrip_slash (path parsed) in
    if bool_decide (netloc parsed ≠ Smart.domain a)
       && Py.contains (Smart.base_domain a) (netloc parsed)
    then netloc parsed ∈ Smart.found_subdomains s
    else if Py.truthy pth then
      if existsb (Py.endswith (Py.lower pth)) (Smart.page_extensions V)
      then u ∈ Smart.found_pages s
      else Py.lstrip_slash pth ∈ Smart.found_subdirectories s
    else True.

(** The results and the bookkeeping of the crawl, which [initial_scan] has
    no business with. *)
Definition crawl_fields_equal (s s' : Smart.state) : Prop :=
  Smart.found_subdomains s' = Smart.found_subdomains s /\
  Smart.found_subdirectories s' = Smart.found_subdirectories s /\
  Smart.found_pages s' = Smart.found_pages s /\
  Smart.visited_urls s' = Smart.visited_urls s /\
  Smart.crawl_count s' = Smart.crawl_count s /\
  Smart.urls_to_crawl s' = Smart.urls_to_crawl s.

(** The result sets and the visited set of [s'] hold all that those of [s]
    hold. *)
Definition grows (s s' : Smart.state) : Prop :=
  Smart.found_subdomains s ⊆ Smart.found_subdomains s' /\
  Smart.found_subdirectories s ⊆ Smart.found_subdirectories s' /\
  Smart.found_pages s ⊆ Smart.found_pages s' /\
  Smart.visited_urls s ⊆ Smart.visited_urls s'.

(** Every subdirectory of [s'] that [s] does not hold has a level of one at
    least. *)
Definition new_levels_positive (s s' : Smart.state) : Prop :=
  forall d, d ∈ Smart.found_subdirectories s' ->
    d ∈ Smart.found_subdirectories s \/ (1 <= directory_level d)%nat.

End Report.

(** *** [main]: the URL typed by the user *)

Module Main.

(** [url.startswith(('http://', 'https://'))] *)
Definition has_http_scheme (u : string) : bool :=
  Py.startswith u "http://" || Py.startswith u "https://".

(** The seed URL of [main]: the input stripped, with [https://] put in
    front when it starts with neither scheme. *)
Definition seed_url (input : string) : string :=
  let u := Py.strip input in
  if negb (has_http_scheme u) then "https://" +:+ u else u.

(** [get_user_permission] of Url_finder.py, given what the user types:
    [input(...).lower().strip() == 'y']. *)
Definition get_user_permission (typed : string) : bool :=
  String.eqb (Py.strip (Py.lower typed)) "y".

End Main.

(** *** [WebsiteAnalyzer] of url_finder3.py

    Its [__init__], [get_page_content], [is_same_domain] and [classify_url]
    are, word for word, those of Url_finder.py; the analyzer and the state
    are those of [Smart], with the page extensions of [Smart.Url_finder]. *)

Module Recursive.

Inductive outcome :=
| Returned (s : Smart.state)
| Raised (s : Smart.state).

Definition state_of (r : outcome) : Smart.state :=
  match r with Returned s | Raised s => s end.

Section Methods.
Context `{Runtime}.

(** The loop of [extract_links_from_page] over the tags: as in Url_finder.py,
    but a link that is already in [visited_urls] is left out too. *)
Fixpoint anchor_links (a : Smart.analyzer) (visited : gset string) (u : string)
  (tags : list tag) (links : gset string) : gset string * bool :=
  match tags with
  | [] => (links, false)
  | t :: tags' =>
      let href := Py.strip (default EmptyString (attr "href" (tag_attrs t))) in
      if Py.truthy href then
        match urljoin u href with
        | None => (links, true)
        | Some full_url =>
            if Smart.is_same_domain a full_url then
              match urlparse full_url with
              | None => (links, true)
              | Some parsed =>
                  let clean_url := Smart.clean_url_of parsed in
                  if bool_decide (clean_url ≠ u) && bool_decide (clean_url ∉ visited)
                  then anchor_links a visited u tags' ({[clean_url]} ∪ links)
                  else anchor_links a visited u tags' links
              end
            else anchor_links a visited u tags' links
        end
      else anchor_links a visited u tags' links
  end.

(** [extract_links_from_page] *)
Definition extract_links_from_page (a : Smart.analyzer) (s : Smart.state)
  (u html_content : string) : gset string :=
  match BeautifulSoup html_content with
  | None => ∅
  | Some doc =>
      match anchor_links a (Smart.visited_urls s) u
              (find_all_href ["a"; "link"] doc) ∅ with
      | (links, true) => links
      | (links, false) => Smart.meta_refresh_links a u doc links
      end
  end.

(** The loop [for link in links] of [crawl_website], [visit] being the
    recursive call: it stops at the first link that finds the page budget
    used up, and when a call raises. *)
Fixpoint each_link (a : Smart.analyzer)
  (visit : string -> Smart.state -> list (string * Z) -> outcome * list (string * Z))
  (links : list string) (s : Smart.state) (fetched : list (string * Z))
  : outcome * list (string * Z) :=
  match links with
  | [] => (Returned s, fetched)
  | link :: links' =>
      if (Z.of_nat (size (Smart.visited_urls s)) <? Smart.max_pages a)%Z then
        match visit link s fetched with
        | (Returned s', fetched') => each_link a visit links' s' fetched'
        | (Raised s', fetched') => (Raised s', fetched')
        end
      else (Returned s, fetched)
  end.

(** [crawl_website(start_url, depth)]; with it goes the list of the URLs
    fetched and the depth of each.  A call at a depth beyond [max_depth]
    returns at once, so the recursion is at most [max_depth + 1] calls
    deep: [fuel] counts the calls that may still nest.  [Raised]:
    [classify_url] raised, which ends the whole crawl. *)
Fixpoint crawl_website_from (fuel : nat) (a : Smart.analyzer) (start_url : string)
  (depth : Z) (s : Smart.state) (fetched : list (string * Z))
  : outcome * list (string * Z) :=
  match fuel with
  | O => (Returned s, fetched)
  | S fuel' =>
      if (Smart.max_depth a <? depth)%Z
         || (Smart.max_pages a <=? Z.of_nat (size (Smart.visited_urls s)))%Z
      then (Returned s, fetched)
      else if bool_decide (start_url ∈ Smart.visited_urls s) then (Returned s, fetched)
      else
        let s1 := Smart.record (Mark start_url)
                    (Smart.set_visited_urls ({[start_url]} ∪ Smart.visited_urls s) s) in
        let '(html_content, s2) := Smart.get_page_content start_url 10 s1 in
        let fetched2 := fetched ++ [(start_url, depth)] in
        match html_content with
        | None => (Returned s2, fetched2)
        | Some html =>
            if negb (Py.truthy html) then (Returned s2, fetched2)
            else
              match Smart.classify_url Smart.Url_finder a start_url s2 with
              | None => (Raised s2, fetched2)
              | Some (_, s3) =>
                  each_link a (fun link => crawl_website_from fuel' a link (depth + 1)%Z)
                    (set_order (extract_links_from_page a s3 start_url html)) s3 fetched2
              end
        end
  end.

(** [crawl_website()], from the seed at depth 0. *)
Definition crawl_website (a : Smart.analyzer) (s : Smart.state)
  : outcome * list (string * Z) :=
  crawl_website_from (Z.to_nat (Smart.max_depth a + 1)) a (Smart.url a) 0%Z s [].

End Methods.

(** The events of a list of fetched URLs: each is marked visited, then
    requested. *)
Definition marks_and_gets (new : list (string * Z)) : list event :=
  flat_map (fun p => [Mark p.1; Get p.1]) new.

(** What calls of [crawl_website] at [depth] or deeper may do between the
    states [s] and [s'], [new] being the URLs they fetch: each is new to
    [visited_urls] and is fetched once, at a depth between [depth] and
    [max_depth], and the visited set stays within [max_pages]. *)
Definition within_budget (a : Smart.analyzer) (depth : Z) (s s' : Smart.state)
  (new : list (string * Z)) : Prop :=
  Smart.trace s' = Smart.trace s ++ marks_and_gets new /\
  Smart.visited_urls s' = list_to_set new.*1 ∪ Smart.visited_urls s /\
  NoDup new.*1 /\
  (forall u, u ∈ new.*1 -> u ∉ Smart.visited_urls s) /\
  Forall (fun p => (depth <= p.2 <= Smart.max_depth a)%Z) new /\
  (new = [] \/
   (Z.of_nat (size (Smart.visited_urls s)) + Z.of_nat (length new)
    <= Smart.max_pages a)%Z).

End Recursive.

(** *** [analyze_links] of url_scraper.py *)

Module Links.

(** The attributes that [analyze_links] fills. *)
Record results := {
  found_subdomains : gset string;
  found_subdirectories : gset string;
  directory_categories : gmap string (list string) }.

(** As [__init__] leaves them. *)
Definition none : results :=
  {| found_subdomains := ∅; found_subdirectories := ∅; directory_categories := ∅ |}.

Section Methods.
Context `{Runtime}.

(** The body of the loop of [analyze_links] for one URL; [None] when
    [urlparse] raises, which nothing catches before [main].
    [directory_categories] is a [defaultdict(list)]. *)
Definition analyze_link (a : Advanced.analyzer) (r : results) (u : string)
  : option results :=
  match urlparse u with
  | None => None
  | Some parsed =>
      let r1 :=
        if bool_decide (netloc parsed ≠ Advanced.domain a)
           && Py.contains (Advanced.base_domain a) (netloc parsed)
        then {| found_subdomains := {[netloc parsed]} ∪ found_subdomains r;
                found_subdirectories := found_subdirectories r;
                directory_categories := directory_categories r |}
        else r in
      if bool_decide (netloc parsed = Advanced.domain a)
         || Py.endswith (netloc parsed) ("." +:+ Advanced.base_domain a)
      then
        let pth := Py.strip_slash (path parsed) in
        if Py.truthy pth then
          let path_parts := Py.split "/" pth in
          match path_parts with
          | category :: _ =>
              Some {| found_subdomains := found_subdomains r1;
                      found_subdirectories := {[u]} ∪ found_subdirectories r1;
                      directory_categories :=
                        <[category :=
                            default [] (directory_categories r1 !! category) ++ [u]]>
                          (directory_categories r1) |}
          | [] =>
              Some {| found_subdomains := found_subdomains r1;
                      found_subdirectories := {[u]} ∪ found_subdirectories r1;
                      directory_categories := directory_categories r1 |}
          end
        else Some r1
      else Some r1
  end.

(** [analyze_links]: the loop over [all_internal_links]. *)
Definition analyze_links (a : Advanced.analyzer) (s : Advanced.state) (r : results)
  : option results :=
  fold_left (fun acc u => acc ≫= fun r0 => analyze_link a r0 u)
            (set_order (Advanced.all_internal_links s)) (Some r).

End Methods.

(** What [analyze_links] lists as a directory: a URL whose host is the seed
    host or ends with a dot and the base domain, and whose path holds more
    than slashes; [category] is the first segment of that path. *)
Definition listed `{Runtime} (a : Advanced.analyzer) (u category : string) : Prop :=
  exists parsed, urlparse u = Some parsed /\
    Spec.in_scope (Advanced.domain a) (Advanced.base_domain a) (netloc parsed) = true /\
    Py.truthy (Py.strip_slash (path parsed)) = true /\
    head (Py.split "/" (Py.strip_slash (path parsed))) = Some category.

(** Between two states of the crawl: [all_internal_links] has grown, and by
    URLs that [should_crawl_url] accepts only. *)
Definition collects `{Runtime} (a : Advanced.analyzer) (s s' : Advanced.state) : Prop :=
  Advanced.all_internal_links s ⊆ Advanced.all_internal_links s' /\
  forall x, x ∈ Advanced.all_internal_links s' ->
    x ∈ Advanced.all_internal_links s \/ Advanced.should_crawl_url a x = true.

(** The subdomains that [analyze_links] reads off a list of URLs: the hosts
    other than the seed host that contain the base domain. *)
Definition subdomain_of `{Runtime} (a : Advanced.analyzer) (urls : list string)
  (d : string) : Prop :=
  exists u parsed, u ∈ urls /\ urlparse u = Some parsed /\ netloc parsed = d /\
    d <> Advanced.domain a /\ Py.contains (Advanced.base_domain a) d = true.

(** What the loop of [analyze_links] has made of the results [r0] when it
    has gone through the URLs [seen]. *)
Definition analysed `{Runtime} (a : Advanced.analyzer) (r0 : results)
  (seen : list string) (r : results) : Prop :=
  (forall d, d ∈ found_subdomains r <->
     d ∈ found_subdomains r0 \/ subdomain_of a seen d) /\
  (forall x, x ∈ found_subdirectories r <->
     x ∈ found_subdirectories r0 \/ (x ∈ seen /\ exists c, listed a x c)) /\
  (forall c x, (exists us, directory_categories r !! c = Some us /\ x ∈ us) <->
     (x ∈ seen /\ listed a x c)) /\
  (forall c us, directory_categories r !! c = Some us -> NoDup us /\ us <> []).

End Links.

(** *** The subdomain check *)

(** What the subdomain check gets from the resolver and from the network.
    The checks run in a thread pool, each with its own requests; [i] is the
    position of the check in the list of names.
    - [dns_resolve i name]: [false] when [dns.resolver.resolve(name, 'A')]
      raises;
    - [session_head i url timeout]: what [session.head(url, timeout=timeout,
      allow_redirects=True)] gives. *)
Class Prober := {
  dns_resolve : nat -> string -> bool;
  session_head : nat -> string -> Z -> get_result }.

Module Probe.

(** The names of Url_finder.py, url_finder2.py and url_finder3.py. *)
Definition common_subdomains : list string :=
  ["www"; "mail"; "ftp"; "blog"; "shop"; "store"; "news";
   "support"; "help"; "forum"; "api"; "docs"; "cdn"; "static";
   "images"; "img"; "media"; "admin"; "login"; "secure";
   "app"; "mobile"; "m"; "test"; "dev"; "staging"; "demo";
   "portal"; "client"; "customer"; "member"; "user"; "status";
   "beta"; "alpha"; "v2"; "download"; "files"; "bugs"; "issues"].

(** The names of url_scraper.py; [help] is there twice. *)
Definition common_subdomains_scraper : list string :=
  ["www"; "mail"; "ftp"; "blog"; "shop"; "store"; "news"; "support";
   "help"; "forum"; "api"; "docs"; "cdn"; "static"; "images"; "img";
   "media"; "admin"; "login"; "secure"; "app"; "mobile"; "m"; "test";
   "dev"; "staging"; "demo"; "portal"; "client"; "download"; "files";
   "wiki"; "community"; "learn"; "tutorial"; "guide"; "help"].

(** The checks to run: every name with its position. *)
Definition tasks (names : list string) : list (nat * string) :=
  zip (seq 0 (length names)) names.

Section Methods.
Context `{Prober}.

(** One [session.head] of [check_subdomain]: a status code below 400; a
    request that raises moves on to the next protocol. *)
Definition head_ok (i : nat) (test_url : string) : bool :=
  match session_head i test_url 5 with
  | Response status_code _ => (status_code <? 400)%Z
  | Raises _ => false
  end.

(** [check_subdomain]: the full name when it resolves and answers over
    [https] or, failing that, over [http]. *)
Definition check_subdomain (base_domain : string) (i : nat) (subdomain : string)
  : option string :=
  let full_subdomain := subdomain +:+ "." +:+ base_domain in
  if dns_resolve i full_subdomain then
    if existsb (fun protocol => head_ok i (protocol +:+ "://" +:+ full_subdomain))
               ["https"; "http"]
    then Some full_subdomain
    else None
  else None.

(** [if result: self.found_subdomains.add(result)] *)
Definition add_result (found : gset string) (result : option string) : gset string :=
  match result with
  | Some r => if Py.truthy r then {[r]} ∪ found else found
  | None => found
  end.

(** [find_subdomains_dns], the checks completing in the order [completed]. *)
Definition find_subdomains_dns_in (completed : list (nat * string))
  (base_domain : string) (found : gset string) : gset string :=
  fold_left (fun acc t => add_result acc (check_subdomain base_domain t.1 t.2))
            completed found.

(** [find_subdomains_dns], the checks completing in the order of the list. *)
Definition find_subdomains_dns (base_domain : string) (found : gset string)
  : gset string :=
  find_subdomains_dns_in (tasks common_subdomains) base_domain found.

(** [check_subdomain] of url_scraper.py: a name that is already in
    [found_subdomains] is not checked. *)
Definition check_subdomain_unless_found (base_domain : string) (found : gset string)
  (i : nat) (subdomain : string) : option string :=
  let full_subdomain := subdomain +:+ "." +:+ base_domain in
  if bool_decide (full_subdomain ∈ found) then None
  else check_subdomain base_domain i subdomain.

(** [find_additional_subdomains]: all the checks are done, with
    [found_subdomains] as it was, before the first result is added. *)
Definition find_additional_subdomains (base_domain : string) (found : gset string)
  : gset string :=
  fold_left add_result
    ((fun t => check_subdomain_unless_found base_domain found t.1 t.2)
       <$> tasks common_subdomains_scraper)
    found.

End Methods.
End Probe.

(** *** [analyze_with_initial_scan] and [analyze_with_preview] *)

Module Pipeline.

(** How an analysis ends: [initial_scan] raised, it returned [False], the
    user did not ask for the crawl, or the crawl was made. *)
Inductive ending :=
| ScanRaised
| ScanFailed (s : Smart.state)
| Cancelled (s : Smart.state)
| Crawled (r : Smart.step_result).

Section Methods.
Context `{Runtime} `{Prober}.

(** [choice == '1'] of [analyze_with_preview], [choice] being the input
    stripped. *)
Definition chooses_crawl (typed : string) : bool :=
  String.eqb (Py.strip typed) "1".

(** The steps that the two methods share: the initial scan, the answer of
    the user, the subdomain check and the crawl.  [None]: the loop of the
    crawl needs more than [fuel] rounds. *)
Definition analyze (V : Smart.variant) (a : Smart.analyzer) (proceed : bool)
  (fuel : nat) (s : Smart.state) : option ending :=
  match Smart.initial_scan V a s with
  | None => Some ScanRaised
  | Some (false, s1) => Some (ScanFailed s1)
  | Some (true, s1) =>
      if negb proceed then Some (Cancelled s1)
      else
        let s2 :=
          Smart.set_found_subdomains
            (Probe.find_subdomains_dns (Smart.base_domain a) (Smart.found_subdomains s1))
            s1 in
        Crawled <$> Smart.controlled_crawl V a fuel s2
  end.

(** [analyze_with_initial_scan] of Url_finder.py. *)
Definition analyze_with_initial_scan (a : Smart.analyzer) (typed : string)
  (fuel : nat) (s : Smart.state) : option ending :=
  analyze Smart.Url_finder a (Main.get_user_permission typed) fuel s.

(** [analyze_with_preview] of url_finder2.py; the answer 2 ends it after the
    preview of [show_initial_urls_only], which prints and changes nothing. *)
Definition analyze_with_preview (a : Smart.analyzer) (typed : string)
  (fuel : nat) (s : Smart.state) : option ending :=
  analyze Smart.url_finder2 a (chooses_crawl typed) fuel s.

End Methods.
End Pipeline.

(** *** [show_initial_urls_only] of url_finder2.py *)

Module Preview.

(** The three sets of the quick classification. *)
Record sets := {
  temp_subdomains : gset string;
  temp_subdirectories : gset string;
  temp_pages : gset string }.

Section Methods.
Context `{Runtime}.

(** The body of its loop for one URL; [None] when [urlparse] raises.  The
    extensions are written out in the method: the six of Url_finder.py. *)
Definition preview_url (a : Smart.analyzer) (t : sets) (u : string) : option sets :=
  match urlparse u with
  | None => None
  | Some parsed =>
      let dom := netloc parsed in
      let pth := Py.rstrip_slash (path parsed) in
      if bool_decide (dom ≠ Smart.domain a) && Py.contains (Smart.base_domain a) dom then
        Some {| temp_subdomains := {[dom]} ∪ temp_subdomains t;
                temp_subdirectories := temp_subdirectories t;
                temp_pages := temp_pages t |}
      else if Py.truthy pth then
        if existsb (Py.endswith (Py.lower pth))
                   [".html"; ".htm"; ".php"; ".asp"; ".jsp"; ".py"]
        then Some {| temp_subdomains := temp_subdomains t;
                     temp_subdirectories := temp_subdirectories t;
                     temp_pages := {[u]} ∪ temp_pages t |}
        else Some {| temp_subdomains := temp_subdomains t;
                     temp_subdirectories :=
                       {[Py.lstrip_slash pth]} ∪ temp_subdirectories t;
                     temp_pages := temp_pages t |}
      else Some t
  end.

(** The loop of [show_initial_urls_only] over the URLs of the initial
    scan. *)
Definition show_initial_urls_only (a : Smart.analyzer) (s : Smart.state)
  : option sets :=
  fold_left (fun acc u => acc ≫= fun t => preview_url a t u)
            (set_order (Smart.initial_urls_found s))
            (Some {| temp_subdomains := ∅; temp_subdirectories := ∅;
                     temp_pages := ∅ |}).

End Methods.

(** The result sets of a state. *)
Definition of_state (s : Smart.state) : sets :=
  {| temp_subdomains := Smart.found_subdomains s;
     temp_subdirectories := Smart.found_subdirectories s;
     temp_pages := Smart.found_pages s |}.

End Preview.

(** *** Runs on the sites *)

Module Runs.

(** A resolver that knows two names of [example.com]; the first answers
    over [https], the second over [http] only. *)
Definition prober : Prober := {|
  dns_resolve := fun _ name =>
    String.eqb name "api.example.com" || String.eqb name "mail.example.com";
  session_head := fun _ test_url _ =>
    if String.eqb test_url "https://api.example.com" then Response 200 EmptyString
    else if String.eqb test_url "http://mail.example.com" then Response 301 EmptyString
    else if String.eqb test_url "https://mail.example.com" then Raises ConnectionError
    else Response 404 EmptyString |}.

(** The first sample of the initial scan of the site [wide]. *)
Definition first_sample : Z * Z * Smart.state :=
  @Smart.sample_page (Demo.runtime Sites.wide) Smart.Url_finder
    (Sites.smart Sites.wide "https://example.com" 100)
    (0%Z, 0%Z, Sites.main_page Sites.wide "https://example.com")
    "https://example.com/p1".

(** The recursive crawl of url_finder3.py on a site. *)
Definition recursive (w : Demo.site) (seed : string) (max_pages : Z)
  : Recursive.outcome * list (string * Z) :=
  @Recursive.crawl_website (Demo.runtime w) (Sites.smart w seed max_pages) Smart.fresh.

(** The level crawl of url_scraper.py on a site, and its analysis. *)
Definition levels (w : Demo.site) (seed : string) (max_pages : Z) : Advanced.state :=
  @Advanced.crawl_website (Demo.runtime w) (Sites.advanced w seed max_pages)
    Advanced.fresh.

Definition analysed_links (w : Demo.site) (seed : string) : Links.results :=
  default Links.none
    (@Links.analyze_links (Demo.runtime w) (Sites.advanced w seed 100)
       (levels w seed 100) Links.none).

(** A whole analysis of a site by Url_finder.py, given what the user
    types. *)
Definition analysis (w : Demo.site) (seed typed : string) : Pipeline.ending :=
  default Pipeline.ScanRaised
    (@Pipeline.analyze_with_initial_scan (Demo.runtime w) prober
       (Sites.smart w seed 100) typed 100 Smart.fresh).

Definition state_of (e : Pipeline.ending) : Smart.state :=
  match e with
  | Pipeline.ScanFailed s | Pipeline.Cancelled s => s
  | Pipeline.Crawled r => Smart.state_of r
  | Pipeline.ScanRaised => Smart.fresh
  end.

Definition crawl_of (e : Pipeline.ending) : Smart.step_result :=
  match e with
  | Pipeline.Crawled r => r
  | _ => Smart.Finished Smart.fresh
  end.

(** The state after [classify_url] of Url_finder.py on a page of the site
    [shop]. *)
Definition classified_page : Smart.state :=
  match @Smart.classify_url (Demo.runtime Sites.shop) Smart.Url_finder
          (Sites.smart Sites.shop "https://example.com" 100)
          "https://example.com/docs/intro.html" Smart.fresh with
  | Some (_, s) => s
  | None => Smart.fresh
  end.

End Runs.

(** * Facts

    ** The string built-ins *)

Module PyFacts.

Lemma startswith_refl s : Py.startswith s s = true.
Proof.
  induction s as [|c s IH]; simpl; [reflexivity|].
  rewrite Ascii.eqb_refl. exact IH.
Qed.

Lemma startswith_app p t : Py.startswith (p +:+ t) p = true.
Proof.
  induction p as [|c p IH]; simpl.
  - destruct t; reflexivity.
  - rewrite Ascii.eqb_refl. exact IH.
Qed.

Lemma contains_cons sub c s :
  Py.contains sub (String c s) = Py.startswith (String c s) sub || Py.contains sub s.
Proof. reflexivity. Qed.

Lemma contains_refl s : Py.contains s s = true.
Proof.
  destruct s as [|c s]; [reflexivity|].
  rewrite contains_cons, startswith_refl. reflexivity.
Qed.

Lemma contains_app_r p b : Py.contains b (p +:+ b) = true.
Proof.
  induction p as [|c p IH].
  - apply contains_refl.
  - change (String c p +:+ b) with (String c (p +:+ b)).
    rewrite contains_cons, IH. apply orb_true_r.
Qed.

Lemma contains_app_r2 p q b : Py.contains b (p +:+ q +:+ b) = true.
Proof.
  induction p as [|c p IH].
  - exact (contains_app_r q b).
  - change (String c p +:+ q +:+ b) with (String c (p +:+ q +:+ b)).
    rewrite contains_cons, IH. apply orb_true_r.
Qed.

Lemma contains_app_mid p b q : Py.contains b (p +:+ b +:+ q) = true.
Proof.
  induction p as [|c p IH].
  - change (EmptyString +:+ b +:+ q) with (b +:+ q).
    destruct (b +:+ q) eqn:E.
    + destruct b; [reflexivity|discriminate].
    + rewrite contains_cons, <- E, startswith_app. reflexivity.
  - change (String c p +:+ b +:+ q) with (String c (p +:+ b +:+ q)).
    rewrite contains_cons, IH. apply orb_true_r.
Qed.

Lemma endswith_cons c s p :
  Py.endswith (String c s) p = String.eqb (String c s) p || Py.endswith s p.
Proof. reflexivity. Qed.

Lemma endswith_spec s p : Py.endswith s p = true <-> exists x, s = x +:+ p.
Proof.
  induction s as [|c s IH].
  - change (Py.endswith EmptyString p) with (String.eqb EmptyString p || false).
    rewrite orb_false_r, String.eqb_eq. split.
    + intros <-. exists EmptyString. reflexivity.
    + intros [x Hx]. destruct x; simpl in Hx; [exact Hx|discriminate].
  - rewrite endswith_cons, orb_true_iff, String.eqb_eq, IH. split.
    + intros [<- | [x ->]].
      * exists EmptyString. reflexivity.
      * exists (String c x). reflexivity.
    + intros [x Hx]. destruct x as [|d x].
      * left. exact Hx.
      * right. exists x.
        change (String d x +:+ p) with (String d (x +:+ p)) in Hx.
        injection Hx as _ Hs. exact Hs.
Qed.


Lemma split_cons sep c s :
  Py.split sep (String c s) =
  if Ascii.eqb c sep then EmptyString :: Py.split sep s
  else match Py.split sep s with
       | [] => [String c EmptyString]
       | w :: ws => String c w :: ws
       end.
Proof. reflexivity. Qed.

Lemma split_nonnil sep s : Py.split sep s <> [].
Proof.
  destruct s as [|c s]; [discriminate|].
  rewrite split_cons. destruct (Ascii.eqb c sep); [discriminate|].
  destruct (Py.split sep s); discriminate.
Qed.

Lemma join_cons sep x y ys :
  Py.join sep (x :: y :: ys) = x +:+ sep +:+ Py.join sep (y :: ys).
Proof. reflexivity. Qed.

Lemma join_split sep s : Py.join (String sep EmptyString) (Py.split sep s) = s.
Proof.
  induction s as [|c s IH]; [reflexivity|].
  rewrite split_cons. destruct (Ascii.eqb_spec c sep) as [->|Hne].
  - pose proof (split_nonnil sep s) as Hnil.
    destruct (Py.split sep s) as [|w ws]; [contradiction|].
    rewrite join_cons, IH. reflexivity.
  - pose proof (split_nonnil sep s) as Hnil.
    destruct (Py.split sep s) as [|w ws]; [contradiction|].
    destruct ws as [|w' ws].
    + change (Py.join (String sep EmptyString) [w]) with w in IH.
      rewrite IH. reflexivity.
    + rewrite join_cons in *. rewrite <- IH. reflexivity.
Qed.

Lemma lower_char_slash c :
  Ascii.eqb (Py.lower_char c) "/" = Ascii.eqb c "/".
Proof.
  destruct c as [[] [] [] [] [] [] [] []]; reflexivity.
Qed.

Lemma split_lower s :
  Py.split "/" (Py.lower s) = Py.lower <$> Py.split "/" s.
Proof.
  induction s as [|c s IH]; [reflexivity|].
  change (Py.lower (String c s)) with (String (Py.lower_char c) (Py.lower s)).
  rewrite !split_cons, lower_char_slash, IH.
  destruct (Ascii.eqb c "/"); [reflexivity|].
  destruct (Py.split "/" s); reflexivity.
Qed.

(** A string without a slash is not equal to one with a slash inside. *)
Lemma eqb_with_slash p t e :
  Py.contains "/" e = false -> String.eqb (p +:+ "/" +:+ t) e = false.
Proof.
  intros He. apply String.eqb_neq. intros <-.
  rewrite contains_app_mid in He. discriminate.
Qed.

Lemma endswith_skip p t e :
  Py.contains "/" e = false ->
  Py.endswith (p +:+ "/" +:+ t) e = Py.endswith t e.
Proof.
  intros He. induction p as [|c p IH].
  - change (EmptyString +:+ "/" +:+ t) with (String "/" t).
    rewrite endswith_cons.
    change (String "/" t) with (EmptyString +:+ "/" +:+ t) at 1.
    rewrite (eqb_with_slash _ _ _ He). reflexivity.
  - change (String c p +:+ "/" +:+ t) with (String c (p +:+ "/" +:+ t)).
    rewrite endswith_cons.
    change (String c (p +:+ "/" +:+ t)) with (String c p +:+ "/" +:+ t) at 1.
    rewrite (eqb_with_slash _ _ _ He). exact IH.
Qed.

Lemma endswith_join_last parts seg e :
  last parts = Some seg ->
  Py.contains "/" e = false ->
  Py.endswith (Py.join "/" parts) e = Py.endswith seg e.
Proof.
  intros Hlast He. induction parts as [|x [|y ys] IH].
  - discriminate.
  - injection Hlast as ->. reflexivity.
  - rewrite join_cons, (endswith_skip _ _ _ He). apply IH. exact Hlast.
Qed.

Lemma last_filter {A} (P : A -> Prop) `{forall x, Decision (P x)} (l : list A) x :
  last l = Some x -> P x -> last (filter P l) = Some x.
Proof.
  intros [l' ->]%last_Some HP.
  rewrite filter_app, filter_cons_True, filter_nil by exact HP.
  apply last_snoc.
Qed.

Lemma endswith_rstrip_slash s : Py.endswith (Py.rstrip_slash s) "/" = false.
Proof.
  unfold Py.rstrip_slash. induction s as [|c s IH]; [reflexivity|].
  cbn [Py.rstrip_by]. destruct (Py.rstrip_by Py.is_slash s) as [|d t] eqn:E.
  - unfold Py.is_slash. destruct (Ascii.eqb_spec c "/") as [->|Hne]; [reflexivity|].
    rewrite endswith_cons. apply orb_false_iff. split; [|reflexivity].
    apply String.eqb_neq. congruence.
  - rewrite endswith_cons, IH. apply orb_false_iff. split; [|reflexivity].
    apply String.eqb_neq. discriminate.
Qed.

(** The last segment of a non-empty path that does not end with a slash is
    not empty. *)
Lemma last_split_truthy s :
  s <> EmptyString ->
  Py.endswith s "/" = false ->
  exists seg, last (Py.split "/" s) = Some seg /\ Py.truthy seg = true.
Proof.
  induction s as [|c s IH]; [congruence|]. intros _ Hend.
  rewrite endswith_cons in Hend. apply orb_false_iff in Hend as [Heq Hend].
  rewrite split_cons. pose proof (split_nonnil "/" s) as Hnil.
  destruct s as [|d s].
  - destruct (Ascii.eqb_spec c "/") as [->|Hne]; [discriminate|].
    exists (String c EmptyString). split; reflexivity.
  - destruct (IH ltac:(discriminate) Hend) as (seg & Hseg & Ht).
    destruct (Py.split "/" (String d s)) as [|w ws]; [contradiction|].
    destruct (Ascii.eqb c "/"); [exists seg; split; assumption|].
    destruct ws as [|w' ws].
    + exists (String c w). split; reflexivity.
    + exists seg. split; assumption.
Qed.


Lemma startswith_cons_slash c s :
  Py.startswith (String c s) "/" = Ascii.eqb "/" c.
Proof. cbn. destruct s; apply andb_true_r. Qed.

(** In a path without an empty inner segment that does not end with a slash,
    only the first segment can be empty, and it is so only if the path is
    empty or starts with a slash. *)
Lemma split_segments_truthy s :
  Py.contains "//" s = false ->
  Py.endswith s "/" = false ->
  Forall (fun part => Py.truthy part = true) (tail (Py.split "/" s)) /\
  (head (Py.split "/" s) = Some EmptyString ->
   s = EmptyString \/ Py.startswith s "/" = true).
Proof.
  induction s as [|c s IH]; intros Hcont Hend.
  - split; [constructor|]. intros _. left. reflexivity.
  - rewrite contains_cons in Hcont. apply orb_false_iff in Hcont as [Hstart Hcont].
    rewrite endswith_cons in Hend. apply orb_false_iff in Hend as [Heq Hend].
    destruct (IH Hcont Hend) as [IHtail IHhead].
    rewrite split_cons. pose proof (split_nonnil "/" s) as Hnil.
    destruct (Ascii.eqb_spec c "/") as [->|Hne].
    + split; [|intros _; right; rewrite startswith_cons_slash; reflexivity].
      cbn [tail]. destruct (Py.split "/" s) as [|w ws] eqn:E; [contradiction|].
      constructor; [|exact IHtail].
      destruct w; [|reflexivity]. exfalso.
      destruct (IHhead eq_refl) as [-> | Hs].
      * discriminate Heq.
      * destruct s as [|d s]; [discriminate|].
        rewrite startswith_cons_slash in Hs.
        apply Ascii.eqb_eq in Hs. subst d. cbn in Hstart.
        destruct s; discriminate Hstart.
    + destruct (Py.split "/" s) as [|w ws] eqn:E; [contradiction|].
      split; [exact IHtail|]. discriminate.
Qed.

Lemma filter_all {A} (P : A -> Prop) `{forall x, Decision (P x)} (l : list A) :
  Forall P l -> filter P l = l.
Proof.
  induction 1 as [|x l Hx Hl IH]; [reflexivity|].
  rewrite filter_cons_True by exact Hx. rewrite IH. reflexivity.
Qed.

(** On such a path, joining the non-empty segments gives the path without
    its leading slash. *)
Lemma join_segments s :
  s <> EmptyString ->
  Py.endswith s "/" = false ->
  Py.contains "//" s = false ->
  Py.join "/" (filter (fun part => Py.truthy part = true) (Py.split "/" s))
  = Py.lstrip_slash s.
Proof.
  intros Hs Hend Hcont.
  destruct (split_segments_truthy s Hcont Hend) as [Htail Hhead].
  destruct s as [|c s]; [congruence|].
  destruct (Ascii.eqb_spec c "/") as [->|Hne].
  - rewrite split_cons in Htail |- *. cbn [Ascii.eqb Bool.eqb tail] in Htail |- *.
    rewrite filter_cons_False by (cbn; congruence).
    rewrite (filter_all _ _ Htail), join_split.
    unfold Py.lstrip_slash. cbn [Py.lstrip_by Py.is_slash Ascii.eqb Bool.eqb].
    destruct s as [|d s].
    + discriminate Hend.
    + cbn [Py.lstrip_by]. unfold Py.is_slash.
      destruct (Ascii.eqb_spec d "/") as [->|Hd]; [|reflexivity].
      rewrite contains_cons in Hcont. cbn in Hcont.
      destruct s; discriminate Hcont.
  - pose proof (join_split "/" (String c s)) as Hjoin.
    pose proof (split_nonnil "/" (String c s)) as Hnil.
    destruct (Py.split "/" (String c s)) as [|w ws] eqn:E; [contradiction|].
    cbn [tail] in Htail.
    assert (Hw : Py.truthy w = true).
    { destruct w; [|reflexivity]. destruct (Hhead eq_refl) as [?|Hst]; [congruence|].
      rewrite startswith_cons_slash in Hst. apply Ascii.eqb_eq in Hst. congruence. }
    rewrite filter_all by (constructor; assumption).
    rewrite Hjoin. unfold Py.lstrip_slash. cbn [Py.lstrip_by]. unfold Py.is_slash.
    destruct (Ascii.eqb_spec c "/"); [contradiction|reflexivity].
Qed.


End PyFacts.

(** ** Floats *)

Module FloatFacts.

Lemma sign_round_aux m e l :
  Float.sign_bit (binary_round_aux Float.prec Float.emax false m e l) = false.
Proof.
  unfold binary_round_aux.
  destruct (shr_fexp _ _ m e l) as [mrs' e'].
  destruct (shr_fexp _ _ _ e' loc_Exact) as [mrs'' e''].
  destruct (shr_m mrs''); [reflexivity| |reflexivity].
  destruct (Z.leb _ _); reflexivity.
Qed.

Lemma sign_of_int n : (0 <= n)%Z -> Float.sign_bit (Float.of_int n) = false.
Proof.
  intros Hn. unfold Float.of_int, binary_normalize.
  destruct n as [|p|p]; [reflexivity| |lia].
  unfold binary_round. destruct (shl_align _ _ _) as [mz ez].
  apply sign_round_aux.
Qed.

Lemma sign_mul x y :
  Float.sign_bit x = false -> Float.sign_bit y = false ->
  Float.sign_bit (Float.mul x y) = false.
Proof.
  unfold Float.mul, SFmul.
  destruct x as [sx|sx| |sx mx ex], y as [sy|sy| |sy my ey]; cbn [Float.sign_bit];
    intros Hx Hy; subst; try reflexivity.
  apply sign_round_aux.
Qed.

Lemma sign_truediv a b :
  (0 <= a)%Z -> (0 <= b)%Z -> Float.sign_bit (Float.truediv a b) = false.
Proof.
  intros Ha Hb. unfold Float.truediv, SFdiv.
  pose proof (sign_of_int a Ha) as Hsa. pose proof (sign_of_int b Hb) as Hsb.
  destruct (Float.of_int a) as [sx|sx| |sx mx ex], (Float.of_int b) as [sy|sy| |sy my ey];
    cbn [Float.sign_bit] in *; subst; try reflexivity.
  destruct (SFdiv_core_binary _ _ _ _ _ _) as [[mz ez] lz].
  apply sign_round_aux.
Qed.

(** On a float that is not negative, [int] is the floor. *)
Lemma to_int_floor x : Float.sign_bit x = false -> Float.to_int x = Float.floor x.
Proof. destruct x as [s|s| |s m e]; cbn; intros Hs; subst; reflexivity. Qed.

End FloatFacts.


(** ** Floats against exact arithmetic *)

(** The operations of [estimate] are those of binary64.  What follows
    bounds the distance between their results and the quotient and the
    products that they round: each operation keeps a number within one part
    in [2 ^ 52]. *)

Module FloatShape.
Import FloatValue.
Local Open Scope Z_scope.

(** *** Digits *)

Lemma digits2_pos_bounds p :
  2 ^ (Zpos (digits2_pos p) - 1) <= Zpos p < 2 ^ Zpos (digits2_pos p).
Proof.
  induction p as [p IH|p IH|]; cbn [digits2_pos].
  - rewrite Pos2Z.inj_succ.
    replace (Z.succ (Zpos (digits2_pos p)) - 1) with (Z.succ (Zpos (digits2_pos p) - 1)) by lia.
    rewrite !Z.pow_succ_r by lia. lia.
  - rewrite Pos2Z.inj_succ.
    replace (Z.succ (Zpos (digits2_pos p)) - 1) with (Z.succ (Zpos (digits2_pos p) - 1)) by lia.
    rewrite !Z.pow_succ_r by lia. lia.
  - cbn. lia.
Qed.


Lemma digits2_pos_gt p n : 0 <= n -> 2 ^ n <= Zpos p -> n < Zpos (digits2_pos p).
Proof.
  intros Hn Hp. pose proof (digits2_pos_bounds p) as [_ Hhi].
  assert (H : 2 ^ n < 2 ^ Zpos (digits2_pos p)) by lia.
  apply Z.pow_lt_mono_r_iff in H; lia.
Qed.

(** *** Shifts to the right *)









End FloatShape.

Module FloatBounds.
Import Reals Lra.
Import FloatValue FloatShape.
Local Open Scope R_scope.

Lemma pow2_pos e : 0 < pow2 e.
Proof. unfold pow2. apply powerRZ_lt. lra. Qed.

Lemma pow2_add a b : pow2 (a + b) = pow2 a * pow2 b.
Proof. unfold pow2. apply powerRZ_add. lra. Qed.


Lemma pow2_succ a : pow2 (a + 1) = 2 * pow2 a.
Proof. rewrite pow2_add. unfold pow2 at 2. simpl. lra. Qed.

Lemma pow2_IZR n : (0 <= n)%Z -> IZR (2 ^ n) = pow2 n.
Proof.
  intros Hn. unfold pow2. rewrite <- (Z2Nat.id n Hn) at 1.
  rewrite <- (Z2Nat.id n Hn) at 2.
  rewrite <- pow_powerRZ. generalize (Z.to_nat n). intros k.
  induction k as [|k IH].
  - reflexivity.
  - rewrite Nat2Z.inj_succ, Z.pow_succ_r by lia. rewrite mult_IZR, IH. simpl. lra.
Qed.

Lemma pow2_ge_1 n : (0 <= n)%Z -> 1 <= pow2 n.
Proof.
  intros Hn. rewrite <- pow2_IZR by exact Hn. apply IZR_le.
  pose proof (Z.pow_pos_nonneg 2 n ltac:(lia) Hn). lia.
Qed.

Lemma pow2_le a b : (a <= b)%Z -> pow2 a <= pow2 b.
Proof.
  intros Hab. replace b with (a + (b - a))%Z by lia. rewrite pow2_add.
  pose proof (pow2_pos a). pose proof (pow2_ge_1 (b - a) ltac:(lia)). nra.
Qed.

Lemma pow2_lt a b : (a < b)%Z -> pow2 a < pow2 b.
Proof.
  intros Hab. replace b with (a + 1 + (b - a - 1))%Z by lia.
  rewrite pow2_add, pow2_succ.
  pose proof (pow2_pos a). pose proof (pow2_ge_1 (b - a - 1) ltac:(lia)). nra.
Qed.

Lemma pow2_lt_inv a b : pow2 a < pow2 b -> (a < b)%Z.
Proof.
  intros Hlt. destruct (Z_lt_le_dec a b) as [H|H]; [exact H|].
  pose proof (pow2_le b a H). lra.
Qed.

Lemma scaled_digits p e :
  pow2 (Zpos (digits2_pos p) - 1 + e) <= scaled (Zpos p) e < pow2 (Zpos (digits2_pos p) + e).
Proof.
  pose proof (digits2_pos_bounds p) as [Hlo Hhi].
  apply IZR_le in Hlo. apply IZR_lt in Hhi.
  rewrite pow2_IZR in Hlo, Hhi by lia.
  unfold scaled. rewrite !pow2_add. pose proof (pow2_pos e). split; nra.
Qed.

(** The digits of a number below [2 ^ t]. *)
Lemma Zdigits2_le m e t :
  (0 <= m)%Z -> (e <= t)%Z -> scaled m e < pow2 t -> (Zdigits2 m + e <= t)%Z.
Proof.
  intros Hm Het Hlt. destruct m as [|p|p]; [cbn; lia| |lia].
  cbn [Zdigits2]. pose proof (scaled_digits p e) as [Hlo _].
  assert (Hpow : pow2 (Zpos (digits2_pos p) - 1 + e) < pow2 t) by lra.
  apply pow2_lt_inv in Hpow. lia.
Qed.




(** *** Rounding *)



(** *** The operations of [estimate] *)





(** *** The product of [estimate] *)









End FloatBounds.

(** ** The classifier *)

Section Classification.
Context `{Runtime}.

Lemma existsb_endswith_last (exts : list string) pth seg :
  forallb (fun ext => negb (Py.contains "/" ext)) exts = true ->
  last (Py.split "/" pth) = Some seg ->
  existsb (Py.endswith (Py.lower pth)) exts
  = existsb (Py.endswith (Py.lower seg)) exts.
Proof.
  intros Hexts Hlast. induction exts as [|e exts IH]; [reflexivity|].
  cbn [forallb existsb] in *. apply andb_true_iff in Hexts as [He Hexts].
  apply negb_true_iff in He. rewrite (IH Hexts). f_equal.
  rewrite <- (PyFacts.join_split "/" (Py.lower pth)), PyFacts.split_lower.
  apply PyFacts.endswith_join_last; [|exact He].
  rewrite fmap_last, Hlast. reflexivity.
Qed.

Lemma truthy_true s : Py.truthy s = true <-> s <> EmptyString.
Proof. destruct s; simpl; split; congruence. Qed.

(** C5, as amended.  For a URL on the seed host whose trimmed path is not
    empty, [classify_url] looks at the last segment of the path: when it
    ends, in any case, with one of the extensions of the variant (none of
    which holds a slash), the URL is a page, it is added to [found_pages],
    and the join of the segments before the last is added to
    [found_subdirectories] exactly when there is more than one segment;
    otherwise the URL is a subdirectory, and what is registered is the
    join of all segments whenever no inner segment of the path is empty. *)
Theorem classify_url_same_host (V : Smart.variant) (a : Smart.analyzer)
    (u : string) (s : Smart.state) (parsed : ParseResult) :
  urlparse u = Some parsed ->
  netloc parsed = Smart.domain a ->
  Py.rstrip_slash (path parsed) <> EmptyString ->
  forallb (fun ext => negb (Py.contains "/" ext)) (Smart.page_extensions V) = true ->
  let pth := Py.rstrip_slash (path parsed) in
  let path_parts := filter (fun part => Py.truthy part = true) (Py.split "/" pth) in
  exists seg, last path_parts = Some seg /\
    (Py.contains "//" pth = false -> Py.lstrip_slash pth = Py.join "/" path_parts) /\
    Smart.classify_url V a u s =
    if existsb (Py.endswith (Py.lower seg)) (Smart.page_extensions V) then
      let s1 := Smart.set_found_pages ({[u]} ∪ Smart.found_pages s) s in
      Some ("page",
            if (1 <? length path_parts)%nat
            then Smart.set_found_subdirectories
                   ({[Py.join "/" (Py.but_last path_parts)]} ∪ Smart.found_subdirectories s1) s1
            else s1)
    else
      Some ("subdirectory",
            Smart.set_found_subdirectories
              ({[Py.lstrip_slash pth]} ∪ Smart.found_subdirectories s) s).
Proof.
  intros Hparse Hhost Hpth Hexts pth path_parts.
  destruct (PyFacts.last_split_truthy pth Hpth (PyFacts.endswith_rstrip_slash _))
    as (seg & Hlast & Hseg).
  exists seg.
  assert (Hparts : last path_parts = Some seg).
  { apply (PyFacts.last_filter (fun part => Py.truthy part = true)); assumption. }
  split; [exact Hparts|]. split.
  { intros Hinner. symmetry.
    apply PyFacts.join_segments; [exact Hpth|apply PyFacts.endswith_rstrip_slash|exact Hinner]. }
  unfold Smart.classify_url. rewrite Hparse, Hhost.
  rewrite bool_decide_eq_false_2 by (intros Hne; apply Hne; reflexivity).
  cbn [andb]. fold pth.
  rewrite (proj2 (truthy_true pth) Hpth). fold path_parts.
  rewrite (existsb_endswith_last _ pth seg Hexts Hlast).
  destruct path_parts as [|p ps] eqn:E; [discriminate|].
  reflexivity.
Qed.


(** C9, as amended.  [classify_url] gives every URL that [urlparse] accepts
    exactly one of the three labels: "subdomain" when the host differs from
    the seed host and contains the registrable domain; otherwise
    "subdirectory", a class of its own, when the trimmed path is not empty
    and carries no page extension, the path being registered in
    [found_subdirectories]; otherwise "page".  The root of the seed host is
    a page and leaves the state as it is. *)
Theorem classify_url_three_classes (V : Smart.variant) (a : Smart.analyzer)
    (u : string) (s : Smart.state) (parsed : ParseResult) :
  urlparse u = Some parsed ->
  let pth := Py.rstrip_slash (path parsed) in
  let is_subdomain :=
    bool_decide (netloc parsed ≠ Smart.domain a)
    && Py.contains (Smart.base_domain a) (netloc parsed) in
  let is_directory :=
    negb is_subdomain && Py.truthy pth
    && negb (existsb (Py.endswith (Py.lower pth)) (Smart.page_extensions V)) in
  exists label s',
    Smart.classify_url V a u s = Some (label, s') /\
    label = (if is_subdomain then "subdomain"
             else if is_directory then "subdirectory" else "page") /\
    (is_directory = true ->
     Smart.found_subdirectories s'
     = {[Py.lstrip_slash pth]} ∪ Smart.found_subdirectories s) /\
    (netloc parsed = Smart.domain a -> pth = EmptyString ->
     label = "page" /\ s' = s).
Proof.
  intros Hparse pth is_subdomain is_directory.
  unfold Smart.classify_url. rewrite Hparse. fold pth. fold is_subdomain.
  subst is_directory. destruct is_subdomain eqn:Esub.
  - eexists _, _. split; [reflexivity|]. split; [reflexivity|].
    split; [discriminate|]. intros Hhost _. exfalso.
    subst is_subdomain. apply andb_true_iff in Esub as [Hne _].
    apply bool_decide_eq_true in Hne. contradiction.
  - cbn [negb andb]. destruct (Py.truthy pth) eqn:Epth.
    + apply truthy_true in Epth.
      destruct (PyFacts.last_split_truthy pth Epth (PyFacts.endswith_rstrip_slash _))
        as (seg & Hlast & Hseg).
      pose proof (PyFacts.last_filter (fun part => Py.truthy part = true) _ _ Hlast Hseg)
        as Hparts.
      destruct (filter _ (Py.split "/" pth)) as [|p ps] eqn:E; [discriminate|].
      destruct (existsb _ (Smart.page_extensions V)).
      * eexists _, _. split; [reflexivity|]. split; [reflexivity|].
        split; [discriminate|]. intros _ Hempty. contradiction.
      * eexists _, _. split; [reflexivity|]. split; [reflexivity|].
        split; [reflexivity|]. intros _ Hempty. contradiction.
    + eexists _, _. split; [reflexivity|]. split; [reflexivity|].
      split; [discriminate|]. intros _ _. split; reflexivity.
Qed.

End Classification.

(** ** The frontier of [controlled_crawl] *)

Section Frontier.
Context `{Runtime}.

Import Smart.

(** *** What the methods change *)

Lemma get_page_content_trace u timeout s :
  trace (snd (get_page_content u timeout s)) = trace s ++ [Get u].
Proof.
  unfold get_page_content.
  destruct (session_get _ _ _) as [code text|e]; [destruct (code =? 200)%Z|]; reflexivity.
Qed.

Lemma get_page_content_frame u timeout s :
  let s' := snd (get_page_content u timeout s) in
  visited_urls s' = visited_urls s /\ crawl_count s' = crawl_count s /\
  urls_to_crawl s' = urls_to_crawl s /\ initial_urls_found s' = initial_urls_found s.
Proof.
  unfold get_page_content.
  destruct (session_get _ _ _) as [code text|e]; [destruct (code =? 200)%Z|];
    repeat split; reflexivity.
Qed.

Lemma classify_url_frame V a u s label s' :
  classify_url V a u s = Some (label, s') ->
  trace s' = trace s /\ visited_urls s' = visited_urls s /\
  crawl_count s' = crawl_count s /\ urls_to_crawl s' = urls_to_crawl s.
Proof.
  unfold classify_url. intros Hc.
  repeat (match type of Hc with
          | context [match ?x with _ => _ end] => destruct x
          | context [if ?b then _ else _] => destruct b
          end; try discriminate);
    injection Hc as _ <-; repeat split; reflexivity.
Qed.

Lemma appendleft_all_spec links queue :
  appendleft_all links queue = reverse links ++ queue.
Proof.
  unfold appendleft_all. revert queue.
  induction links as [|l links IH]; intros queue; [reflexivity|].
  cbn [fold_left]. rewrite IH, reverse_cons, <- app_assoc. reflexivity.
Qed.

(** One round of the loop: either the URL at the front was visited before
    and is dropped, nothing else changing, or it is marked, counted and
    fetched, and the fresh links go in front of the rest of the queue. *)
Lemma crawl_step_continue V a s s' :
  crawl_step V a s = Continue s' ->
  exists u rest,
    urls_to_crawl s = u :: rest /\ (crawl_count s < max_pages a)%Z /\
    (((u ∈ visited_urls s) /\ s' = set_urls_to_crawl rest s) \/
     ((u ∉ visited_urls s) /\
      trace s' = trace s ++ [Mark u; Get u] /\
      visited_urls s' = {[u]} ∪ visited_urls s /\
      crawl_count s' = (crawl_count s + 1)%Z /\
      exists fresh_links,
        urls_to_crawl s' = Py.sorted fresh_links ++ rest /\
        Forall (fun l => (l ∉ visited_urls s') /\ (l ∉ rest)) fresh_links)).
Proof.
  unfold crawl_step. intros Hstep.
  destruct (urls_to_crawl s) as [|u rest] eqn:Eq; [discriminate|].
  destruct (crawl_count s <? max_pages a)%Z eqn:Ecount; [|discriminate].
  apply Z.ltb_lt in Ecount. exists u, rest. split; [reflexivity|]. split; [exact Ecount|].
  cbn [negb] in Hstep. cbn [visited_urls set_urls_to_crawl] in Hstep.
  destruct (bool_decide (u ∈ visited_urls s)) eqn:Evis.
  - apply bool_decide_eq_true in Evis. left. split; [exact Evis|]. congruence.
  - apply bool_decide_eq_false in Evis. right. split; [exact Evis|].
    destruct (classify_url V a u _) as [[label s3]|] eqn:Ec; [|discriminate].
    apply classify_url_frame in Ec as (Htr & Hvis & Hcnt & Hq).
    cbn in Htr, Hvis, Hcnt, Hq.
    pose proof (get_page_content_trace u (crawl_timeout V) s3) as Hgt.
    pose proof (get_page_content_frame u (crawl_timeout V) s3) as (Hgv & Hgc & Hgq & _).
    destruct (get_page_content u (crawl_timeout V) s3) as [content s4].
    cbn [snd] in Hgt, Hgv, Hgc, Hgq.
    assert (Htrace : trace s4 = trace s ++ [Mark u; Get u]).
    { rewrite Hgt, Htr, <- app_assoc. reflexivity. }
    assert (Hdone : forall s'',
      Continue s4 = Continue s'' ->
      trace s'' = trace s ++ [Mark u; Get u] /\
      visited_urls s'' = {[u]} ∪ visited_urls s /\
      crawl_count s'' = (crawl_count s + 1)%Z /\
      exists fresh_links,
        urls_to_crawl s'' = Py.sorted fresh_links ++ rest /\
        Forall (fun l => (l ∉ visited_urls s'') /\ (l ∉ rest)) fresh_links).
    { intros s'' [= <-]. split; [exact Htrace|]. split; [congruence|]. split; [congruence|].
      exists []. split; [|constructor]. rewrite Hgq, Hq. reflexivity. }
    destruct content as [c|]; [|apply Hdone, Hstep].
    destruct (Py.truthy c); [|apply Hdone, Hstep].
    injection Hstep as <-. cbn.
    split; [exact Htrace|]. split; [congruence|]. split; [congruence|].
    eexists. split.
    + rewrite appendleft_all_spec, reverse_involutive, Hgq, Hq. reflexivity.
    + apply Forall_forall. intros l [[Hl1 Hl2] _]%list_elem_of_filter.
      split; assumption.
Qed.

Lemma crawl_step_raised V a s s' :
  crawl_step V a s = Raised s' ->
  exists u, (u ∉ visited_urls s) /\ trace s' = trace s ++ [Mark u] /\
    (crawl_count s < max_pages a)%Z /\
    visited_urls s' = {[u]} ∪ visited_urls s /\
    crawl_count s' = (crawl_count s + 1)%Z.
Proof.
  unfold crawl_step. intros Hstep.
  destruct (urls_to_crawl s) as [|u rest] eqn:Eq; [discriminate|].
  destruct (crawl_count s <? max_pages a)%Z eqn:Ecount; [|discriminate].
  apply Z.ltb_lt in Ecount. cbn [negb visited_urls set_urls_to_crawl] in Hstep.
  destruct (bool_decide (u ∈ visited_urls s)) eqn:Evis; [discriminate|].
  apply bool_decide_eq_false in Evis.
  destruct (classify_url V a u _) as [[label s3]|] eqn:Ec.
  - destruct (get_page_content u (crawl_timeout V) s3) as [[c|] s4];
      [destruct (Py.truthy c)|]; discriminate.
  - injection Hstep as <-. exists u. repeat split; try reflexivity; assumption.
Qed.

Lemma crawl_step_finished V a s s' :
  crawl_step V a s = Finished s' ->
  s' = s /\ (urls_to_crawl s = [] \/ (max_pages a <= crawl_count s)%Z).
Proof.
  unfold crawl_step. intros Hstep.
  destruct (urls_to_crawl s) as [|u rest] eqn:Eq.
  - injection Hstep as <-. split; [reflexivity|left; reflexivity].
  - destruct (crawl_count s <? max_pages a)%Z eqn:Ecount.
    + cbn [negb] in Hstep.
      destruct (bool_decide _); [discriminate|].
      destruct (classify_url V a u _) as [[label s3]|]; [|discriminate].
      destruct (get_page_content u (crawl_timeout V) s3) as [[c|] s4];
        [destruct (Py.truthy c)|]; discriminate.
    + injection Hstep as <-. apply Z.ltb_ge in Ecount. split; [reflexivity|right; exact Ecount].
Qed.


(** *** Traces *)

Lemma fetch_log_app tr1 tr2 : fetch_log (tr1 ++ tr2) = fetch_log tr1 ++ fetch_log tr2.
Proof.
  induction tr1 as [|[u|u] tr1 IH]; cbn; [reflexivity|exact IH|].
  rewrite IH. reflexivity.
Qed.

Lemma marked_before_fetch_nil : Spec.marked_before_fetch [].
Proof. intros [|? ?] u post Heq; discriminate. Qed.

Lemma marked_before_fetch_mark u : Spec.marked_before_fetch [Mark u].
Proof. intros [|? [|? ?]] w post Heq; discriminate. Qed.

Lemma marked_before_fetch_pair u : Spec.marked_before_fetch [Mark u; Get u].
Proof.
  intros [|e [|e' [|? ?]]] w post Heq; try discriminate.
  cbn in Heq. injection Heq as <- <- _. apply list_elem_of_singleton. reflexivity.
Qed.

Lemma marked_before_fetch_app tr1 tr2 :
  Spec.marked_before_fetch tr1 -> Spec.marked_before_fetch tr2 ->
  Spec.marked_before_fetch (tr1 ++ tr2).
Proof.
  intros H1 H2 pre u post Heq.
  apply app_eq_inv in Heq as [(k & -> & Hk)|(k & -> & Hk)].
  - destruct k as [|e k].
    + cbn in Hk. symmetry in Hk. apply (H2 [] u post) in Hk.
      apply elem_of_nil in Hk. contradiction.
    + cbn in Hk. injection Hk as <- ->.
      exact (H1 pre u k eq_refl).
  - apply elem_of_app. right. exact (H2 k u post Hk).
Qed.

(** *** The invariant of the loop *)

Lemma reaches_invariant V a s s' :
  reaches V a s s' ->
  exists tr,
    trace s' = trace s ++ tr /\
    visited_urls s ⊆ visited_urls s' /\
    NoDup (fetch_log tr) /\
    (forall u, u ∈ fetch_log tr -> (u ∉ visited_urls s) /\ (u ∈ visited_urls s')) /\
    Spec.marked_before_fetch tr /\
    Z.of_nat (length (fetch_log tr)) = (crawl_count s' - crawl_count s)%Z /\
    (crawl_count s' <= Z.max (max_pages a) (crawl_count s))%Z.
Proof.
  induction 1 as [s|s s1 s2 Hstep Hreach IH].
  - exists []. rewrite app_nil_r. repeat split; try reflexivity.
    + constructor.
    + apply elem_of_nil in H0. contradiction.
    + apply elem_of_nil in H0. contradiction.
    + apply marked_before_fetch_nil.
    + cbn. lia.
    + lia.
  - destruct IH as (tr & Htr & Hsub & Hnd & Hin & Hord & Hlen & Hmax).
    apply crawl_step_continue in Hstep
      as (u & rest & Hq & Hlt & [[Hvis ->]|(Hvis & Htr1 & Hv1 & Hc1 & _)]).
    + exists tr. cbn in *. repeat split; try assumption; apply Hin; assumption.
    + assert (Hord' : Spec.marked_before_fetch ([Mark u; Get u] ++ tr))
        by (apply marked_before_fetch_app; [apply marked_before_fetch_pair|exact Hord]).
      exists ([Mark u; Get u] ++ tr).
      rewrite Htr, Htr1, <- app_assoc. split; [reflexivity|].
      rewrite fetch_log_app. cbn [fetch_log app].
      assert (Hu1 : u ∈ visited_urls s1)
        by (rewrite Hv1; apply elem_of_union_l, elem_of_singleton; reflexivity).
      split; [intros w Hw; apply Hsub; rewrite Hv1; apply elem_of_union_r, Hw|].
      split.
      { apply NoDup_cons. split; [|exact Hnd].
        intros Hu. apply Hin in Hu as [Hu _]. contradiction. }
      split.
      { intros w [->|Hw]%elem_of_cons.
        - split; [exact Hvis|apply Hsub, Hu1].
        - apply Hin in Hw as [Hw1 Hw2]. split; [|exact Hw2].
          intros Hc. apply Hw1. rewrite Hv1. apply elem_of_union_r, Hc. }
      split; [exact Hord'|].
      cbn [length]. split; lia.
Qed.

(** A run that ends went through the loop and stopped at its last state. *)
Lemma crawl_loop_reaches V a fuel s r :
  crawl_loop V a fuel s = Some r ->
  exists s1, reaches V a s s1 /\ crawl_step V a s1 = r /\
    (forall s2, r <> Continue s2).
Proof.
  revert s. induction fuel as [|fuel IH]; intros s Hrun; cbn in Hrun.
  - destruct (crawl_step V a s) eqn:E; [discriminate| |];
      injection Hrun as <-; exists s; (split; [constructor|split; [exact E|discriminate]]).
  - destruct (crawl_step V a s) as [s'| |] eqn:E.
    + destruct (IH s' Hrun) as (s1 & Hr & Hs & Hn).
      exists s1. split; [econstructor; eassumption|]. split; assumption.
    + injection Hrun as <-. exists s. split; [constructor|split; [exact E|discriminate]].
    + injection Hrun as <-. exists s. split; [constructor|split; [exact E|discriminate]].
Qed.

Lemma crawl_loop_invariant V a fuel s r :
  crawl_loop V a fuel s = Some r ->
  exists tr,
    trace (state_of r) = trace s ++ tr /\
    NoDup (fetch_log tr) /\
    (forall u, u ∈ fetch_log tr -> u ∉ visited_urls s) /\
    Spec.marked_before_fetch tr /\
    (Z.of_nat (length (fetch_log tr)) <= Z.max 0 (max_pages a - crawl_count s))%Z.
Proof.
  intros (s1 & Hreach & Hlast & Hne)%crawl_loop_reaches.
  apply reaches_invariant in Hreach
    as (tr & Htr & Hsub & Hnd & Hin & Hord & Hlen & Hmax).
  destruct r as [s2|s2|s2].
  - exfalso. exact (Hne s2 eq_refl).
  - apply crawl_step_finished in Hlast as [-> _]. exists tr. cbn.
    split; [exact Htr|]. split; [exact Hnd|]. split; [intros u Hu; apply Hin, Hu|].
    split; [exact Hord|]. lia.
  - apply crawl_step_raised in Hlast as (u & Hvis & Htr2 & Hlt & _).
    exists (tr ++ [Mark u]). cbn. rewrite Htr2, Htr, <- app_assoc.
    split; [reflexivity|]. rewrite fetch_log_app. cbn [fetch_log]. rewrite app_nil_r.
    split; [exact Hnd|]. split; [intros w Hw; apply Hin, Hw|].
    split; [apply marked_before_fetch_app; [exact Hord|apply marked_before_fetch_mark]|].
    lia.
Qed.


(** *** The loop ends *)

Lemma crawl_loop_more_fuel V a fuel s r :
  crawl_loop V a fuel s = Some r -> crawl_loop V a (S fuel) s = Some r.
Proof.
  revert s. induction fuel as [|fuel IH]; intros s Hrun.
  - cbn in *. destruct (crawl_step V a s); [discriminate|exact Hrun|exact Hrun].
  - cbn [crawl_loop] in Hrun |- *. destruct (crawl_step V a s) as [s'| |];
      [apply (IH s' Hrun)|exact Hrun|exact Hrun].
Qed.

(** Every round either counts one more page, of which there are at most
    [max_pages], or shortens the queue: the loop of [controlled_crawl] ends
    from every state, whatever the network answers. *)
Theorem crawl_loop_terminates V a s :
  exists fuel r, crawl_loop V a fuel s = Some r /\ forall s', r <> Continue s'.
Proof.
  remember (Z.to_nat (max_pages a - crawl_count s)) as budget eqn:Hb.
  revert s Hb. induction budget as [budget IHb] using lt_wf_ind. intros s Hb.
  remember (urls_to_crawl s) as queue eqn:Hq.
  revert s Hb Hq. induction queue as [|u rest IHq]; intros s Hb Hq.
  - exists 0%nat, (Finished s). split; [|discriminate].
    cbn. unfold crawl_step. rewrite <- Hq. reflexivity.
  - destruct (crawl_step V a s) as [s'|s'|s'] eqn:Estep.
    + destruct (crawl_step_continue V a s s' Estep)
        as (u' & rest' & Hq' & Hlt & [[Hvis ->]|(Hvis & _ & _ & Hc & _)]).
      * rewrite <- Hq in Hq'. injection Hq' as <- <-.
        destruct (IHq (set_urls_to_crawl rest s) Hb eq_refl) as (fuel & r & Hrun & Hr).
        exists (S fuel), r. split; [|exact Hr]. cbn [crawl_loop]. rewrite Estep. exact Hrun.
      * destruct (IHb (Z.to_nat (max_pages a - crawl_count s')) ltac:(lia) s' eq_refl)
          as (fuel & r & Hrun & Hr).
        exists (S fuel), r. split; [|exact Hr]. cbn [crawl_loop]. rewrite Estep. exact Hrun.
    + exists 0%nat, (Finished s'). split; [|discriminate]. cbn. rewrite Estep. reflexivity.
    + exists 0%nat, (Raised s'). split; [|discriminate]. cbn. rewrite Estep. reflexivity.
Qed.

(** *** The page budget of [controlled_crawl] *)

(** The loop of [controlled_crawl] makes at most [max_pages - crawl_count]
    fetch attempts, however long the queue is. *)
Lemma controlled_crawl_budget V a fuel s r :
  crawl_loop V a fuel s = Some r ->
  exists tr, trace (state_of r) = trace s ++ tr /\
    (Z.of_nat (length (fetch_log tr)) <= Z.max 0 (max_pages a - crawl_count s))%Z.
Proof.
  intros (tr & Htr & _ & _ & _ & Hlen)%crawl_loop_invariant.
  exists tr. split; assumption.
Qed.

(** With [max_pages = 1], a count of zero and a queue that is not empty, a
    run that does not raise makes exactly one fetch attempt. *)
Lemma controlled_crawl_single_page V a fuel s s' :
  max_pages a = 1%Z -> crawl_count s = 0%Z -> visited_urls s = ∅ ->
  urls_to_crawl s <> [] ->
  crawl_loop V a fuel s = Some (Finished s') ->
  exists u, fetch_log (trace s') = fetch_log (trace s) ++ [u].
Proof.
  intros Hmax Hcount Hvisited Hqueue Hrun.
  destruct (crawl_step V a s) as [s1|s1|s1] eqn:Estep.
  - destruct (crawl_step_continue V a s s1 Estep)
      as (u & rest & Hq & Hlt & [[Hvis _]|(Hvis & Htr & _ & Hc & _)]).
    { rewrite Hvisited in Hvis. apply not_elem_of_empty in Hvis. contradiction. }
    destruct fuel as [|fuel]; cbn [crawl_loop] in Hrun; rewrite Estep in Hrun;
      [discriminate|].
    apply crawl_loop_reaches in Hrun as (s2 & Hreach & Hlast & _).
    apply crawl_step_finished in Hlast as [-> _].
    exists u. inversion Hreach as [|? s3 ? Hstep3 _]; subst.
    + rewrite Htr, fetch_log_app. reflexivity.
    + apply crawl_step_continue in Hstep3 as (? & ? & _ & Hlt3 & _). lia.
  - apply crawl_step_finished in Estep as [_ [Hq|Hc]]; [contradiction|lia].
  - destruct fuel; cbn [crawl_loop] in Hrun; rewrite Estep in Hrun; discriminate.
Qed.

End Frontier.

(** ** The levels of [crawl_website] *)

Section LevelCrawl.
Context `{Runtime}.

Import Advanced.

Lemma page_links_frame a u tags links s :
  trace (snd (page_links a u tags links s)) = trace s /\
  visited_pages (snd (page_links a u tags links s)) = visited_pages s.
Proof.
  revert links s. induction tags as [|t tags IH]; intros links s; cbn [page_links].
  - split; reflexivity.
  - destruct (urljoin u _) as [full_url|]; [|split; reflexivity].
    destruct (should_crawl_url a full_url); [|apply IH].
    destruct (IH (links ++ [full_url])
                {| all_internal_links := {[full_url]} ∪ all_internal_links s;
                   visited_pages := visited_pages s; trace := trace s |}) as [-> ->].
    split; reflexivity.
Qed.

(** [crawl_single_page] makes exactly one fetch attempt. *)
Lemma crawl_single_page_frame a u s :
  trace (snd (crawl_single_page a u s)) = trace s ++ [Get u] /\
  visited_pages (snd (crawl_single_page a u s)) = visited_pages s.
Proof.
  unfold crawl_single_page.
  destruct (session_get _ _ _) as [code content|e]; [|split; reflexivity].
  destruct (negb (code =? 200)%Z); [split; reflexivity|].
  destruct (BeautifulSoup content) as [doc|]; [|split; reflexivity].
  pose proof (page_links_frame a u (find_all_href ["a"] doc) []
    {| all_internal_links := all_internal_links s;
       visited_pages := visited_pages s; trace := trace s ++ [Get u] |}) as [Ht Hv].
  destruct (page_links _ _ _ _ _) as [[links|] s'']; cbn in *; split; assumption.
Qed.

Lemma crawl_one_frame a next_level s u :
  trace (snd (crawl_one a (next_level, s) u)) = trace s ++ [Get u; Mark u] /\
  visited_pages (snd (crawl_one a (next_level, s) u)) = {[u]} ∪ visited_pages s.
Proof.
  unfold crawl_one. pose proof (crawl_single_page_frame a u s) as [Ht Hv].
  destruct (crawl_single_page a u s) as [links s1]. cbn in *.
  rewrite Ht, Hv, <- app_assoc. split; reflexivity.
Qed.

(** A level fetches each of its URLs once and marks it. *)
Lemma crawl_level_frame a todo next_level s :
  fetch_log (trace (snd (fold_left (crawl_one a) todo (next_level, s))))
  = fetch_log (trace s) ++ todo /\
  visited_pages (snd (fold_left (crawl_one a) todo (next_level, s)))
  = list_to_set todo ∪ visited_pages s.
Proof.
  revert next_level s. induction todo as [|u todo IH]; intros next_level s.
  - cbn. rewrite app_nil_r. split; [reflexivity|].
    apply set_eq. intros x. rewrite elem_of_union, elem_of_empty. tauto.
  - cbn [fold_left]. pose proof (crawl_one_frame a next_level s u) as [Ht Hv].
    destruct (crawl_one a (next_level, s) u) as [next_level1 s1]. cbn [snd] in Ht, Hv.
    destruct (IH next_level1 s1) as [-> ->]. rewrite Ht, Hv.
    rewrite fetch_log_app. cbn [fetch_log]. rewrite <- app_assoc.
    split; [reflexivity|].
    apply set_eq. intros x.
    rewrite !elem_of_union, !elem_of_list_to_set, elem_of_cons, elem_of_singleton.
    tauto.
Qed.


(** However many rounds the loop is given beyond [max_depth], it makes no
    more than [max_depth] of them. *)
Lemma crawl_levels_fuel a fuel depth current_level s :
  (Z.to_nat (max_depth a - depth) <= fuel)%nat ->
  crawl_levels fuel a depth current_level s
  = crawl_levels (Z.to_nat (max_depth a - depth)) a depth current_level s.
Proof.
  revert depth current_level s. induction fuel as [|fuel IH]; intros depth current_level s Hle.
  - replace (Z.to_nat (max_depth a - depth)) with 0%nat by lia. reflexivity.
  - destruct (Z.to_nat (max_depth a - depth)) as [|n] eqn:En.
    + cbn [crawl_levels]. replace (depth <? max_depth a)%Z with false by lia.
      rewrite andb_false_r. reflexivity.
    + cbn [crawl_levels]. destruct (_ && _); [|reflexivity].
      destruct (fold_left _ _ _) as [next_level s1].
      rewrite IH by lia. f_equal. lia.
Qed.

End LevelCrawl.

Section Scheduler.
Context `{Runtime}.





(** *** The order of the queue *)


Lemma sorted_reverse_perm xs : Py.sorted_reverse xs ≡ₚ xs.
Proof.
  unfold Py.sorted_reverse, Py.sorted.
  rewrite reverse_Permutation. apply merge_sort_Permutation.
Qed.



End Scheduler.

(** ** The size estimate *)

Section Estimate.
Context `{Runtime}.

Import Smart.

Lemma sample_page_counts V a total ok s link :
  (0 <= total)%Z -> (0 <= ok)%Z ->
  let '(total', ok', _) := sample_page V a (total, ok, s) link in
  (0 <= total')%Z /\ (0 <= ok')%Z.
Proof.
  intros Ht Hok. unfold sample_page.
  destruct (get_page_content link (sample_timeout V) s) as [[c|] s1]; [|split; assumption].
  destruct (Py.truthy c); split; try assumption; lia.
Qed.

Lemma sample_loop_counts V a links total ok s :
  (0 <= total)%Z -> (0 <= ok)%Z ->
  let '(total', ok', _) := fold_left (sample_page V a) links (total, ok, s) in
  (0 <= total')%Z /\ (0 <= ok')%Z.
Proof.
  revert total ok s. induction links as [|l links IH]; intros total ok s Ht Hok.
  - split; assumption.
  - cbn [fold_left]. pose proof (sample_page_counts V a total ok s l Ht Hok) as Hstep.
    destruct (sample_page V a (total, ok, s) l) as [[total1 ok1] s1].
    destruct Hstep as [Ht1 Hok1]. apply IH; assumption.
Qed.

(** [estimate] computes the floor: its [int] is applied to a float that is
    not negative. *)
Lemma estimate_floor V discovered total ok main_links sample_size :
  (0 <= total)%Z -> (0 <= ok)%Z -> (sample_size <= main_links)%Z ->
  (forall f, damping V = Some f -> Float.sign_bit f = false) ->
  estimate V discovered total ok main_links sample_size =
  if (0 <? ok)%Z then
    (fun k => (discovered + k)%Z) <$>
      Float.floor
        (Spec.damped (damping V)
           (Float.mul (Float.truediv total ok)
                      (Float.of_int (main_links - sample_size))))
  else Some discovered.
Proof.
  intros Ht Hok Hsample Hdamp. unfold estimate.
  destruct (0 <? ok)%Z; [|reflexivity].
  assert (Hprod : Float.sign_bit
            (Float.mul (Float.truediv total ok)
                       (Float.of_int (main_links - sample_size))) = false).
  { apply FloatFacts.sign_mul; [apply FloatFacts.sign_truediv; assumption|].
    apply FloatFacts.sign_of_int. lia. }
  destruct (damping V) as [f|] eqn:Ed; cbn [Spec.damped].
  - rewrite FloatFacts.to_int_floor; [reflexivity|].
    apply FloatFacts.sign_mul; [exact Hprod|apply Hdamp; reflexivity].
  - rewrite FloatFacts.to_int_floor by exact Hprod. reflexivity.
Qed.






Section FloatEstimate.
Import Reals Lra.
Import FloatValue FloatBounds.




End FloatEstimate.



End Estimate.

(** ** Fetching, links and the registrable domain *)

Section Fetching.
Context `{Runtime}.

(** C7, as amended.  [get_page_content] issues one request and returns the
    text of the response exactly when [session.get] returns a response
    whose status code is 200; any other status code, and any exception of
    [requests] (network failure, timeout), gives [None], a value and not an
    exception.  [crawl_single_page] of url_scraper.py gives the empty list
    in those cases. *)
Theorem get_page_content_status_200 (u : string) (timeout : Z) (s : Smart.state) :
  let answer := session_get (length (Smart.trace s)) u timeout in
  (forall body,
     fst (Smart.get_page_content u timeout s) = Some body
     <-> answer = Response 200 body) /\
  (fst (Smart.get_page_content u timeout s) = None
     <-> (forall body, answer <> Response 200 body)) /\
  Smart.trace (snd (Smart.get_page_content u timeout s)) = Smart.trace s ++ [Get u] /\
  (forall (a : Advanced.analyzer) (s0 : Advanced.state),
     (forall body, session_get (length (Advanced.trace s0)) u 10 <> Response 200 body) ->
     fst (Advanced.crawl_single_page a u s0) = []).
Proof.
  intros answer. split; [|split; [|split]].
  - intros body. unfold Smart.get_page_content. fold answer.
    destruct answer as [code text|e]; [|split; discriminate].
    destruct (code =? 200)%Z eqn:E; cbn.
    + apply Z.eqb_eq in E. subst code. split; congruence.
    + apply Z.eqb_neq in E. split; [discriminate|]. intros [= ? ?]. contradiction.
  - unfold Smart.get_page_content. fold answer.
    destruct answer as [code text|e]; [|split; [discriminate|reflexivity]].
    destruct (code =? 200)%Z eqn:E; cbn.
    + apply Z.eqb_eq in E. subst code. split; [discriminate|].
      intros Hne. exfalso. exact (Hne text eq_refl).
    + apply Z.eqb_neq in E. split; [|reflexivity]. intros _ body [= ? ?]. contradiction.
  - apply get_page_content_trace.
  - intros a s0 Hne. unfold Advanced.crawl_single_page.
    destruct (session_get _ u 10) as [code content|e]; [|reflexivity].
    destruct (code =? 200)%Z eqn:E; [|reflexivity].
    apply Z.eqb_eq in E. subst code. exfalso. exact (Hne content eq_refl).
Qed.

(** *** Links *)

(** The loop over the [a] and [link] tags never adds the base URL. *)
Lemma anchor_links_exclude_base a u tags links :
  u ∉ links -> u ∉ fst (Smart.anchor_links a u tags links).
Proof.
  revert links. induction tags as [|t tags IH]; intros links Hu; cbn [Smart.anchor_links].
  - exact Hu.
  - destruct (Py.truthy _); [|apply IH, Hu].
    destruct (urljoin u _) as [full_url|]; [|exact Hu].
    destruct (Smart.is_same_domain a full_url); [|apply IH, Hu].
    destruct (urlparse full_url) as [parsed|]; [|exact Hu].
    destruct (bool_decide _) eqn:E; [|apply IH, Hu].
    apply bool_decide_eq_true in E. apply IH.
    rewrite elem_of_union, elem_of_singleton. intros [Heq|Hin]; [congruence|contradiction].
Qed.

(** Every host that equals the seed host, or that ends with a dot and the
    registrable domain, passes [is_same_domain]; the converse fails. *)
Lemma in_scope_is_same_domain a u parsed :
  urlparse u = Some parsed ->
  Spec.in_scope (Smart.domain a) (Smart.base_domain a) (netloc parsed) = true ->
  Smart.is_same_domain a u = true.
Proof.
  intros Hparse Hscope. unfold Smart.is_same_domain. rewrite Hparse.
  unfold Spec.in_scope in Hscope. apply orb_true_iff in Hscope as [Heq|Hend].
  - apply String.eqb_eq in Heq. rewrite Heq, PyFacts.contains_refl. apply orb_true_r.
  - apply PyFacts.endswith_spec in Hend as [x ->].
    rewrite PyFacts.contains_app_r2. reflexivity.
Qed.

(** *** The registrable domain of a short host *)

Lemma startswith_www_labels s :
  Py.startswith s "www." = true -> (2 <= length (Py.split "." s))%nat.
Proof.
  destruct s as [|c1 [|c2 [|c3 [|c4 t]]]]; cbn [Py.startswith];
    rewrite ?andb_false_r; try discriminate.
  rewrite !andb_true_iff. intros (H1 & H2 & H3 & H4 & _).
  apply Ascii.eqb_eq in H1, H2, H3, H4. subst c1 c2 c3 c4.
  pose proof (PyFacts.split_nonnil "." t) as Hnil.
  rewrite !PyFacts.split_cons. cbn [Ascii.eqb Bool.eqb].
  destruct (Py.split "." t); [contradiction|]. cbn. lia.
Qed.

Lemma split_labels_cons c s :
  (length (Py.split "." (String c s)) < 2)%nat ->
  (length (Py.split "." s) < 2)%nat.
Proof.
  rewrite PyFacts.split_cons. pose proof (PyFacts.split_nonnil "." s) as Hnil.
  destruct (Ascii.eqb c "."); destruct (Py.split "." s) as [|w ws];
    try contradiction; cbn; lia.
Qed.

Lemma replace_www_short s :
  (length (Py.split "." s) < 2)%nat -> Py.replace "www." EmptyString s = s.
Proof.
  unfold Py.replace. induction s as [|c s IH]; intros Hlen; [reflexivity|].
  cbn [Py.replace_go].
  destruct (Py.startswith (String c s) "www.") eqn:E.
  - apply startswith_www_labels in E. lia.
  - rewrite IH by (eapply split_labels_cons; exact Hlen). reflexivity.
Qed.

(** C10.  For a seed URL whose host has fewer than two labels,
    [extract_base_domain] and [get_base_domain] return the host as it is,
    and the analyzers are set up with the host itself both as [domain] and
    as [base_domain]. *)
Theorem base_domain_of_short_host (url0 : string) (parsed : ParseResult)
    (depth pages : Z) :
  urlparse url0 = Some parsed ->
  (length (Py.split "." (netloc parsed)) < 2)%nat ->
  Smart.extract_base_domain url0 = Some (netloc parsed) /\
  Advanced.get_base_domain (netloc parsed) = netloc parsed /\
  Smart.init url0 depth pages
  = Some {| Smart.url := Py.rstrip_slash url0; Smart.domain := netloc parsed;
            Smart.base_domain := netloc parsed;
            Smart.max_depth := depth; Smart.max_pages := pages |} /\
  Advanced.init url0 depth pages
  = Some {| Advanced.url := Py.rstrip_slash url0; Advanced.domain := netloc parsed;
            Advanced.base_domain := netloc parsed;
            Advanced.max_depth := depth; Advanced.max_pages := pages |}.
Proof.
  intros Hparse Hlen.
  assert (Hbase : base_of_netloc (netloc parsed) = netloc parsed).
  { unfold base_of_netloc.
    destruct (2 <=? length (Py.split "." (netloc parsed)))%nat eqn:E; [|reflexivity].
    apply Nat.leb_le in E. lia. }
  assert (Hget : Advanced.get_base_domain (netloc parsed) = netloc parsed)
    by exact Hbase.
  split; [|split; [exact Hget|split]].
  - unfold Smart.extract_base_domain. rewrite Hparse. cbn. rewrite Hbase. reflexivity.
  - unfold Smart.init, Smart.extract_domain, Smart.extract_base_domain.
    rewrite Hparse. cbn. rewrite Hbase. reflexivity.
  - unfold Advanced.init, Advanced.extract_domain. rewrite Hparse. cbn.
    rewrite (replace_www_short _ Hlen), Hget. reflexivity.
Qed.

End Fetching.

(** ** The methods on explicit sites *)

Ltac by_computation := apply (bool_decide_unpack _); vm_compute; exact I.

(** C1.  With the seed https://example.com, [is_same_domain] accepts the
    host notexample.com, which neither equals the seed host nor ends with
    .example.com: containment is tested where a suffix is meant.  The link
    comes out of [extract_links_from_page], is in the queue of
    [controlled_crawl], and passes [should_crawl_url] of url_scraper.py.
    The host foreign.example.org is refused. *)
Theorem is_same_domain_accepts_foreign_host :
  Spec.in_scope "example.com" "example.com" "notexample.com" = false /\
  @Smart.is_same_domain (Demo.runtime Sites.shop)
    (Sites.smart Sites.shop "https://example.com" 100)
    "https://notexample.com/x" = true /\
  "https://notexample.com/x"
    ∈ @Smart.extract_links_from_page (Demo.runtime Sites.shop)
        (Sites.smart Sites.shop "https://example.com" 100)
        "https://example.com" "<seed>" /\
  "https://notexample.com/x"
    ∈ Smart.urls_to_crawl (Sites.queued Smart.Url_finder Sites.shop "https://example.com") /\
  @Advanced.should_crawl_url (Demo.runtime Sites.shop)
    (Sites.advanced Sites.shop "https://example.com" 100)
    "https://notexample.com/x" = true /\
  @Smart.is_same_domain (Demo.runtime Sites.shop)
    (Sites.smart Sites.shop "https://example.com" 100)
    "https://foreign.example.org/" = false.
Proof.
  split; [vm_compute; reflexivity|]. split; [vm_compute; reflexivity|].
  split; [by_computation|]. split; [by_computation|].
  split; vm_compute; reflexivity.
Qed.

(** C2.  With [max_pages = 2] and a seed page that links to three pages,
    [crawl_website] of url_scraper.py makes four fetch attempts: the budget
    is checked between levels only, and a level is fetched whole.  With
    [max_pages = 1] it makes one. *)
Theorem crawl_website_exceeds_budget :
  Advanced.max_pages (Sites.advanced Sites.three "https://example.com" 2) = 2%Z /\
  length (fetch_log (Advanced.trace
            (@Advanced.crawl_website (Demo.runtime Sites.three)
               (Sites.advanced Sites.three "https://example.com" 2)
               Advanced.fresh))) = 4%nat /\
  length (fetch_log (Advanced.trace
            (@Advanced.crawl_website (Demo.runtime Sites.three)
               (Sites.advanced Sites.three "https://example.com" 1)
               Advanced.fresh))) = 1%nat.
Proof. repeat split; vm_compute; reflexivity. Qed.

(** On the same site [controlled_crawl] keeps to the budget. *)
Example controlled_crawl_keeps_budget :
  fetch_log (Smart.trace (Smart.state_of
     (Sites.crawled Smart.Url_finder Sites.three "https://example.com" 2)))
  = fetch_log (Smart.trace (Sites.scanned Smart.Url_finder Sites.three "https://example.com"))
    ++ ["https://example.com/c"; "https://example.com/b"].
Proof. vm_compute. reflexivity. Qed.





(** On that round the new link is [/a], and it is taken next. *)
Example pending_queue_second_round :
  Smart.urls_to_crawl
    (Sites.next Smart.Url_finder Sites.dated "https://example.com" 100
       (Sites.next Smart.Url_finder Sites.dated "https://example.com" 100
          (Sites.queued Smart.Url_finder Sites.dated "https://example.com")))
  = ["https://example.com/a"; "https://example.com/c"; "https://example.com"] /\
  elements
    (@Spec.links_fetched (Demo.runtime Sites.dated) Smart.Url_finder
       (Sites.smart Sites.dated "https://example.com" 100) "https://example.com/y"
       (S (length (Smart.trace
             (Sites.next Smart.Url_finder Sites.dated "https://example.com" 100
                (Sites.queued Smart.Url_finder Sites.dated "https://example.com"))))))
  = ["https://example.com/a"].
Proof. split; vm_compute; reflexivity. Qed.

(** C5 as stated fails.  Url_finder.py (and url_finder3.py) list neither
    [.pdf] nor [.doc] among the page extensions: a path that ends with
    [.pdf] is a subdirectory there.  And what url_finder2.py registers for
    the path [/a//b] is [a//b], not the join [a/b] of its segments. *)
Lemma classify_url_counterexample :
  (existsb (Py.endswith (Py.lower "report.pdf")) Spec.document_extensions = true /\
   fst <$> @Smart.classify_url (Demo.runtime Sites.shop) Smart.Url_finder
             (Sites.smart Sites.shop "https://example.com" 100)
             "https://example.com/files/report.pdf" Smart.fresh
   = Some "subdirectory") /\
  (Py.join "/" (filter (fun part => Py.truthy part = true) (Py.split "/" "/a//b")) = "a/b" /\
   (fun r => elements (Smart.found_subdirectories (snd r))) <$>
     @Smart.classify_url (Demo.runtime Sites.shop) Smart.url_finder2
       (Sites.smart Sites.shop "https://example.com" 100)
       "https://example.com/a//b" Smart.fresh
   = Some ["a//b"]).
Proof. repeat split; vm_compute; reflexivity. Qed.

(** C5 as amended, on a page two segments deep. *)
Lemma classify_url_same_host_witness :
  (fun r => (fst r, elements (Smart.found_subdirectories (snd r)))) <$>
    @Smart.classify_url (Demo.runtime Sites.shop) Smart.url_finder2
      (Sites.smart Sites.shop "https://example.com" 100)
      "https://example.com/docs/intro.html" Smart.fresh
  = Some ("page", ["docs"]).
Proof.
  destruct (@classify_url_same_host (Demo.runtime Sites.shop) Smart.url_finder2
              (Sites.smart Sites.shop "https://example.com" 100)
              "https://example.com/docs/intro.html" Smart.fresh
              {| scheme := "https"; netloc := "example.com";
                 path := "/docs/intro.html"; params := EmptyString;
                 query := EmptyString; fragment := EmptyString |}
              ltac:(vm_compute; reflexivity) ltac:(vm_compute; reflexivity)
              ltac:(vm_compute; discriminate) ltac:(vm_compute; reflexivity))
    as (seg & Hlast & _ & Hclass).
  vm_compute in Hlast. injection Hlast as <-.
  rewrite Hclass. vm_compute. reflexivity.
Defined.


(** On the site [wide], five of the eight pages linked from the seed page
    are sampled and bring six new links; fifteen URLs are known, the exact
    projection 6 / 5 * 3 is not a whole number, and the estimate is that of
    the specification, 15 + 3. *)
Example initial_scan_estimate_wide :
  (fun r => (fst r, Smart.estimated_total (snd r))) <$>
    @Smart.initial_scan (Demo.runtime Sites.wide) Smart.Url_finder
      (Sites.smart Sites.wide "https://example.com" 100) Smart.fresh
  = Some (true, 18%Z) /\
  Spec.extrapolated_total Smart.Url_finder 15 6 5 3 = 18%Z.
Proof. split; vm_compute; reflexivity. Qed.

(** The same sums with exact arithmetic in place of the floats of the code
    can give another floor: 13 / 3 * 27 is 117, the code computes 116; and
    the factor written 0.7 turns 90 into 62. *)
Remark estimate_is_in_floats :
  Smart.estimate Smart.Url_finder 0 13 3 27 0 = Some 116%Z /\
  (13 * 27 / 3 = 117)%Z /\
  Smart.estimate Smart.url_finder2 0 1 1 90 0 = Some 62%Z /\
  (7 * 90 / 10 = 63)%Z.
Proof. repeat split; vm_compute; reflexivity. Qed.

(** C7 as stated fails.  A response with the status code 201, a success,
    gives [None]. *)
Lemma get_page_content_counterexample :
  Spec.is_success 201 = true /\
  @session_get (Demo.runtime Sites.shop) 0 "https://example.com/new" 10
  = Response 201 "<created>" /\
  fst (@Smart.get_page_content (Demo.runtime Sites.shop)
         "https://example.com/new" 10 Smart.fresh) = None.
Proof. repeat split; vm_compute; reflexivity. Qed.

(** C7 as amended, on the seed page. *)
Lemma get_page_content_status_200_witness :
  fst (@Smart.get_page_content (Demo.runtime Sites.shop)
         "https://example.com" 10 Smart.fresh) = Some "<seed>".
Proof.
  apply (proj1 (@get_page_content_status_200 (Demo.runtime Sites.shop)
                  "https://example.com" 10 Smart.fresh)).
  vm_compute. reflexivity.
Defined.

(** C8.  A page whose meta refresh points to the page itself: the base URL
    is among the links of [extract_links_from_page].  The loop over the
    anchors compares with the base URL and leaves it out; the meta-refresh
    part adds its target without that test. *)
Theorem extract_links_contains_base :
  "https://example.com/a"
    ∈ @Smart.extract_links_from_page (Demo.runtime Sites.loop)
        (Sites.smart Sites.loop "https://example.com/a" 100)
        "https://example.com/a" "<refresh>" /\
  elements (fst (@Smart.anchor_links (Demo.runtime Sites.loop)
                   (Sites.smart Sites.loop "https://example.com/a" 100)
                   "https://example.com/a"
                   [Demo.a_href "https://example.com/a"] ∅)) = [].
Proof. split; [by_computation|vm_compute; reflexivity]. Qed.

(** C9 as stated fails.  A URL of the seed host without an extension is
    classified as a subdirectory, which is neither of the two classes. *)
Lemma classify_url_subdirectory_counterexample :
  @Smart.is_same_domain (Demo.runtime Sites.shop)
    (Sites.smart Sites.shop "https://example.com" 100)
    "https://example.com/docs" = true /\
  fst <$> @Smart.classify_url (Demo.runtime Sites.shop) Smart.Url_finder
            (Sites.smart Sites.shop "https://example.com" 100)
            "https://example.com/docs" Smart.fresh
  = Some "subdirectory".
Proof. split; vm_compute; reflexivity. Qed.

(** C9 as amended, on the root of the site. *)
Lemma classify_url_three_classes_witness :
  @Smart.classify_url (Demo.runtime Sites.shop) Smart.Url_finder
    (Sites.smart Sites.shop "https://example.com" 100)
    "https://example.com/" Smart.fresh
  = Some ("page", Smart.fresh).
Proof.
  destruct (@classify_url_three_classes (Demo.runtime Sites.shop) Smart.Url_finder
              (Sites.smart Sites.shop "https://example.com" 100)
              "https://example.com/" Smart.fresh
              {| scheme := "https"; netloc := "example.com"; path := "/";
                 params := EmptyString; query := EmptyString;
                 fragment := EmptyString |}
              ltac:(vm_compute; reflexivity))
    as (label & s' & Hclass & _ & _ & Hroot).
  destruct (Hroot ltac:(vm_compute; reflexivity) ltac:(vm_compute; reflexivity))
    as [-> ->].
  exact Hclass.
Defined.

(** C10, on a host of one label. *)
Lemma base_domain_of_short_host_witness :
  @Smart.extract_base_domain (Demo.runtime Sites.shop) "http://localhost/admin"
  = Some "localhost".
Proof.
  apply (proj1 (@base_domain_of_short_host (Demo.runtime Sites.shop)
                  "http://localhost/admin"
                  {| scheme := "http"; netloc := "localhost"; path := "/admin";
                     params := EmptyString; query := EmptyString;
                     fragment := EmptyString |}
                  3 100 ltac:(vm_compute; reflexivity) ltac:(vm_compute; lia))).
Defined.


(** * Further facts

    ** Path segments *)

Module SegmentFacts.

Lemma contains_slash_cons c s :
  Py.contains "/" (String c s) = Ascii.eqb "/" c || Py.contains "/" s.
Proof. rewrite PyFacts.contains_cons, PyFacts.startswith_cons_slash. reflexivity. Qed.

(** No segment that [split] gives holds a slash. *)
Lemma split_slash_free s :
  Forall (fun part => Py.contains "/" part = false) (Py.split "/" s).
Proof.
  induction s as [|c s IH]; [repeat constructor|].
  rewrite PyFacts.split_cons. destruct (Ascii.eqb_spec c "/") as [->|Hne].
  - constructor; [reflexivity|exact IH].
  - pose proof (PyFacts.split_nonnil "/" s) as Hnil.
    destruct (Py.split "/" s) as [|w ws]; [contradiction|].
    apply Forall_cons in IH as [Hw Hws]. constructor; [|exact Hws].
    rewrite contains_slash_cons, Hw, orb_false_r.
    apply Ascii.eqb_neq. congruence.
Qed.

Lemma split_one part :
  Py.contains "/" part = false -> Py.split "/" part = [part].
Proof.
  induction part as [|c part IH]; [reflexivity|]. intros Hfree.
  rewrite contains_slash_cons in Hfree. apply orb_false_iff in Hfree as [Hc Hfree].
  rewrite PyFacts.split_cons, (IH Hfree).
  destruct (Ascii.eqb_spec c "/") as [->|_]; [discriminate Hc|reflexivity].
Qed.

Lemma split_app_slash part rest :
  Py.contains "/" part = false ->
  Py.split "/" (part +:+ "/" +:+ rest) = part :: Py.split "/" rest.
Proof.
  induction part as [|c part IH]; intros Hfree.
  - reflexivity.
  - rewrite contains_slash_cons in Hfree. apply orb_false_iff in Hfree as [Hc Hfree].
    change (String c part +:+ "/" +:+ rest) with (String c (part +:+ "/" +:+ rest)).
    rewrite PyFacts.split_cons, (IH Hfree).
    destruct (Ascii.eqb_spec c "/") as [->|_]; [discriminate Hc|reflexivity].
Qed.

(** Splitting the join of segments gives the segments back. *)
Lemma split_join parts :
  parts <> [] ->
  Forall (fun part => Py.contains "/" part = false) parts ->
  Py.split "/" (Py.join "/" parts) = parts.
Proof.
  induction parts as [|x [|y ys] IH]; intros Hne Hfree.
  - congruence.
  - apply split_one. apply Forall_cons in Hfree as [Hx _]. exact Hx.
  - apply Forall_cons in Hfree as [Hx Hrest].
    rewrite PyFacts.join_cons, (split_app_slash _ _ Hx), IH; [reflexivity|discriminate|exact Hrest].
Qed.

(** Leading slashes add no segment. *)
Lemma segments_lstrip_slash s :
  filter (fun part => Py.truthy part = true) (Py.split "/" (Py.lstrip_slash s))
  = filter (fun part => Py.truthy part = true) (Py.split "/" s).
Proof.
  unfold Py.lstrip_slash. induction s as [|c s IH]; [reflexivity|].
  cbn [Py.lstrip_by]. destruct (Py.is_slash c) eqn:E; [|reflexivity].
  apply Ascii.eqb_eq in E. subst c.
  rewrite IH, PyFacts.split_cons. cbn [Ascii.eqb Bool.eqb].
  rewrite filter_cons_False by (cbn; congruence). reflexivity.
Qed.

(** A trimmed path that is not empty has a segment. *)
Lemma segments_nonempty s :
  Py.rstrip_slash s <> EmptyString ->
  filter (fun part => Py.truthy part = true) (Py.split "/" (Py.rstrip_slash s)) <> [].
Proof.
  intros Hs.
  destruct (PyFacts.last_split_truthy _ Hs (PyFacts.endswith_rstrip_slash s))
    as (seg & Hlast & Hseg).
  pose proof (PyFacts.last_filter (fun part => Py.truthy part = true) _ _ Hlast Hseg) as Hl.
  intros Hnil. rewrite Hnil in Hl. discriminate Hl.
Qed.

Lemma level_lstrip_rstrip s :
  Py.rstrip_slash s <> EmptyString ->
  (1 <= Report.directory_level (Py.lstrip_slash (Py.rstrip_slash s)))%nat.
Proof.
  intros Hs. unfold Report.directory_level. rewrite segments_lstrip_slash.
  pose proof (segments_nonempty s Hs) as Hne.
  destruct (filter _ _); [contradiction|cbn; lia].
Qed.

(** The directory of a page that lies [n > 1] segments deep has the level
    [n - 1]. *)
Lemma level_parent s :
  let path_parts :=
    filter (fun part => Py.truthy part = true) (Py.split "/" s) in
  (1 < length path_parts)%nat ->
  Report.directory_level (Py.join "/" (Py.but_last path_parts))
  = (length path_parts - 1)%nat.
Proof.
  intros path_parts Hlen. unfold Report.directory_level, Py.but_last.
  assert (Hfree : Forall (fun part => Py.contains "/" part = false)
                    (take (length path_parts - 1) path_parts)).
  { apply Forall_take. subst path_parts. apply Forall_forall.
    intros x [_ Hx]%list_elem_of_filter. revert x Hx.
    apply Forall_forall, split_slash_free. }
  assert (Htruthy : Forall (fun part => Py.truthy part = true)
                      (take (length path_parts - 1) path_parts)).
  { apply Forall_take. subst path_parts. apply Forall_forall.
    intros x [Hx _]%list_elem_of_filter. exact Hx. }
  rewrite split_join; [|intros Hnil; apply (f_equal length) in Hnil;
                         rewrite length_take in Hnil; cbn in Hnil; lia|exact Hfree].
  rewrite (PyFacts.filter_all _ _ Htruthy), length_take. lia.
Qed.

End SegmentFacts.

(** ** What a crawl records *)

Section Records.
Context `{Runtime}.

Import Smart.

Lemma app_ne_self {A} (l : list A) x y : l <> l ++ x :: y.
Proof.
  intros Heq. apply (f_equal length) in Heq.
  rewrite length_app in Heq. cbn in Heq. lia.
Qed.

Lemma grows_refl s : Report.grows s s.
Proof. repeat split; reflexivity. Qed.

Lemma grows_trans s1 s2 s3 :
  Report.grows s1 s2 -> Report.grows s2 s3 -> Report.grows s1 s3.
Proof.
  intros (A1 & A2 & A3 & A4) (B1 & B2 & B3 & B4).
  repeat split; etransitivity; eassumption.
Qed.

Lemma new_levels_refl s : Report.new_levels_positive s s.
Proof. intros d Hd. left. exact Hd. Qed.

Lemma new_levels_trans s1 s2 s3 :
  Report.new_levels_positive s1 s2 -> Report.new_levels_positive s2 s3 ->
  Report.new_levels_positive s1 s3.
Proof.
  intros H12 H23 d Hd. destruct (H23 d Hd) as [Hd2|Hl]; [|right; exact Hl].
  apply H12, Hd2.
Qed.

Lemma grows_same s s' :
  found_subdomains s' = found_subdomains s ->
  found_subdirectories s' = found_subdirectories s ->
  found_pages s' = found_pages s ->
  visited_urls s' = visited_urls s ->
  Report.grows s s'.
Proof. unfold Report.grows. intros -> -> -> ->. repeat split; reflexivity. Qed.

Lemma new_levels_same s s' :
  found_subdirectories s' = found_subdirectories s ->
  Report.new_levels_positive s s'.
Proof. intros E d. rewrite E. intros Hd. left. exact Hd. Qed.

Lemma recorded_grows V a u s s' :
  Report.grows s s' -> Report.recorded V a u s -> Report.recorded V a u s'.
Proof.
  intros (H1 & H2 & H3 & _) (parsed & Hparse & Hrec).
  exists parsed. split; [exact Hparse|]. cbv zeta in *.
  destruct (_ && _); [apply H1, Hrec|].
  destruct (Py.truthy _); [|exact I].
  destruct (existsb _ _); [apply H3, Hrec|apply H2, Hrec].
Qed.

(** [classify_url] records the URL, adds to the result sets and takes
    nothing away, and the subdirectory it adds has a level of one at
    least. *)
Lemma classify_url_records V a u s label s' :
  classify_url V a u s = Some (label, s') ->
  Report.recorded V a u s' /\ Report.grows s s' /\ Report.new_levels_positive s s'.
Proof.
  unfold classify_url, Report.recorded. intros Hc.
  destruct (urlparse u) as [parsed|] eqn:Hparse; [|discriminate].
  destruct (_ && _) eqn:Esub.
  { injection Hc as _ <-. split; [|split].
    - exists parsed. split; [reflexivity|]. cbv zeta. rewrite Esub. cbn.
      apply elem_of_union_l, elem_of_singleton. reflexivity.
    - repeat split; cbn; try reflexivity. apply union_subseteq_r.
    - intros d Hd. left. exact Hd. }
  destruct (Py.truthy (Py.rstrip_slash (path parsed))) eqn:Epth.
  2: { injection Hc as _ <-. split; [|split; [apply grows_refl|apply new_levels_refl]].
       exists parsed. split; [reflexivity|]. cbv zeta. rewrite Esub, Epth. exact I. }
  pose proof (SegmentFacts.segments_nonempty (path parsed)
                ltac:(apply truthy_true; exact Epth)) as Hparts.
  destruct (filter _ (Py.split "/" (Py.rstrip_slash (path parsed))))
    as [|p ps] eqn:Eparts; [contradiction|].
  destruct (existsb _ (page_extensions V)) eqn:Eext.
  - destruct (1 <? length (p :: ps))%nat eqn:Elen; injection Hc as _ <-.
    + split; [|split].
      * exists parsed. split; [reflexivity|]. cbv zeta. rewrite Esub, Epth, Eext. cbn.
        apply elem_of_union_l, elem_of_singleton. reflexivity.
      * repeat split; cbn; try reflexivity; apply union_subseteq_r.
      * intros d.
        cbn [found_subdirectories set_found_subdirectories set_found_pages].
        rewrite elem_of_union, elem_of_singleton.
        intros [->|Hd]; [right|left; exact Hd].
        apply Nat.ltb_lt in Elen. rewrite <- Eparts in Elen |- *.
        rewrite SegmentFacts.level_parent by exact Elen. lia.
    + split; [|split].
      * exists parsed. split; [reflexivity|]. cbv zeta. rewrite Esub, Epth, Eext. cbn.
        apply elem_of_union_l, elem_of_singleton. reflexivity.
      * repeat split; cbn; try reflexivity; apply union_subseteq_r.
      * intros d Hd. left. exact Hd.
  - injection Hc as _ <-. split; [|split].
    + exists parsed. split; [reflexivity|]. cbv zeta. rewrite Esub, Epth, Eext. cbn.
      apply elem_of_union_l, elem_of_singleton. reflexivity.
    + repeat split; cbn; try reflexivity; apply union_subseteq_r.
    + intros d. cbn [found_subdirectories set_found_subdirectories].
      rewrite elem_of_union, elem_of_singleton.
      intros [->|Hd]; [right|left; exact Hd].
      apply SegmentFacts.level_lstrip_rstrip, truthy_true, Epth.
Qed.

Lemma get_page_content_found u timeout s :
  let s' := snd (get_page_content u timeout s) in
  found_subdomains s' = found_subdomains s /\
  found_subdirectories s' = found_subdirectories s /\
  found_pages s' = found_pages s.
Proof.
  unfold get_page_content.
  destruct (session_get _ _ _) as [code text|e]; [destruct (code =? 200)%Z|];
    repeat split; reflexivity.
Qed.

(** One round of the loop: nothing is taken away, the URL that is fetched
    has been classified before, and what is added to the subdirectories has
    a level. *)
Lemma crawl_step_records V a s r :
  crawl_step V a s = r ->
  Report.grows s (state_of r) /\
  Report.new_levels_positive s (state_of r) /\
  (forall u, trace (state_of r) = trace s ++ [Mark u; Get u] ->
             Report.recorded V a u (state_of r)).
Proof.
  unfold crawl_step. intros <-.
  destruct (urls_to_crawl s) as [|u rest] eqn:Eq.
  { cbn. split; [apply grows_refl|]. split; [apply new_levels_refl|].
    intros w Hw. exfalso. exact (app_ne_self _ _ _ Hw). }
  destruct (negb _).
  { cbn. split; [apply grows_refl|]. split; [apply new_levels_refl|].
    intros w Hw. exfalso. exact (app_ne_self _ _ _ Hw). }
  cbn [visited_urls set_urls_to_crawl].
  destruct (bool_decide (u ∈ visited_urls s)).
  { cbn [state_of]. split; [apply grows_same; reflexivity|].
    split; [apply new_levels_same; reflexivity|].
    intros w Hw. exfalso. exact (app_ne_self _ _ _ Hw). }
  match goal with |- context [classify_url V a u ?s2] => set (s2' := s2) end.
  assert (Hmark : Report.grows s s2' /\ Report.new_levels_positive s s2').
  { split; [|apply new_levels_same; reflexivity].
    repeat split; cbn; try reflexivity. apply union_subseteq_r. }
  destruct (classify_url V a u s2') as [[label s3]|] eqn:Ec.
  2: { cbn. split; [apply Hmark|]. split; [apply Hmark|].
       intros w Hw. cbn in Hw. apply app_inv_head in Hw. discriminate. }
  pose proof (classify_url_frame _ _ _ _ _ _ Ec) as (Htr & _).
  apply classify_url_records in Ec as (Hrec & Hgrow & Hlev).
  pose proof (get_page_content_found u (crawl_timeout V) s3) as (G1 & G2 & G3).
  pose proof (get_page_content_frame u (crawl_timeout V) s3) as (G4 & _).
  pose proof (get_page_content_trace u (crawl_timeout V) s3) as G5.
  destruct (get_page_content u (crawl_timeout V) s3) as [content s4].
  cbn [snd] in G1, G2, G3, G4, G5.
  assert (Hgrow4 : Report.grows s3 s4) by (apply grows_same; assumption).
  assert (Hlev4 : Report.new_levels_positive s3 s4) by (apply new_levels_same; assumption).
  assert (Hall : forall s5,
    found_subdomains s5 = found_subdomains s4 ->
    found_subdirectories s5 = found_subdirectories s4 ->
    found_pages s5 = found_pages s4 ->
    visited_urls s5 = visited_urls s4 ->
    trace s5 = trace s4 ->
    Report.grows s s5 /\ Report.new_levels_positive s s5 /\
    (forall w, trace s5 = trace s ++ [Mark w; Get w] -> Report.recorded V a w s5)).
  { intros s5 E1 E2 E3 E4 E5.
    assert (Hgrow5 : Report.grows s4 s5) by (apply grows_same; assumption).
    assert (Hlev5 : Report.new_levels_positive s4 s5) by (apply new_levels_same; assumption).
    split; [|split].
    - eapply grows_trans; [apply Hmark|].
      eapply grows_trans; [exact Hgrow|]. eapply grows_trans; eassumption.
    - eapply new_levels_trans; [apply Hmark|].
      eapply new_levels_trans; [exact Hlev|]. eapply new_levels_trans; eassumption.
    - intros w Hw. rewrite E5, G5, Htr in Hw. cbn in Hw.
      rewrite <- app_assoc in Hw. apply app_inv_head in Hw.
      injection Hw as <-.
      eapply recorded_grows; [|exact Hrec].
      eapply grows_trans; eassumption. }
  destruct content as [c|]; [destruct (Py.truthy c)|]; cbn [state_of];
    apply Hall; reflexivity.
Qed.

Lemma crawl_loop_records V a fuel s r :
  crawl_loop V a fuel s = Some r ->
  Report.grows s (state_of r) /\
  Report.new_levels_positive s (state_of r) /\
  exists tr, trace (state_of r) = trace s ++ tr /\
    forall u, u ∈ fetch_log tr -> Report.recorded V a u (state_of r).
Proof.
  revert s. induction fuel as [|fuel IH]; intros s Hrun; cbn [crawl_loop] in Hrun.
  - destruct (crawl_step V a s) as [s1|s1|s1] eqn:Estep; [discriminate| |];
      injection Hrun as <-;
      destruct (crawl_step_records V a s _ Estep) as (Hg & Hl & _);
      (split; [exact Hg|split; [exact Hl|]]).
    + apply crawl_step_finished in Estep as [-> _]. exists []. rewrite app_nil_r.
      split; [reflexivity|]. intros u Hu. apply elem_of_nil in Hu. contradiction.
    + apply crawl_step_raised in Estep as (u & _ & Htr & _). exists [Mark u].
      split; [exact Htr|]. intros w Hw. apply elem_of_nil in Hw. contradiction.
  - destruct (crawl_step V a s) as [s1|s1|s1] eqn:Estep.
    + destruct (IH s1 Hrun) as (Hg & Hl & tr & Htr & Hrec).
      destruct (crawl_step_records V a s _ Estep) as (Hg1 & Hl1 & Hrec1).
      cbn [state_of] in Hg1, Hl1, Hrec1.
      split; [eapply grows_trans; eassumption|].
      split; [eapply new_levels_trans; eassumption|].
      destruct (crawl_step_continue V a s s1 Estep)
        as (u & rest & _ & _ & [[_ ->]|(_ & Htr1 & _)]).
      * exists tr. split; [exact Htr|exact Hrec].
      * exists ([Mark u; Get u] ++ tr). rewrite Htr, Htr1, <- app_assoc.
        split; [reflexivity|]. rewrite fetch_log_app. cbn [fetch_log app].
        intros w [->|Hw]%elem_of_cons; [|apply Hrec, Hw].
        eapply recorded_grows; [exact Hg|]. apply Hrec1, Htr1.
    + injection Hrun as <-.
      destruct (crawl_step_records V a s _ Estep) as (Hg & Hl & _).
      split; [exact Hg|]. split; [exact Hl|].
      apply crawl_step_finished in Estep as [-> _]. exists []. rewrite app_nil_r.
      split; [reflexivity|]. intros u Hu. apply elem_of_nil in Hu. contradiction.
    + injection Hrun as <-.
      destruct (crawl_step_records V a s _ Estep) as (Hg & Hl & _).
      split; [exact Hg|]. split; [exact Hl|].
      apply crawl_step_raised in Estep as (u & _ & Htr & _). exists [Mark u].
      split; [exact Htr|]. intros w Hw. apply elem_of_nil in Hw. contradiction.
Qed.

(** X1.  Over a whole run of [controlled_crawl], the result sets and the visited
    set only grow, and every URL that was fetched has been classified: its
    host, its page or its directory is in the result sets at the end. *)
Theorem controlled_crawl_classifies_fetched V a fuel s r :
  crawl_loop V a fuel s = Some r ->
  Report.grows s (state_of r) /\
  exists tr, trace (state_of r) = trace s ++ tr /\
    forall u, u ∈ fetch_log tr -> Report.recorded V a u (state_of r).
Proof.
  intros (Hg & _ & Hrec)%crawl_loop_records. split; assumption.
Qed.

(** X2.  Every subdirectory that a run of [controlled_crawl] adds to
    [found_subdirectories] has at least one segment: the reports, which
    group the subdirectories by their number of segments, get no directory
    of level 0 from a crawl. *)
Theorem controlled_crawl_directory_levels V a fuel s r :
  crawl_loop V a fuel s = Some r ->
  forall d, d ∈ found_subdirectories (state_of r) ->
    d ∈ found_subdirectories s \/ (1 <= Report.directory_level d)%nat.
Proof.
  intros (_ & Hl & _)%crawl_loop_records. exact Hl.
Qed.

(** *** The pending queue *)

(** One round of the loop keeps the queue free of duplicates and of visited
    URLs. *)
Lemma crawl_step_queue V a s s' :
  crawl_step V a s = Continue s' ->
  NoDup (urls_to_crawl s) ->
  (forall u, u ∈ urls_to_crawl s -> u ∉ visited_urls s) ->
  NoDup (urls_to_crawl s') /\
  (forall u, u ∈ urls_to_crawl s' -> u ∉ visited_urls s') /\
  exists u, trace s' = trace s ++ [Mark u; Get u].
Proof.
  unfold crawl_step. intros Hstep Hnd Hfresh.
  destruct (urls_to_crawl s) as [|u rest] eqn:Eq; [discriminate|].
  destruct (negb _); [discriminate|].
  cbn [visited_urls set_urls_to_crawl] in Hstep.
  apply NoDup_cons in Hnd as [Hu Hrest].
  rewrite bool_decide_eq_false_2 in Hstep
    by (apply Hfresh, elem_of_cons; left; reflexivity).
  destruct (classify_url V a u _) as [[label s3]|] eqn:Ec; [|discriminate].
  apply classify_url_frame in Ec as (Htr & Hvis & _ & Hq). cbn in Htr, Hvis, Hq.
  pose proof (get_page_content_trace u (crawl_timeout V) s3) as Hgt.
  pose proof (get_page_content_frame u (crawl_timeout V) s3) as (Hgv & _ & Hgq & _).
  destruct (get_page_content u (crawl_timeout V) s3) as [content s4].
  cbn [snd] in Hgt, Hgv, Hgq.
  assert (Htrace : trace s4 = trace s ++ [Mark u; Get u])
    by (rewrite Hgt, Htr, <- app_assoc; reflexivity).
  assert (Hrest4 : forall w, w ∈ rest -> w ∉ visited_urls s4).
  { intros w Hw. rewrite Hgv, Hvis, elem_of_union, elem_of_singleton.
    intros [->|Hv]; [contradiction|].
    apply (Hfresh w); [apply elem_of_cons; right; exact Hw|exact Hv]. }
  assert (Hplain : Continue s4 = Continue s' ->
    NoDup (urls_to_crawl s') /\
    (forall w, w ∈ urls_to_crawl s' -> w ∉ visited_urls s') /\
    exists w, trace s' = trace s ++ [Mark w; Get w]).
  { intros [= <-]. rewrite Hgq, Hq. split; [exact Hrest|].
    split; [exact Hrest4|]. exists u. exact Htrace. }
  destruct content as [c|]; [|apply Hplain, Hstep].
  destruct (Py.truthy c); [|apply Hplain, Hstep].
  injection Hstep as <-. cbn [urls_to_crawl visited_urls trace set_urls_to_crawl].
  rewrite appendleft_all_spec, reverse_involutive, Hgq, Hq.
  set (fresh_links := filter _ (set_order _)).
  assert (Hfl : forall w, w ∈ fresh_links -> (w ∉ visited_urls s4) /\ (w ∉ rest)).
  { intros w [[Hw1 Hw2] _]%list_elem_of_filter. split; assumption. }
  assert (Hsorted : Py.sorted fresh_links ≡ₚ fresh_links)
    by apply merge_sort_Permutation.
  split; [|split; [|exists u; exact Htrace]].
  - apply NoDup_app. split; [|split; [|exact Hrest]].
    + rewrite Hsorted. apply NoDup_filter. rewrite set_order_perm. apply NoDup_elements.
    + intros w Hw. rewrite Hsorted in Hw. apply Hfl, Hw.
  - intros w [Hw|Hw]%elem_of_app; [|apply Hrest4, Hw].
    rewrite Hsorted in Hw. apply Hfl, Hw.
Qed.

(** X3.  In a crawl that starts with no URL visited, the pending queue never
    holds a URL twice and never holds a visited URL: the test that skips a
    visited URL never fires, every round of the loop marks and fetches the
    URL at the front. *)
Theorem pending_queue_duplicate_free V a s s' :
  visited_urls s = ∅ ->
  reaches V a (controlled_crawl_start s) s' ->
  NoDup (urls_to_crawl s') /\
  (forall u, u ∈ urls_to_crawl s' -> u ∉ visited_urls s') /\
  (forall s'', crawl_step V a s' = Continue s'' ->
     exists u rest, urls_to_crawl s' = u :: rest /\
       trace s'' = trace s' ++ [Mark u; Get u]).
Proof.
  intros Hempty Hreach.
  assert (Hinv : NoDup (urls_to_crawl s') /\
                 forall u, u ∈ urls_to_crawl s' -> u ∉ visited_urls s').
  { remember (controlled_crawl_start s) as s0 eqn:Es0.
    assert (Hstart : NoDup (urls_to_crawl s0) /\
                     forall u, u ∈ urls_to_crawl s0 -> u ∉ visited_urls s0).
    { subst s0. cbn. split.
      - rewrite sorted_reverse_perm, set_order_perm. apply NoDup_elements.
      - intros u _. rewrite Hempty. apply not_elem_of_empty. }
    clear Es0 Hempty. induction Hreach as [s1|s1 s2 s3 Hstep _ IH]; [exact Hstart|].
    apply IH. destruct Hstart as [Hnd Hfresh].
    destruct (crawl_step_queue V a s1 s2 Hstep Hnd Hfresh) as (A & B & _).
    split; assumption. }
  destruct Hinv as [Hnd Hfresh]. split; [exact Hnd|]. split; [exact Hfresh|].
  intros s'' Hstep.
  destruct (crawl_step_queue V a s' s'' Hstep Hnd Hfresh) as (_ & _ & u & Htr).
  destruct (crawl_step_continue V a s' s'' Hstep)
    as (u' & rest & Hq & _ & [[_ ->]|(_ & Htr' & _)]).
  - exfalso. cbn in Htr. exact (app_ne_self _ _ _ Htr).
  - exists u', rest. split; assumption.
Qed.

End Records.

(** ** The initial scan *)

Section Scan.
Context `{Runtime}.

Import Smart.

Lemma to_int_nonneg x k :
  Float.sign_bit x = false -> Float.to_int x = Some k -> (0 <= k)%Z.
Proof.
  destruct x as [s|s| |s m e]; cbn; intros Hs Hk; subst; try discriminate.
  - injection Hk as <-. lia.
  - injection Hk as <-. apply Z.shiftl_nonneg. lia.
Qed.

Lemma get_page_content_state u timeout s :
  snd (get_page_content u timeout s) = record (Get u) s.
Proof.
  unfold get_page_content.
  destruct (session_get _ _ _) as [code text|e]; [destruct (code =? 200)%Z|]; reflexivity.
Qed.

(** One round of the sample loop: the counter of additional links grows by
    the number of URLs that the round adds to [initial_urls_found]. *)
Lemma sample_page_growth V a total ok s link total' ok' s' :
  sample_page V a (total, ok, s) link = (total', ok', s') ->
  (total' - total =
   Z.of_nat (size (initial_urls_found s')) - Z.of_nat (size (initial_urls_found s)))%Z /\
  (ok <= ok' <= ok + 1)%Z /\
  initial_urls_found s ⊆ initial_urls_found s' /\
  trace s' = trace s ++ [Get link] /\
  Report.crawl_fields_equal s s' /\ estimated_total s' = estimated_total s.
Proof.
  unfold sample_page.
  pose proof (get_page_content_state link (sample_timeout V) s) as Hs1.
  destruct (get_page_content link (sample_timeout V) s) as [content s1].
  cbn [snd] in Hs1. subst s1.
  assert (Hsame : (total, ok, record (Get link) s) = (total', ok', s') ->
    (total' - total =
     Z.of_nat (size (initial_urls_found s')) - Z.of_nat (size (initial_urls_found s)))%Z /\
    (ok <= ok' <= ok + 1)%Z /\
    initial_urls_found s ⊆ initial_urls_found s' /\
    trace s' = trace s ++ [Get link] /\
    Report.crawl_fields_equal s s' /\ estimated_total s' = estimated_total s).
  { intros [= <- <- <-]. cbn. repeat split; try lia; reflexivity. }
  destruct content as [c|]; [|exact Hsame].
  destruct (Py.truthy c); [|exact Hsame].
  clear Hsame. intros [= <- <- <-]. cbn [initial_urls_found record set_initial_urls_found trace].
  set (new_links := filter _ _).
  assert (Hnd : NoDup new_links).
  { apply NoDup_filter. rewrite set_order_perm. apply NoDup_elements. }
  assert (Hdisj : initial_urls_found s ## list_to_set new_links).
  { intros w Hw [Hin _]%elem_of_list_to_set%list_elem_of_filter.
    apply Hin. exact Hw. }
  rewrite size_union by exact Hdisj.
  rewrite size_list_to_set by exact Hnd.
  repeat split; try lia.
  apply union_subseteq_l.
Qed.

Lemma crawl_fields_equal_trans s1 s2 s3 :
  Report.crawl_fields_equal s1 s2 -> Report.crawl_fields_equal s2 s3 ->
  Report.crawl_fields_equal s1 s3.
Proof.
  intros (A1 & A2 & A3 & A4 & A5 & A6) (B1 & B2 & B3 & B4 & B5 & B6).
  repeat split; etransitivity; eassumption.
Qed.

Lemma sample_loop_growth V a links total ok s total' ok' s' :
  fold_left (sample_page V a) links (total, ok, s) = (total', ok', s') ->
  (total' - total =
   Z.of_nat (size (initial_urls_found s')) - Z.of_nat (size (initial_urls_found s)))%Z /\
  (ok <= ok' <= ok + Z.of_nat (length links))%Z /\
  initial_urls_found s ⊆ initial_urls_found s' /\
  trace s' = trace s ++ map Get links /\
  Report.crawl_fields_equal s s' /\ estimated_total s' = estimated_total s.
Proof.
  revert total ok s. induction links as [|l links IH]; intros total ok s.
  - intros [= <- <- <-]. cbn. rewrite app_nil_r. repeat split; try lia; reflexivity.
  - cbn [fold_left].
    destruct (sample_page V a (total, ok, s) l) as [[total1 ok1] s1] eqn:E1.
    apply sample_page_growth in E1 as (Ht & Hok & Hsub & Htr & Hf & He).
    intros (Ht' & Hok' & Hsub' & Htr' & Hf' & He')%IH.
    split; [lia|]. split; [cbn [length]; lia|].
    split; [etransitivity; eassumption|].
    split; [rewrite Htr', Htr, <- app_assoc; reflexivity|].
    split; [eapply crawl_fields_equal_trans; eassumption|congruence].
Qed.

(** X4.  The sample loop of [initial_scan]: [total_additional_links] grows by the
    number of URLs that the loop adds to [initial_urls_found], no link being
    counted twice; [successful_samples] grows by the number of sampled pages
    at most; every sampled link is requested once, in order. *)
Theorem sample_loop_counts_new_urls V a links total ok s total' ok' s' :
  fold_left (sample_page V a) links (total, ok, s) = (total', ok', s') ->
  (total' - total =
   Z.of_nat (size (initial_urls_found s')) - Z.of_nat (size (initial_urls_found s)))%Z /\
  (ok <= ok' <= ok + Z.of_nat (length links))%Z /\
  trace s' = trace s ++ map Get links.
Proof.
  intros (Ht & Hok & _ & Htr & _)%sample_loop_growth. repeat split; try assumption; lia.
Qed.

Lemma estimate_lower_bound V discovered total ok main_links sample_size t :
  (0 <= total)%Z -> (0 <= ok)%Z -> (sample_size <= main_links)%Z ->
  (forall f, damping V = Some f -> Float.sign_bit f = false) ->
  estimate V discovered total ok main_links sample_size = Some t ->
  (discovered <= t)%Z.
Proof.
  intros Ht Hok Hsample Hdamp. unfold estimate.
  destruct (0 <? ok)%Z; [|intros [= <-]; lia].
  assert (Hprod : Float.sign_bit
            (Float.mul (Float.truediv total ok)
                       (Float.of_int (main_links - sample_size))) = false).
  { apply FloatFacts.sign_mul; [apply FloatFacts.sign_truediv; assumption|].
    apply FloatFacts.sign_of_int. lia. }
  destruct (damping V) as [f|] eqn:Ed.
  - destruct (Float.to_int _) as [k|] eqn:Ek; [|discriminate].
    intros [= <-]. apply to_int_nonneg in Ek; [lia|].
    apply FloatFacts.sign_mul; [exact Hprod|apply Hdamp; reflexivity].
  - destruct (Float.to_int _) as [k|] eqn:Ek; [|discriminate].
    intros [= <-]. apply to_int_nonneg in Ek; [lia|exact Hprod].
Qed.

Lemma initial_scan_effect V a s b s' :
  initial_scan V a s = Some (b, s') ->
  exists links,
    trace s' = trace s ++ map Get (url a :: links) /\
    (length links <= sample_cap V)%nat /\ NoDup links /\
    (b = false -> links = [] /\ s' = record (Get (url a)) s) /\
    (b = true -> url a ∈ initial_urls_found s' /\
                 forall l, l ∈ links -> l ∈ initial_urls_found s') /\
    initial_urls_found s ⊆ initial_urls_found s' /\
    Report.crawl_fields_equal s s'.
Proof.
  unfold initial_scan.
  pose proof (get_page_content_state (url a) 10 s) as Hs1.
  destruct (get_page_content (url a) 10 s) as [content s1].
  cbn [snd] in Hs1. subst s1.
  assert (Hfail : Some (false, record (Get (url a)) s) = Some (b, s') ->
    exists links,
      trace s' = trace s ++ map Get (url a :: links) /\
      (length links <= sample_cap V)%nat /\ NoDup links /\
      (b = false -> links = [] /\ s' = record (Get (url a)) s) /\
      (b = true -> url a ∈ initial_urls_found s' /\
                   forall l, l ∈ links -> l ∈ initial_urls_found s') /\
      initial_urls_found s ⊆ initial_urls_found s' /\
      Report.crawl_fields_equal s s').
  { intros [= <- <-]. exists []. cbn.
    repeat split; try lia; try discriminate; try reflexivity. apply NoDup_nil_2. }
  destruct content as [html|]; [|exact Hfail].
  destruct (Py.truthy html); [|exact Hfail]. clear Hfail.
  set (main_page_links := extract_links_from_page a (url a) html).
  set (sample_size := Nat.min (sample_cap V) (size main_page_links)).
  set (s2 := set_initial_urls_found _ _).
  destruct (fold_left _ _ _) as [[total ok] s3] eqn:Efold.
  apply sample_loop_growth in Efold as (_ & _ & Hsub & Htr & Hf & _).
  destruct (estimate _ _ _ _ _ _) as [t|]; [|discriminate].
  intros [= <- <-]. exists (take sample_size (set_order main_page_links)).
  cbn [trace set_estimated_total initial_urls_found].
  assert (Hnd : NoDup (set_order main_page_links))
    by (rewrite set_order_perm; apply NoDup_elements).
  split; [rewrite Htr; subst s2; cbn; rewrite <- app_assoc; reflexivity|].
  split; [rewrite length_take; subst sample_size; lia|].
  split.
  { rewrite <- (take_drop sample_size) in Hnd. apply NoDup_app in Hnd as [Hnd _].
    exact Hnd. }
  split; [discriminate|].
  split.
  - intros _. split.
    + apply Hsub. subst s2. cbn. apply elem_of_union_l, elem_of_union_r,
        elem_of_singleton. reflexivity.
    + intros l Hl%elem_of_take. destruct Hl as (i & Hl & _).
      apply Hsub. subst s2. cbn. apply elem_of_union_r.
      apply elem_of_elements. rewrite <- set_order_perm.
      eapply list_elem_of_lookup_2, Hl.
  - split.
    + etransitivity; [|exact Hsub]. subst s2. cbn.
      etransitivity; [|apply union_subseteq_l]. apply union_subseteq_l.
    + destruct Hf as (F1 & F2 & F3 & F4 & F5 & F6). subst s2. cbn in *.
      repeat split; assumption.
Qed.

(** X5.  The requests of [initial_scan]: the seed URL first, then links of the
    main page, each once and [sample_cap] of them at most (5 in
    Url_finder.py, 15 in url_finder2.py).  When it returns [False] the seed
    URL was its only request and nothing of the state has changed; in any
    case it leaves the results and the bookkeeping of the crawl alone, and
    [initial_urls_found] only grows. *)
Theorem initial_scan_requests V a s b s' :
  initial_scan V a s = Some (b, s') ->
  exists links,
    trace s' = trace s ++ map Get (url a :: links) /\
    (length links <= sample_cap V)%nat /\ NoDup links /\
    (b = false -> links = [] /\ s' = record (Get (url a)) s) /\
    (b = true -> url a ∈ initial_urls_found s' /\
                 forall l, l ∈ links -> l ∈ initial_urls_found s') /\
    initial_urls_found s ⊆ initial_urls_found s' /\
    Report.crawl_fields_equal s s'.
Proof. apply initial_scan_effect. Qed.

(** X6.  When [initial_scan] succeeds, its estimate is never below the number of
    URLs it has found, and it has found the seed URL at least. *)
Theorem initial_scan_estimate_lower_bound V a s s' :
  (forall f, damping V = Some f -> Float.sign_bit f = false) ->
  initial_scan V a s = Some (true, s') ->
  (1 <= Z.of_nat (size (initial_urls_found s')) <= estimated_total s')%Z.
Proof.
  intros Hdamp. unfold initial_scan.
  destruct (get_page_content (url a) 10 s) as [content s1].
  destruct content as [html|]; [|discriminate].
  destruct (Py.truthy html); [|discriminate].
  set (main_page_links := extract_links_from_page a (url a) html).
  set (sample_size := Nat.min (sample_cap V) (size main_page_links)).
  set (s2 := set_initial_urls_found _ _).
  pose proof (sample_loop_counts V a (take sample_size (set_order main_page_links))
                0%Z 0%Z s2 (Z.le_refl 0) (Z.le_refl 0)) as Hcounts.
  destruct (fold_left _ _ _) as [[total ok] s3] eqn:Efold.
  destruct Hcounts as [Ht Hok].
  apply sample_loop_growth in Efold as (_ & _ & Hsub & _).
  destruct (estimate _ _ _ _ _ _) as [t|] eqn:Eest; [|discriminate].
  intros [= <-]. cbn [estimated_total set_estimated_total initial_urls_found].
  apply estimate_lower_bound in Eest; try assumption; [|subst sample_size; lia].
  split; [|exact Eest].
  assert (Hin : url a ∈ initial_urls_found s3).
  { apply Hsub. subst s2. cbn. apply elem_of_union_l, elem_of_union_r,
      elem_of_singleton. reflexivity. }
  assert (Hne : size (initial_urls_found s3) <> 0%nat).
  { intros Hz%size_empty_inv. apply Hz in Hin. exact (not_elem_of_empty _ Hin). }
  lia.
Qed.

End Scan.

(** ** The recursive crawl of url_finder3.py *)

Section RecursiveCrawl.
Context `{Runtime}.

Import Smart.
Import Recursive.

Lemma within_budget_nil a depth s s' :
  trace s' = trace s -> visited_urls s' = visited_urls s ->
  within_budget a depth s s' [].
Proof.
  intros Htr Hv. unfold within_budget, marks_and_gets. cbn.
  rewrite app_nil_r, Htr, Hv.
  split; [reflexivity|]. split; [symmetry; apply (left_id_L ∅ (∪))|].
  split; [apply NoDup_nil_2|]. split; [intros u Hu%elem_of_nil; contradiction|].
  split; [apply Forall_nil_2|]. left. reflexivity.
Qed.

Lemma within_budget_size a depth s s' new :
  within_budget a depth s s' new ->
  size (visited_urls s') = (length new + size (visited_urls s))%nat.
Proof.
  intros (_ & Hv & Hnd & Hfresh & _). rewrite Hv, size_union.
  - rewrite size_list_to_set by exact Hnd. rewrite length_fmap. reflexivity.
  - intros u Hu%elem_of_list_to_set Hu'. exact (Hfresh u Hu Hu').
Qed.

Lemma within_budget_app a depth s1 s2 s3 n1 n2 :
  within_budget a depth s1 s2 n1 -> within_budget a depth s2 s3 n2 ->
  within_budget a depth s1 s3 (n1 ++ n2).
Proof.
  intros W1 W2. pose proof (within_budget_size _ _ _ _ _ W1) as Hsize.
  destruct W1 as (T1 & V1 & N1 & F1 & D1 & B1), W2 as (T2 & V2 & N2 & F2 & D2 & B2).
  unfold within_budget, marks_and_gets in *.
  rewrite fmap_app, flat_map_app, length_app.
  split; [rewrite T2, T1, <- app_assoc; reflexivity|].
  split.
  { rewrite V2, V1. apply set_eq. intros x.
    rewrite !elem_of_union, !elem_of_list_to_set, elem_of_app. tauto. }
  split.
  { apply NoDup_app. split; [exact N1|]. split; [|exact N2].
    intros x Hx1 Hx2. apply (F2 x Hx2). rewrite V1.
    apply elem_of_union_l, elem_of_list_to_set, Hx1. }
  split.
  { intros u [Hu|Hu]%elem_of_app; [apply F1, Hu|].
    intros Hv. apply (F2 u Hu). rewrite V1. apply elem_of_union_r, Hv. }
  split; [apply Forall_app; split; assumption|].
  destruct B2 as [->|B2].
  - destruct B1 as [->|B1]; [left; reflexivity|right; cbn; lia].
  - right. lia.
Qed.

Lemma within_budget_deeper a depth s s' new :
  within_budget a (depth + 1) s s' new -> within_budget a depth s s' new.
Proof.
  intros (T & V & N & F & D & B). repeat split; try assumption.
  eapply Forall_impl; [exact D|]. cbn. intros p Hp. lia.
Qed.

(** The loop over the links, given what every call does. *)
Lemma each_link_within_budget a depth visit links :
  (forall link s fetched r fetched',
     visit link s fetched = (r, fetched') ->
     exists new, fetched' = fetched ++ new /\ within_budget a depth s (state_of r) new) ->
  forall s fetched r fetched',
    each_link a visit links s fetched = (r, fetched') ->
    exists new, fetched' = fetched ++ new /\ within_budget a depth s (state_of r) new.
Proof.
  intros Hvisit. induction links as [|link links IH]; intros s fetched r fetched'.
  - intros [= <- <-]. exists []. rewrite app_nil_r.
    split; [reflexivity|apply within_budget_nil; reflexivity].
  - cbn [each_link]. destruct (_ <? _)%Z.
    + destruct (visit link s fetched) as [[s1|s1] fetched1] eqn:Ev.
      * apply Hvisit in Ev as (n1 & -> & W1). cbn [state_of] in W1.
        intros (n2 & -> & W2)%IH. exists (n1 ++ n2).
        split; [rewrite app_assoc; reflexivity|].
        eapply within_budget_app; eassumption.
      * apply Hvisit in Ev as (n1 & -> & W1).
        intros [= <- <-]. exists n1. split; [reflexivity|exact W1].
    + intros [= <- <-]. exists []. rewrite app_nil_r.
      split; [reflexivity|apply within_budget_nil; reflexivity].
Qed.

Lemma crawl_website_from_within_budget a fuel :
  forall start_url depth s fetched r fetched',
    crawl_website_from fuel a start_url depth s fetched = (r, fetched') ->
    exists new, fetched' = fetched ++ new /\ within_budget a depth s (state_of r) new.
Proof.
  induction fuel as [|fuel IH]; intros start_url depth s fetched r fetched'.
  - intros [= <- <-]. exists []. rewrite app_nil_r.
    split; [reflexivity|apply within_budget_nil; reflexivity].
  - cbn [crawl_website_from].
    destruct (max_depth a <? depth)%Z eqn:Edepth; cbn [orb].
    { intros [= <- <-]. exists []. rewrite app_nil_r.
      split; [reflexivity|apply within_budget_nil; reflexivity]. }
    destruct (max_pages a <=? _)%Z eqn:Epages.
    { intros [= <- <-]. exists []. rewrite app_nil_r.
      split; [reflexivity|apply within_budget_nil; reflexivity]. }
    destruct (bool_decide (start_url ∈ visited_urls s)) eqn:Evis.
    { intros [= <- <-]. exists []. rewrite app_nil_r.
      split; [reflexivity|apply within_budget_nil; reflexivity]. }
    apply bool_decide_eq_false in Evis. apply Z.ltb_ge in Edepth. apply Z.leb_gt in Epages.
    set (s1 := record (Mark start_url) _).
    pose proof (get_page_content_trace start_url 10 s1) as Htr2.
    pose proof (get_page_content_frame start_url 10 s1) as (Hv2 & _).
    destruct (get_page_content start_url 10 s1) as [content s2]. cbn [snd] in Htr2, Hv2.
    assert (W2 : within_budget a depth s s2 [(start_url, depth)]).
    { unfold within_budget, marks_and_gets. cbn.
      split; [rewrite Htr2; subst s1; cbn; rewrite <- app_assoc; reflexivity|].
      split; [rewrite Hv2; subst s1; cbn; rewrite (right_id_L ∅ (∪)); reflexivity|].
      split; [apply NoDup_singleton|].
      split; [intros u ->%list_elem_of_singleton; exact Evis|].
      split; [apply Forall_singleton; cbn; lia|]. right. lia. }
    assert (Hstop : forall r0, state_of r0 = s2 ->
              (r0, fetched ++ [(start_url, depth)]) = (r, fetched') ->
              exists new, fetched' = fetched ++ new /\
                          within_budget a depth s (state_of r) new).
    { intros r0 Hr0 [= <- <-]. exists [(start_url, depth)].
      split; [reflexivity|]. rewrite Hr0. exact W2. }
    destruct content as [html|]; [|apply (Hstop (Returned s2)); reflexivity].
    destruct (negb (Py.truthy html)); [apply (Hstop (Returned s2)); reflexivity|].
    destruct (classify_url Url_finder a start_url s2) as [[label s3]|] eqn:Ec;
      [|apply (Hstop (Raised s2)); reflexivity].
    apply classify_url_frame in Ec as (Htr3 & Hv3 & _).
    intros Hloop.
    apply (each_link_within_budget a (depth + 1)) in Hloop as (n2 & -> & Wl);
      [|intros link; apply IH].
    exists ((start_url, depth) :: n2).
    split; [rewrite <- app_assoc; reflexivity|].
    change ((start_url, depth) :: n2) with ([(start_url, depth)] ++ n2).
    eapply within_budget_app; [exact W2|]. apply within_budget_deeper.
    destruct Wl as (T & V & N & F & D & B). unfold within_budget.
    rewrite <- Htr3, <- Hv3. repeat split; assumption.
Qed.

Lemma crawl_website_from_first a fuel start_url depth s fetched r fetched' :
  crawl_website_from fuel a start_url depth s fetched = (r, fetched') ->
  fetched' = fetched \/ exists rest, fetched' = fetched ++ (start_url, depth) :: rest.
Proof.
  destruct fuel as [|fuel]; [intros [= <- <-]; left; reflexivity|].
  cbn [crawl_website_from].
  destruct (_ || _); [intros [= <- <-]; left; reflexivity|].
  destruct (bool_decide _); [intros [= <- <-]; left; reflexivity|].
  destruct (get_page_content _ _ _) as [content s2].
  assert (Hstop : forall r0, (r0, fetched ++ [(start_url, depth)]) = (r, fetched') ->
            fetched' = fetched \/
            exists rest, fetched' = fetched ++ (start_url, depth) :: rest).
  { intros r0 [= <- <-]. right. exists []. reflexivity. }
  destruct content as [html|]; [|apply Hstop].
  destruct (negb _); [apply Hstop|].
  destruct (classify_url _ _ _ _) as [[label s3]|]; [|apply Hstop].
  intros Hloop.
  apply (each_link_within_budget a (depth + 1)) in Hloop as (n2 & -> & _);
    [|intros link; apply crawl_website_from_within_budget].
  right. exists n2. rewrite <- app_assoc. reflexivity.
Qed.

Lemma each_link_ext a visit1 visit2 links s fetched :
  (forall link s0 f, visit1 link s0 f = visit2 link s0 f) ->
  each_link a visit1 links s fetched = each_link a visit2 links s fetched.
Proof.
  intros Hext. revert s fetched.
  induction links as [|link links IH]; intros s fetched; [reflexivity|].
  cbn [each_link]. rewrite Hext.
  destruct (_ <? _)%Z; [|reflexivity].
  destruct (visit2 link s fetched) as [[s1|s1] f1]; [apply IH|reflexivity].
Qed.

Lemma crawl_website_from_fuel a fuel :
  forall fuel' start_url depth s fetched,
    (max_depth a < depth + Z.of_nat fuel)%Z -> (fuel <= fuel')%nat ->
    crawl_website_from fuel' a start_url depth s fetched =
    crawl_website_from fuel a start_url depth s fetched.
Proof.
  induction fuel as [|fuel IH]; intros fuel' start_url depth s fetched Hd Hle.
  - destruct fuel' as [|fuel']; [reflexivity|]. cbn [crawl_website_from].
    replace (max_depth a <? depth)%Z with true by (symmetry; apply Z.ltb_lt; lia).
    reflexivity.
  - destruct fuel' as [|fuel']; [lia|]. cbn [crawl_website_from].
    destruct (_ || _); [reflexivity|].
    destruct (bool_decide _); [reflexivity|].
    destruct (get_page_content _ _ _) as [content s2].
    destruct content as [html|]; [|reflexivity].
    destruct (negb _); [reflexivity|].
    destruct (classify_url _ _ _ _) as [[label s3]|]; [|reflexivity].
    apply each_link_ext. intros link s0 f. apply IH; lia.
Qed.

(** X7.  The recursive crawl of url_finder3.py keeps its page budget: every URL
    it requests was new to [visited_urls] and was marked just before, no
    URL is requested twice, the visited set grows by the requested URLs
    only, and with them it holds [max_pages] URLs at most. *)
Theorem recursive_crawl_budget a s r fetched :
  crawl_website a s = (r, fetched) ->
  trace (state_of r) = trace s ++ marks_and_gets fetched /\
  visited_urls (state_of r) = list_to_set fetched.*1 ∪ visited_urls s /\
  NoDup fetched.*1 /\
  (forall u, u ∈ fetched.*1 -> u ∉ visited_urls s) /\
  (fetched = [] \/
   (Z.of_nat (size (visited_urls s)) + Z.of_nat (length fetched) <= max_pages a)%Z).
Proof.
  unfold crawl_website.
  intros (new & Hnew & T & V & N & F & _ & B)%crawl_website_from_within_budget.
  cbn in Hnew. subst new. repeat split; assumption.
Qed.

(** X8.  The recursive crawl requests no URL at a depth beyond [max_depth]: the
    depths it prints are between 0 and [max_depth], and the first URL it
    requests, if any, is the seed URL at depth 0. *)
Theorem recursive_crawl_depth a s r fetched :
  crawl_website a s = (r, fetched) ->
  Forall (fun p => (0 <= p.2 <= max_depth a)%Z) fetched /\
  (fetched = [] \/ exists rest, fetched = (url a, 0%Z) :: rest).
Proof.
  unfold crawl_website. intros Hrun. split.
  - apply crawl_website_from_within_budget in Hrun as (new & Hnew & _ & _ & _ & _ & D & _).
    cbn in Hnew. subst new. exact D.
  - apply crawl_website_from_first in Hrun as [->|[rest ->]];
      [left; reflexivity|right; exists rest; reflexivity].
Qed.

(** X9.  The calls of [crawl_website] nest [max_depth + 1] deep at most: with
    any greater bound on the nesting the crawl gives the same result. *)
Theorem recursive_crawl_nesting a s fuel :
  (Z.to_nat (max_depth a + 1) <= fuel)%nat ->
  crawl_website_from fuel a (url a) 0 s [] = crawl_website a s.
Proof.
  intros Hfuel. unfold crawl_website. apply crawl_website_from_fuel; lia.
Qed.

End RecursiveCrawl.

(** ** The level crawl of url_scraper.py and its links *)

Section LevelLinks.
Context `{Runtime}.

Import Advanced.
Import Links (collects).

Lemma should_crawl_url_parsed a u :
  should_crawl_url a u = true ->
  exists parsed, urlparse u = Some parsed /\
    Py.contains (base_domain a) (netloc parsed) = true /\
    existsb (Py.endswith (Py.lower u)) skip_extensions = false.
Proof.
  unfold should_crawl_url. destruct (negb (is_valid_url u)); [discriminate|].
  destruct (urlparse u) as [parsed|]; [|discriminate].
  destruct (existsb _ _) eqn:Eskip; [discriminate|].
  destruct (Py.contains _ _) eqn:Ebase; [|discriminate].
  intros _. exists parsed. repeat split; assumption.
Qed.

Lemma collects_refl a s : collects a s s.
Proof. split; [reflexivity|]. intros x Hx. left. exact Hx. Qed.

Lemma collects_trans a s1 s2 s3 :
  collects a s1 s2 -> collects a s2 s3 -> collects a s1 s3.
Proof.
  intros [A1 B1] [A2 B2]. split; [etransitivity; eassumption|].
  intros x Hx. destruct (B2 x Hx) as [Hx2|Hok]; [apply B1, Hx2|right; exact Hok].
Qed.

Lemma collects_same a s s' :
  all_internal_links s' = all_internal_links s -> collects a s s'.
Proof.
  intros E. split; [rewrite E; reflexivity|]. intros x. rewrite E. intros Hx.
  left. exact Hx.
Qed.

Lemma page_links_collects a u tags links s :
  collects a s (snd (page_links a u tags links s)) /\
  forall links', fst (page_links a u tags links s) = Some links' ->
    forall x, x ∈ links' -> x ∈ links \/ should_crawl_url a x = true.
Proof.
  revert links s. induction tags as [|t tags IH]; intros links s; cbn [page_links].
  - split; [apply collects_refl|]. cbn. intros links' [= <-] x Hx. left. exact Hx.
  - destruct (urljoin u _) as [full_url|];
      [|split; [apply collects_refl|cbn; intros links'; discriminate]].
    destruct (should_crawl_url a full_url) eqn:Eok; [|apply IH].
    destruct (IH (links ++ [full_url])
                {| all_internal_links := {[full_url]} ∪ all_internal_links s;
                   visited_pages := visited_pages s; trace := trace s |}) as [Hc Hl].
    split.
    + eapply collects_trans; [|exact Hc]. split; cbn.
      * apply union_subseteq_r.
      * intros x [->%elem_of_singleton|Hx]%elem_of_union;
          [right; exact Eok|left; exact Hx].
    + intros links' Hfst x Hx.
      destruct (Hl links' Hfst x Hx) as [[Hin| ->%list_elem_of_singleton]%elem_of_app|Hok];
        [left; exact Hin|right; exact Eok|right; exact Hok].
Qed.

Lemma crawl_single_page_collects a u s :
  collects a s (snd (crawl_single_page a u s)) /\
  forall x, x ∈ fst (crawl_single_page a u s) -> should_crawl_url a x = true.
Proof.
  unfold crawl_single_page.
  assert (Hnone : forall s', all_internal_links s' = all_internal_links s ->
            collects a s (snd (@nil string, s')) /\
            forall x, x ∈ fst (@nil string, s') -> should_crawl_url a x = true).
  { intros s' E. split; [apply collects_same, E|].
    cbn. intros x Hx%elem_of_nil. contradiction. }
  destruct (session_get _ _ _) as [code content|e]; [|apply Hnone; reflexivity].
  destruct (negb (code =? 200)%Z); [apply Hnone; reflexivity|].
  destruct (BeautifulSoup content) as [doc|]; [|apply Hnone; reflexivity].
  set (s' := {| all_internal_links := all_internal_links s;
                visited_pages := visited_pages s; trace := trace s ++ [Get u] |}).
  pose proof (page_links_collects a u (find_all_href ["a"] doc) [] s') as [Hc Hl].
  destruct (page_links _ _ _ _ _) as [[links|] s'']; cbn [fst snd] in *.
  - split; [eapply collects_trans; [|exact Hc]; apply collects_same; reflexivity|].
    intros x Hx. destruct (Hl links eq_refl x Hx) as [Hin%elem_of_nil|Hok];
      [contradiction|exact Hok].
  - split; [eapply collects_trans; [|exact Hc]; apply collects_same; reflexivity|].
    intros x Hx%elem_of_nil. contradiction.
Qed.

Lemma crawl_one_collects a next_level s u :
  collects a s (snd (crawl_one a (next_level, s) u)) /\
  forall x, x ∈ fst (crawl_one a (next_level, s) u) ->
    x ∈ next_level \/ should_crawl_url a x = true.
Proof.
  unfold crawl_one. pose proof (crawl_single_page_collects a u s) as [Hc Hl].
  destruct (crawl_single_page a u s) as [links s1]. cbn [fst snd] in *.
  split; [eapply collects_trans; [exact Hc|]; apply collects_same; reflexivity|].
  intros x [Hx|Hx%elem_of_list_to_set]%elem_of_union;
    [left; exact Hx|right; apply Hl, Hx].
Qed.

(** One level: what it collects, and its trace. *)
Lemma crawl_level_collects a todo next_level s :
  let r := fold_left (crawl_one a) todo (next_level, s) in
  collects a s (snd r) /\
  (forall x, x ∈ fst r -> x ∈ next_level \/ should_crawl_url a x = true) /\
  exists tr, trace (snd r) = trace s ++ tr /\ fetch_log tr = todo.
Proof.
  revert next_level s. induction todo as [|u todo IH]; intros next_level s; cbn zeta.
  - cbn. split; [apply collects_refl|]. split; [intros x Hx; left; exact Hx|].
    exists []. rewrite app_nil_r. split; reflexivity.
  - cbn [fold_left]. pose proof (crawl_one_collects a next_level s u) as [Hc Hl].
    pose proof (crawl_one_frame a next_level s u) as [Ht _].
    destruct (crawl_one a (next_level, s) u) as [next_level1 s1].
    cbn [fst snd] in Hc, Hl, Ht.
    destruct (IH next_level1 s1) as (Hc' & Hl' & tr & Htr & Hlog).
    split; [eapply collects_trans; eassumption|].
    split.
    + intros x Hx. destruct (Hl' x Hx) as [Hx1|Hok]; [apply Hl, Hx1|right; exact Hok].
    + exists ([Get u; Mark u] ++ tr). rewrite Htr, Ht, <- app_assoc.
      split; [reflexivity|]. cbn. rewrite Hlog. reflexivity.
Qed.

Lemma crawl_levels_collects fuel a depth current_level s :
  (forall u, u ∈ current_level -> u = url a \/ should_crawl_url a u = true) ->
  let s' := crawl_levels fuel a depth current_level s in
  collects a s s' /\
  exists tr, trace s' = trace s ++ tr /\
    (forall u, u ∈ fetch_log tr -> u = url a \/ should_crawl_url a u = true) /\
    visited_pages s' = list_to_set (fetch_log tr) ∪ visited_pages s.
Proof.
  revert depth current_level s.
  induction fuel as [|fuel IH]; intros depth current_level s Hlevel; cbn [crawl_levels].
  - split; [apply collects_refl|]. exists []. rewrite app_nil_r.
    split; [reflexivity|]. split; [intros u Hu%elem_of_nil; contradiction|].
    cbn. rewrite (left_id_L ∅ (∪)). reflexivity.
  - destruct (_ && _).
    2:{ split; [apply collects_refl|]. exists []. rewrite app_nil_r.
        split; [reflexivity|]. split; [intros u Hu%elem_of_nil; contradiction|].
        cbn. rewrite (left_id_L ∅ (∪)). reflexivity. }
    set (todo := filter (fun u => u ∉ visited_pages s) (set_order current_level)).
    pose proof (crawl_level_collects a todo ∅ s) as (Hc & Hl & tr & Htr & Hlog).
    pose proof (crawl_level_frame a todo ∅ s) as [_ Hv].
    destruct (fold_left (crawl_one a) todo (∅, s)) as [next_level s1].
    cbn [fst snd] in Hc, Hl, Htr, Hv.
    destruct (IH (depth + 1)%Z
                (filter (fun u => (u ∉ visited_pages s1) /\ (should_crawl_url a u = true))
                        next_level) s1) as (Hc' & tr' & Htr' & Hlog' & Hv').
    { intros u [[_ Hok] _]%elem_of_filter. right. exact Hok. }
    split; [eapply collects_trans; eassumption|].
    exists (tr ++ tr'). rewrite Htr', Htr, <- app_assoc. split; [reflexivity|].
    rewrite fetch_log_app, Hlog. split.
    + intros u [Hu|Hu]%elem_of_app; [|apply Hlog', Hu].
      apply list_elem_of_filter in Hu as [_ Hu]. apply Hlevel.
      apply elem_of_elements. rewrite <- set_order_perm. exact Hu.
    + rewrite Hv', Hv. apply set_eq. intros x.
      rewrite !elem_of_union, !elem_of_list_to_set, elem_of_app. tauto.
Qed.

(** X10.  [crawl_website] of url_scraper.py adds to [all_internal_links] only URLs
    that [should_crawl_url] accepts; it requests the seed URL and such URLs
    only; and [visited_pages] grows by exactly the URLs it requests. *)
Theorem crawl_website_collects a s :
  let s' := crawl_website a s in
  all_internal_links s ⊆ all_internal_links s' /\
  (forall x, x ∈ all_internal_links s' ->
     x ∈ all_internal_links s \/ should_crawl_url a x = true) /\
  exists tr, trace s' = trace s ++ tr /\
    (forall u, u ∈ fetch_log tr -> u = url a \/ should_crawl_url a u = true) /\
    visited_pages s' = list_to_set (fetch_log tr) ∪ visited_pages s.
Proof.
  cbn zeta. unfold crawl_website.
  destruct (crawl_levels_collects (Z.to_nat (max_depth a)) a 0%Z {[url a]} s)
    as ([Hsub Hnew] & Htr).
  { intros u ->%elem_of_singleton. left. reflexivity. }
  split; [exact Hsub|]. split; [exact Hnew|exact Htr].
Qed.

(** X11.  With a depth below one, or a page budget that is used up, the level
    crawl requests nothing and changes nothing; with a depth of one it
    requests the seed URL and nothing else. *)
Theorem crawl_website_shallow a s :
  ((max_depth a <= 0)%Z \/ (max_pages a <= Z.of_nat (size (visited_pages s)))%Z ->
   crawl_website a s = s) /\
  ((max_depth a <= 1)%Z ->
   exists tr, trace (crawl_website a s) = trace s ++ tr /\
     forall u, u ∈ fetch_log tr -> u = url a).
Proof.
  unfold crawl_website. split.
  - intros Hstop. destruct (Z.to_nat (max_depth a)) as [|n] eqn:En; [reflexivity|].
    cbn [crawl_levels]. destruct Hstop as [Hd|Hp]; [lia|].
    replace (Z.of_nat (size (visited_pages s)) <? max_pages a)%Z with false
      by (symmetry; apply Z.ltb_ge; exact Hp).
    rewrite andb_false_r. reflexivity.
  - intros Hdepth.
    assert (Hnone : exists tr, trace s = trace s ++ tr /\
                      forall u, u ∈ fetch_log tr -> u = url a).
    { exists []. rewrite app_nil_r.
      split; [reflexivity|]. intros u Hu%elem_of_nil. contradiction. }
    destruct (Z.to_nat (max_depth a)) as [|[|n]] eqn:En; [exact Hnone| |lia].
    cbn [crawl_levels]. destruct (_ && _); [|exact Hnone].
    set (todo := filter (fun u => u ∉ visited_pages s) (set_order {[url a]})).
    pose proof (crawl_level_collects a todo ∅ s) as (_ & _ & tr & Htr & Hlog).
    destruct (fold_left (crawl_one a) todo (∅, s)) as [next_level s1].
    cbn [snd] in Htr. exists tr. split; [exact Htr|].
    intros u. rewrite Hlog. intros [_ Hu]%list_elem_of_filter.
    rewrite set_order_perm in Hu. apply elem_of_elements, elem_of_singleton in Hu.
    exact Hu.
Qed.

End LevelLinks.

(** ** [analyze_links] *)

Section AnalyzeLinks.
Context `{Runtime}.

Import Links.

Lemma fold_analyze_none a links :
  fold_left (fun acc u => acc ≫= fun r0 => analyze_link a r0 u) links None = None.
Proof. induction links as [|u links IH]; [reflexivity|exact IH]. Qed.

Lemma listed_unique a u c c' : listed a u c -> listed a u c' -> c = c'.
Proof.
  intros (p & Hp & _ & _ & Hc) (p' & Hp' & _ & _ & Hc').
  rewrite Hp in Hp'. injection Hp' as <-. rewrite Hc in Hc'. congruence.
Qed.

(** What the body of the loop does for one URL. *)
Lemma analyze_link_spec a r u r' :
  analyze_link a r u = Some r' ->
  exists parsed, urlparse u = Some parsed /\
    found_subdomains r' =
      (if bool_decide (netloc parsed ≠ Advanced.domain a)
          && Py.contains (Advanced.base_domain a) (netloc parsed)
       then {[netloc parsed]} ∪ found_subdomains r else found_subdomains r) /\
    ((exists c, listed a u c /\
        found_subdirectories r' = {[u]} ∪ found_subdirectories r /\
        directory_categories r' =
          <[c := default [] (directory_categories r !! c) ++ [u]]>
            (directory_categories r)) \/
     ((forall c, ~ listed a u c) /\
      found_subdirectories r' = found_subdirectories r /\
      directory_categories r' = directory_categories r)).
Proof.
  unfold analyze_link. destruct (urlparse u) as [parsed|] eqn:Eparse; [|discriminate].
  intros Hr. exists parsed. split; [reflexivity|].
  set (r1 := if _ && _ then _ else r) in Hr.
  assert (Hsub : found_subdomains r1 =
            (if bool_decide (netloc parsed ≠ Advanced.domain a)
                && Py.contains (Advanced.base_domain a) (netloc parsed)
             then {[netloc parsed]} ∪ found_subdomains r else found_subdomains r)).
  { subst r1. destruct (_ && _); reflexivity. }
  assert (Hdir : found_subdirectories r1 = found_subdirectories r)
    by (subst r1; destruct (_ && _); reflexivity).
  assert (Hcat : directory_categories r1 = directory_categories r)
    by (subst r1; destruct (_ && _); reflexivity).
  clearbody r1.
  assert (Hscope : bool_decide (netloc parsed = Advanced.domain a)
                   || Py.endswith (netloc parsed) ("." +:+ Advanced.base_domain a)
                   = Spec.in_scope (Advanced.domain a) (Advanced.base_domain a)
                       (netloc parsed)).
  { unfold Spec.in_scope. f_equal. destruct (String.eqb_spec (netloc parsed) (Advanced.domain a)).
    - apply bool_decide_eq_true_2. assumption.
    - apply bool_decide_eq_false_2. assumption. }
  rewrite Hscope in Hr.
  assert (Hnot : Spec.in_scope (Advanced.domain a) (Advanced.base_domain a) (netloc parsed)
                 && Py.truthy (Py.strip_slash (path parsed)) = false ->
                 forall c, ~ listed a u c).
  { intros Hf c (p & Hp & Hs & Ht & _). rewrite Eparse in Hp. injection Hp as <-.
    rewrite Hs, Ht in Hf. discriminate. }
  destruct (Spec.in_scope _ _ _) eqn:Es.
  2:{ injection Hr as <-. split; [exact Hsub|]. right.
      split; [apply Hnot; reflexivity|]. split; assumption. }
  destruct (Py.truthy _) eqn:Et.
  2:{ injection Hr as <-. split; [exact Hsub|]. right.
      split; [apply Hnot; reflexivity|]. split; assumption. }
  destruct (Py.split "/" _) as [|category rest] eqn:Esplit.
  { exfalso. exact (PyFacts.split_nonnil _ _ Esplit). }
  injection Hr as <-. cbn. split; [exact Hsub|]. left. exists category.
  split.
  { exists parsed. rewrite Esplit. repeat split; assumption. }
  rewrite Hdir, Hcat. split; reflexivity.
Qed.

Lemma subdomain_of_snoc a seen u d :
  subdomain_of a (seen ++ [u]) d <->
  subdomain_of a seen d \/
  exists parsed, urlparse u = Some parsed /\ netloc parsed = d /\
    d <> Advanced.domain a /\ Py.contains (Advanced.base_domain a) d = true.
Proof.
  unfold subdomain_of. split.
  - intros (x & p & [Hx| ->%list_elem_of_singleton]%elem_of_app & Hp & Hrest).
    + left. exists x, p. split; [exact Hx|]. split; assumption.
    + right. exists p. split; assumption.
  - intros [(x & p & Hx & Hrest)|(p & Hp & Hrest)].
    + exists x, p. split; [apply elem_of_app; left; exact Hx|exact Hrest].
    + exists u, p. split; [apply elem_of_app; right; apply list_elem_of_singleton;
        reflexivity|]. split; assumption.
Qed.

Lemma analysed_start r0 :
  directory_categories r0 = ∅ -> forall a, analysed a r0 [] r0.
Proof.
  intros Hempty a. unfold analysed. rewrite Hempty.
  split; [|split; [|split]].
  - intros d. split; [intros Hd; left; exact Hd|].
    intros [Hd|(u & p & Hu%elem_of_nil & _)]; [exact Hd|contradiction].
  - intros x. split; [intros Hx; left; exact Hx|].
    intros [Hx|[Hx%elem_of_nil _]]; [exact Hx|contradiction].
  - intros c x. split.
    + intros (us & Hus & _). rewrite lookup_empty in Hus. discriminate.
    + intros [Hx%elem_of_nil _]. contradiction.
  - intros c us Hus. rewrite lookup_empty in Hus. discriminate.
Qed.

(** One round of the loop keeps the account. *)
Lemma analyze_link_analysed a r0 seen r u r' :
  u ∉ seen -> analysed a r0 seen r -> analyze_link a r u = Some r' ->
  analysed a r0 (seen ++ [u]) r'.
Proof.
  intros Hfresh (I1 & I2 & I3 & I4) (parsed & Hparse & Hsub & Hdir)%analyze_link_spec.
  assert (Hin : forall x, x ∈ seen ++ [u] <-> x ∈ seen \/ x = u).
  { intros x. rewrite elem_of_app, list_elem_of_singleton. reflexivity. }
  split; [|split; [|split]].
  - intros d. rewrite subdomain_of_snoc, Hsub.
    destruct (bool_decide (netloc parsed ≠ Advanced.domain a)) eqn:Ene;
      [apply bool_decide_eq_true in Ene|apply bool_decide_eq_false in Ene]; cbn [andb].
    + destruct (Py.contains _ _) eqn:Ec.
      * rewrite elem_of_union, elem_of_singleton, I1. split.
        -- intros [->|[Hd|Hd]]; [|tauto|tauto].
           right. right. exists parsed. repeat split; assumption.
        -- intros [Hd|[Hd|(p & Hp & Hn & _)]]; [tauto|tauto|].
           rewrite Hparse in Hp. injection Hp as <-. left. symmetry. exact Hn.
      * rewrite I1. split; [tauto|].
        intros [Hd|[Hd|(p & Hp & Hn & _ & Hc)]]; [tauto|tauto|].
        rewrite Hparse in Hp. injection Hp as <-. subst d. congruence.
    + rewrite I1. split; [tauto|].
      intros [Hd|[Hd|(p & Hp & Hn & Hne & _)]]; [tauto|tauto|].
      rewrite Hparse in Hp. injection Hp as <-. subst d. contradiction.
  - intros x. rewrite Hin. destruct Hdir as [(c & Hl & -> & _)|(Hno & -> & _)].
    + rewrite elem_of_union, elem_of_singleton, I2. split.
      * intros [->|[Hx|[Hx Hc]]]; [|tauto|tauto].
        right. split; [right; reflexivity|exists c; exact Hl].
      * intros [Hx|[[Hx| ->] Hc]]; tauto.
    + rewrite I2. split; [tauto|].
      intros [Hx|[[Hx| ->] [c Hc]]]; [tauto|eauto|]. destruct (Hno c Hc).
  - intros c x. rewrite Hin. destruct Hdir as [(c0 & Hl & _ & ->)|(Hno & _ & ->)].
    + destruct (decide (c0 = c)) as [->|Hne].
      * rewrite lookup_insert_eq. split.
        -- intros (us & [= <-] & [Hx| ->%list_elem_of_singleton]%elem_of_app);
             [|split; [right; reflexivity|exact Hl]].
           destruct (directory_categories r !! c) as [us0|] eqn:E0; cbn in Hx;
             [|apply elem_of_nil in Hx; contradiction].
           destruct (proj1 (I3 c x)) as [Hs Hlx]; [exists us0; split; assumption|].
           split; [left; exact Hs|exact Hlx].
        -- intros [[Hx| ->] Hlx].
           ++ destruct (proj2 (I3 c x) (conj Hx Hlx)) as (us0 & E0 & Hx0).
              eexists. split; [reflexivity|]. rewrite E0. cbn.
              apply elem_of_app. left. exact Hx0.
           ++ eexists. split; [reflexivity|]. apply elem_of_app. right.
              apply list_elem_of_singleton. reflexivity.
      * rewrite lookup_insert_ne by exact Hne. rewrite I3. split; [tauto|].
        intros [[Hx| ->] Hlx]; [tauto|].
        destruct Hne. exact (listed_unique a u c0 c Hl Hlx).
    + rewrite I3. split; [tauto|].
      intros [[Hx| ->] Hlx]; [tauto|]. destruct (Hno c Hlx).
  - intros c us. destruct Hdir as [(c0 & Hl & _ & ->)|(Hno & _ & ->)]; [|apply I4].
    destruct (decide (c0 = c)) as [->|Hne].
    + rewrite lookup_insert_eq. intros [= <-]. split.
      * apply NoDup_app. split; [|split; [|apply NoDup_singleton]].
        -- destruct (directory_categories r !! c) as [us0|] eqn:E0; cbn;
             [apply (I4 c us0 E0)|apply NoDup_nil_2].
        -- intros x Hx ->%list_elem_of_singleton.
           destruct (directory_categories r !! c) as [us0|] eqn:E0; cbn in Hx;
             [|apply elem_of_nil in Hx; contradiction].
           apply Hfresh. apply (proj1 (I3 c u)). exists us0. split; assumption.
      * intros Hnil. apply app_eq_nil in Hnil as [_ Hnil]. discriminate.
    + rewrite lookup_insert_ne by exact Hne. apply I4.
Qed.

Lemma analyze_fold_analysed a r0 links :
  forall seen r r',
    NoDup (seen ++ links) -> analysed a r0 seen r ->
    fold_left (fun acc u => acc ≫= fun r1 => analyze_link a r1 u) links (Some r)
    = Some r' ->
    analysed a r0 (seen ++ links) r'.
Proof.
  induction links as [|u links IH]; intros seen r r' Hnd Hinv.
  - cbn. intros [= <-]. rewrite app_nil_r. exact Hinv.
  - cbn [fold_left mbind option_bind].
    destruct (analyze_link a r u) as [r1|] eqn:E1;
      [|rewrite fold_analyze_none; discriminate].
    intros Hfold. replace (seen ++ u :: links) with ((seen ++ [u]) ++ links) in *
      by (rewrite <- app_assoc; reflexivity).
    apply (IH (seen ++ [u]) r1 r' Hnd); [|exact Hfold].
    apply (analyze_link_analysed a r0 seen r u r1); [|exact Hinv|exact E1].
    apply NoDup_app in Hnd as [Hnd _]. apply NoDup_app in Hnd as (_ & Hd & _).
    intros Hu. apply (Hd u Hu). apply list_elem_of_singleton. reflexivity.
Qed.

Lemma analyze_links_analysed a s r0 r' :
  directory_categories r0 = ∅ ->
  analyze_links a s r0 = Some r' ->
  analysed a r0 (set_order (Advanced.all_internal_links s)) r'.
Proof.
  intros Hempty Hrun.
  apply (analyze_fold_analysed a r0 (set_order (Advanced.all_internal_links s)) [] r0 r').
  - cbn. rewrite set_order_perm. apply NoDup_elements.
  - apply analysed_start, Hempty.
  - exact Hrun.
Qed.

Lemma elem_of_set_order (S : gset string) x : x ∈ set_order S <-> x ∈ S.
Proof. rewrite set_order_perm. apply elem_of_elements. Qed.

(** X12.  What [analyze_links] finds.  A subdomain is the host, other than the
    seed host, of a collected link, when it contains the base domain.  A
    subdirectory is a collected link itself, the whole URL, when its host
    is the seed host or ends with a dot and the base domain and its path
    holds more than slashes. *)
Theorem analyze_links_results a s r0 r' :
  directory_categories r0 = ∅ ->
  analyze_links a s r0 = Some r' ->
  (forall d, d ∈ found_subdomains r' <->
     d ∈ found_subdomains r0 \/
     exists u parsed, u ∈ Advanced.all_internal_links s /\
       urlparse u = Some parsed /\ netloc parsed = d /\
       d <> Advanced.domain a /\ Py.contains (Advanced.base_domain a) d = true) /\
  (forall x, x ∈ found_subdirectories r' <->
     x ∈ found_subdirectories r0 \/
     (x ∈ Advanced.all_internal_links s /\ exists c, listed a x c)).
Proof.
  intros Hempty (I1 & I2 & _)%analyze_links_analysed; [|exact Hempty]. split.
  - intros d. rewrite I1. unfold subdomain_of.
    split; (intros [Hd|(u & p & Hu & Hrest)]; [left; exact Hd|]);
      right; exists u, p; (split; [apply elem_of_set_order, Hu|exact Hrest]).
  - intros x. rewrite I2, elem_of_set_order. reflexivity.
Qed.

(** X13.  The categories of [analyze_links] sort the subdirectories by the first
    segment of their path: a URL is in the list of a category exactly when
    it is a collected link that is listed as a subdirectory and its path
    starts with that segment; no list is empty and none holds a URL twice. *)
Theorem analyze_links_categories a s r0 r' :
  directory_categories r0 = ∅ ->
  analyze_links a s r0 = Some r' ->
  (forall c x, (exists us, directory_categories r' !! c = Some us /\ x ∈ us) <->
     (x ∈ Advanced.all_internal_links s /\ listed a x c)) /\
  (forall c us, directory_categories r' !! c = Some us -> NoDup us /\ us <> []).
Proof.
  intros Hempty (_ & _ & I3 & I4)%analyze_links_analysed; [|exact Hempty]. split.
  - intros c x. rewrite I3, elem_of_set_order. reflexivity.
  - exact I4.
Qed.

Lemma analyze_link_returns a r u parsed :
  urlparse u = Some parsed -> exists r', analyze_link a r u = Some r'.
Proof.
  intros Hparse. unfold analyze_link. rewrite Hparse.
  destruct (_ || _); [|eexists; reflexivity].
  destruct (Py.truthy _); [|eexists; reflexivity].
  destruct (Py.split _ _); eexists; reflexivity.
Qed.

Lemma analyze_fold_returns a links :
  (forall u, u ∈ links -> exists parsed, urlparse u = Some parsed) ->
  forall r, exists r',
    fold_left (fun acc u => acc ≫= fun r1 => analyze_link a r1 u) links (Some r)
    = Some r'.
Proof.
  induction links as [|u links IH]; intros Hparse r; [exists r; reflexivity|].
  cbn [fold_left mbind option_bind].
  destruct (Hparse u) as [parsed Hp]; [apply elem_of_cons; left; reflexivity|].
  destruct (analyze_link_returns a r u parsed Hp) as [r1 ->].
  apply IH. intros x Hx. apply Hparse. apply elem_of_cons. right. exact Hx.
Qed.

(** X14.  After a crawl that started with no link collected, [analyze_links] does
    not raise: [should_crawl_url] has parsed every collected link.  And as
    the host of every collected link contains the base domain, the
    subdomains it finds are the hosts of the collected links other than the
    seed host. *)
Theorem analyze_links_after_crawl a :
  exists r',
    analyze_links a (Advanced.crawl_website a Advanced.fresh) none = Some r' /\
    forall d, d ∈ found_subdomains r' <->
      exists u parsed,
        u ∈ Advanced.all_internal_links (Advanced.crawl_website a Advanced.fresh) /\
        urlparse u = Some parsed /\ netloc parsed = d /\ d <> Advanced.domain a.
Proof.
  destruct (crawl_levels_collects (Z.to_nat (Advanced.max_depth a)) a 0%Z
              {[Advanced.url a]} Advanced.fresh) as ([_ Hnew] & _).
  { intros u ->%elem_of_singleton. left. reflexivity. }
  fold (Advanced.crawl_website a Advanced.fresh) in Hnew.
  assert (Hok : forall u, u ∈ Advanced.all_internal_links
                              (Advanced.crawl_website a Advanced.fresh) ->
                Advanced.should_crawl_url a u = true).
  { intros u Hu. destruct (Hnew u Hu) as [Hu0|Hok]; [|exact Hok].
    cbn in Hu0. apply elem_of_empty in Hu0. contradiction. }
  destruct (analyze_fold_returns a
              (set_order (Advanced.all_internal_links
                            (Advanced.crawl_website a Advanced.fresh)))) with (r := none)
    as [r' Hr'].
  { intros u Hu%elem_of_set_order.
    destruct (should_crawl_url_parsed a u (Hok u Hu)) as (parsed & Hp & _).
    exists parsed. exact Hp. }
  exists r'. split; [exact Hr'|].
  apply analyze_links_analysed in Hr' as (I1 & _); [|reflexivity].
  intros d. rewrite I1. unfold subdomain_of. split.
  - intros [Hd%elem_of_empty|(u & p & Hu & Hp & Hn & Hne & _)]; [contradiction|].
    exists u, p. split; [apply elem_of_set_order, Hu|]. repeat split; assumption.
  - intros (u & p & Hu & Hp & Hn & Hne).
    right. exists u, p. split; [apply elem_of_set_order, Hu|].
    split; [exact Hp|]. split; [exact Hn|]. split; [exact Hne|].
    destruct (should_crawl_url_parsed a u (Hok u Hu)) as (p' & Hp' & Hc & _).
    rewrite Hp in Hp'. injection Hp' as <-. rewrite <- Hn. exact Hc.
Qed.

End AnalyzeLinks.

(** ** The subdomain check *)

Section SubdomainCheck.
Context `{Prober}.

Import Probe.

Lemma full_subdomain_truthy subdomain base_domain :
  Py.truthy (subdomain +:+ "." +:+ base_domain) = true.
Proof. destruct subdomain; reflexivity. Qed.

Lemma check_subdomain_some base_domain i subdomain d :
  check_subdomain base_domain i subdomain = Some d <->
  d = subdomain +:+ "." +:+ base_domain /\
  dns_resolve i d = true /\
  (head_ok i ("https://" +:+ d) = true \/ head_ok i ("http://" +:+ d) = true).
Proof.
  unfold check_subdomain. cbn [existsb]. rewrite orb_false_r.
  change ("https" +:+ "://" +:+ ?x) with ("https://" +:+ x).
  change ("http" +:+ "://" +:+ ?x) with ("http://" +:+ x).
  set (full := subdomain +:+ "." +:+ base_domain). split.
  - destruct (dns_resolve i full) eqn:Edns; [|discriminate].
    destruct (head_ok i ("https://" +:+ full)) eqn:Es; cbn [orb].
    + intros [= <-]. repeat split; [exact Edns|left; exact Es].
    + destruct (head_ok i ("http://" +:+ full)) eqn:Ep; [|discriminate].
      intros [= <-]. repeat split; [exact Edns|right; exact Ep].
  - intros (-> & Edns & Hhead). rewrite Edns.
    destruct Hhead as [->| ->]; [reflexivity|rewrite orb_true_r; reflexivity].
Qed.

Lemma elem_of_add_result found subdomain base_domain i x :
  x ∈ add_result found (check_subdomain base_domain i subdomain) <->
  x ∈ found \/ check_subdomain base_domain i subdomain = Some x.
Proof.
  unfold add_result.
  destruct (check_subdomain base_domain i subdomain) as [d|] eqn:Ec.
  - apply check_subdomain_some in Ec as (-> & _).
    rewrite full_subdomain_truthy, elem_of_union, elem_of_singleton.
    split; [intros [->|Hx]; [right; reflexivity|left; exact Hx]|].
    intros [Hx|[= ->]]; [right; exact Hx|left; reflexivity].
  - split; [intros Hx; left; exact Hx|]. intros [Hx|Hx]; [exact Hx|discriminate].
Qed.

Lemma elem_of_find_in completed base_domain found x :
  x ∈ find_subdomains_dns_in completed base_domain found <->
  x ∈ found \/ exists t, t ∈ completed /\ check_subdomain base_domain t.1 t.2 = Some x.
Proof.
  unfold find_subdomains_dns_in. revert found.
  induction completed as [|t completed IH]; intros found; cbn [fold_left].
  - split; [intros Hx; left; exact Hx|].
    intros [Hx|(t & Ht%elem_of_nil & _)]; [exact Hx|contradiction].
  - rewrite IH, elem_of_add_result. split.
    + intros [[Hx|Hc]|(t' & Ht' & Hc)]; [left; exact Hx| |].
      * right. exists t. split; [apply elem_of_cons; left; reflexivity|exact Hc].
      * right. exists t'. split; [apply elem_of_cons; right; exact Ht'|exact Hc].
    + intros [Hx|(t' & [->|Ht']%elem_of_cons & Hc)].
      * left. left. exact Hx.
      * left. right. exact Hc.
      * right. exists t'. split; assumption.
Qed.

Lemma elem_of_zip_seq (names : list string) k i x :
  (i, x) ∈ zip (seq k (length names)) names <->
  (k <= i)%nat /\ names !! (i - k)%nat = Some x.
Proof.
  revert k. induction names as [|n names IH]; intros k; cbn.
  - split; [intros Hin%elem_of_nil; contradiction|intros [_ Hl]; discriminate].
  - rewrite elem_of_cons, IH. split.
    + intros [[= -> ->]|[Hle Hl]].
      * split; [lia|]. rewrite Nat.sub_diag. reflexivity.
      * split; [lia|]. replace (i - k)%nat with (S (i - S k)) by lia. exact Hl.
    + intros [Hle Hl]. destruct (decide (i = k)) as [->|Hne].
      * left. rewrite Nat.sub_diag in Hl. cbn in Hl. congruence.
      * right. split; [lia|]. replace (i - k)%nat with (S (i - S k)) in Hl by lia.
        exact Hl.
Qed.

Lemma elem_of_tasks names t : t ∈ tasks names <-> names !! t.1 = Some t.2.
Proof.
  destruct t as [i x]. unfold tasks. rewrite elem_of_zip_seq, Nat.sub_0_r. cbn.
  split; [intros [_ Hl]; exact Hl|intros Hl; split; [lia|exact Hl]].
Qed.

(** X15.  [find_subdomains_dns] adds a name exactly when it is one of the common
    names joined to the base domain by a dot, the name resolves, and a HEAD
    request over [https] or over [http] answers with a status code below
    400; every added name contains the base domain.  The order in which the
    checks complete changes nothing. *)
Theorem find_subdomains_dns_found completed base_domain found :
  completed ≡ₚ tasks common_subdomains ->
  find_subdomains_dns_in completed base_domain found
  = find_subdomains_dns base_domain found /\
  forall d, d ∈ find_subdomains_dns_in completed base_domain found <->
    d ∈ found \/
    exists i subdomain, common_subdomains !! i = Some subdomain /\
      d = subdomain +:+ "." +:+ base_domain /\
      Py.contains base_domain d = true /\
      dns_resolve i d = true /\
      (head_ok i ("https://" +:+ d) = true \/ head_ok i ("http://" +:+ d) = true).
Proof.
  intros Hperm. split.
  - unfold find_subdomains_dns. apply set_eq. intros x.
    rewrite !elem_of_find_in. split;
      (intros [Hx|(t & Ht & Hc)]; [left; exact Hx|right; exists t]);
      (split; [|exact Hc]); [rewrite <- Hperm|rewrite Hperm]; exact Ht.
  - intros d. rewrite elem_of_find_in. split.
    + intros [Hd|([i sub] & Ht & Hc)]; [left; exact Hd|right].
      rewrite Hperm in Ht. apply elem_of_tasks in Ht. cbn in Ht, Hc.
      apply check_subdomain_some in Hc as (-> & Hdns & Hhead).
      exists i, sub. split; [exact Ht|]. split; [reflexivity|].
      split; [apply PyFacts.contains_app_r2|]. split; assumption.
    + intros [Hd|(i & sub & Hl & Hname & _ & Hdns & Hhead)]; [left; exact Hd|right].
      exists (i, sub). split; [rewrite Hperm; apply elem_of_tasks; exact Hl|].
      cbn. apply check_subdomain_some. repeat split; assumption.
Qed.

Lemma elem_of_fold_add_result results found x :
  x ∈ fold_left add_result results found <->
  x ∈ found \/ (Some x ∈ results /\ Py.truthy x = true).
Proof.
  revert found. induction results as [|r results IH]; intros found; cbn [fold_left].
  - split; [intros Hx; left; exact Hx|].
    intros [Hx|[Hx%elem_of_nil _]]; [exact Hx|contradiction].
  - rewrite IH, elem_of_cons. unfold add_result. destruct r as [d|].
    + destruct (Py.truthy d) eqn:Et.
      * rewrite elem_of_union, elem_of_singleton. split.
        -- intros [[->|Hx]|[Hx Ht]]; [right; split; [left; reflexivity|exact Et]
                                      |left; exact Hx|right; split; [right; exact Hx|exact Ht]].
        -- intros [Hx|[[[= ->]|Hx] Ht]];
             [left; right; exact Hx|left; left; reflexivity|right; split; assumption].
      * split.
        -- intros [Hx|[Hx Ht]]; [left; exact Hx|right; split; [right; exact Hx|exact Ht]].
        -- intros [Hx|[[[= ->]|Hx] Ht]];
             [left; exact Hx|congruence|right; split; assumption].
    + split.
      * intros [Hx|[Hx Ht]]; [left; exact Hx|right; split; [right; exact Hx|exact Ht]].
      * intros [Hx|[[Hx|Hx] Ht]];
          [left; exact Hx|discriminate|right; split; assumption].
Qed.

(** X16.  [find_additional_subdomains] of url_scraper.py leaves out the check of
    a name that is already found; its result is the one the checks of all
    the names would give. *)
Theorem find_additional_subdomains_skip base_domain found :
  find_additional_subdomains base_domain found
  = find_subdomains_dns_in (tasks common_subdomains_scraper) base_domain found.
Proof.
  unfold find_additional_subdomains. apply set_eq. intros x.
  rewrite elem_of_fold_add_result, elem_of_find_in, list_elem_of_fmap. split.
  - intros [Hx|[(t & Hr & Ht) _]]; [left; exact Hx|].
    unfold check_subdomain_unless_found in Hr.
    destruct (bool_decide _); [discriminate|]. right. exists t. split; [exact Ht|].
    symmetry. exact Hr.
  - intros [Hx|(t & Ht & Hc)]; [left; exact Hx|].
    destruct (decide (x ∈ found)) as [Hx|Hx]; [left; exact Hx|right].
    pose proof Hc as (Hname & _)%check_subdomain_some.
    split; [|rewrite Hname; apply full_subdomain_truthy].
    exists t. split; [|exact Ht]. unfold check_subdomain_unless_found.
    rewrite <- Hname. rewrite bool_decide_eq_false_2 by exact Hx. symmetry. exact Hc.
Qed.

End SubdomainCheck.

(** ** The whole analysis *)

Section WholeAnalysis.
Context `{Runtime} `{Prober}.

Import Smart.
Import Pipeline.

Lemma crawl_loop_fuel_le V a fuel fuel' s r :
  (fuel <= fuel')%nat -> crawl_loop V a fuel s = Some r ->
  crawl_loop V a fuel' s = Some r.
Proof.
  induction 1 as [|fuel' _ IH]; [tauto|].
  intros Hr. apply crawl_loop_more_fuel, IH, Hr.
Qed.

Lemma fetch_log_gets links : fetch_log (map Get links) = links.
Proof. induction links as [|l links IH]; [reflexivity|]. cbn. rewrite IH. reflexivity. Qed.

(** X17.  When the initial scan fails, and when the user does not ask for the
    crawl, the analysis has requested the seed URL and at most [sample_cap]
    of its links, and has left the results and the bookkeeping of the crawl
    as they were; without the user asking for it no crawl is made. *)
Theorem analysis_without_crawl V a proceed fuel s e :
  analyze V a proceed fuel s = Some e ->
  (proceed = false -> forall r, e <> Crawled r) /\
  forall s', e = ScanFailed s' \/ e = Cancelled s' ->
    Report.crawl_fields_equal s s' /\
    exists links, trace s' = trace s ++ map Get (url a :: links) /\
      (length links <= sample_cap V)%nat.
Proof.
  unfold analyze. intros Hrun.
  destruct (initial_scan V a s) as [[b s1]|] eqn:Escan.
  2:{ injection Hrun as <-. split; [intros _ r; discriminate|].
      intros s' [He|He]; discriminate. }
  apply initial_scan_effect in Escan as (links & Htr & Hlen & _ & _ & _ & _ & Hf).
  assert (Hkeep : Report.crawl_fields_equal s s1 /\
            exists links, trace s1 = trace s ++ map Get (url a :: links) /\
              (length links <= sample_cap V)%nat).
  { split; [exact Hf|]. exists links. split; assumption. }
  destruct b.
  - destruct proceed; cbn [negb] in Hrun.
    + destruct (controlled_crawl V a fuel _) as [r|]; [|discriminate].
      injection Hrun as <-. split; [discriminate|].
      intros s' [He|He]; discriminate.
    + injection Hrun as <-. split; [intros _ r; discriminate|].
      intros s' [He|[= <-]]; [discriminate|exact Hkeep].
  - injection Hrun as <-. split; [intros _ r; discriminate|].
    intros s' [[= <-]|He]; [exact Hkeep|discriminate].
Qed.

(** X18.  A whole analysis makes at most [1 + sample_cap + max_pages] page
    requests: the seed page, the samples of the initial scan, and the page
    budget of the crawl; and what the subdomain check has found is among
    the subdomains at the end. *)
Theorem analysis_request_budget V a proceed fuel s r :
  analyze V a proceed fuel s = Some (Crawled r) ->
  (exists tr, trace (state_of r) = trace s ++ tr /\
     (Z.of_nat (length (fetch_log tr))
      <= 1 + Z.of_nat (sample_cap V) + Z.max 0 (max_pages a - crawl_count s))%Z) /\
  Probe.find_subdomains_dns (base_domain a) (found_subdomains s)
    ⊆ found_subdomains (state_of r).
Proof.
  unfold analyze. intros Hrun.
  destruct (initial_scan V a s) as [[b s1]|] eqn:Escan; [|discriminate].
  destruct b; [|discriminate]. destruct (negb proceed); [discriminate|].
  apply initial_scan_effect in Escan
    as (links & Htr & Hlen & _ & _ & _ & _ & Hsd & _ & _ & _ & Hcount & _).
  set (s2 := set_found_subdomains _ s1) in Hrun.
  destruct (controlled_crawl V a fuel s2) as [r'|] eqn:Ecrawl; [|discriminate].
  injection Hrun as ->. unfold controlled_crawl in Ecrawl. split.
  - apply controlled_crawl_budget in Ecrawl as (tr & Htr' & Hbudget).
    cbn in Htr', Hbudget. rewrite Hcount in Hbudget.
    exists (map Get (url a :: links) ++ tr). rewrite Htr', Htr, <- app_assoc.
    split; [reflexivity|]. rewrite fetch_log_app, fetch_log_gets, length_app.
    cbn [length]. lia.
  - apply crawl_loop_records in Ecrawl as ((Hgrow & _) & _).
    cbn in Hgrow. rewrite Hsd in Hgrow. exact Hgrow.
Qed.

(** X19.  The analysis ends, whatever the network answers: some number of rounds
    suffices for the loop of the crawl, and more rounds give the same end. *)
Theorem analysis_terminates V a proceed s :
  exists fuel e, forall fuel', (fuel <= fuel')%nat ->
    analyze V a proceed fuel' s = Some e.
Proof.
  unfold analyze. destruct (initial_scan V a s) as [[b s1]|];
    [|exists 0%nat, ScanRaised; reflexivity].
  destruct b; [|exists 0%nat, (ScanFailed s1); reflexivity].
  destruct (negb proceed); [exists 0%nat, (Cancelled s1); reflexivity|].
  set (s2 := set_found_subdomains _ s1). unfold controlled_crawl.
  destruct (crawl_loop_terminates V a (controlled_crawl_start s2)) as (fuel & r & Hr & _).
  exists fuel, (Crawled r). intros fuel' Hle.
  rewrite (crawl_loop_fuel_le V a fuel fuel' _ r Hle Hr). reflexivity.
Qed.

End WholeAnalysis.

(** ** The URL typed by the user *)

Module StripFacts.

(** [lstrip_space] leaves an end of the string. *)
Lemma lstrip_suffix s : exists pre, s = pre +:+ Py.lstrip_space s.
Proof.
  remember (String.length s) as n eqn:Hn.
  revert s Hn. induction n as [n IH] using lt_wf_ind. intros s Hn.
  destruct s as [|c s1]; [exists EmptyString; reflexivity|].
  cbn [Py.lstrip_space]. cbn [String.length] in Hn.
  destruct (Py.is_space c).
  { destruct (IH (String.length s1) ltac:(lia) s1 eq_refl) as [pre Hpre].
    exists (String c pre).
    change (String c s1 = String c (pre +:+ Py.lstrip_space s1)). f_equal. exact Hpre. }
  destruct (Py.leads_space2 c).
  { destruct s1 as [|d s2]; [exists EmptyString; reflexivity|].
    destruct (Py.is_space2 c d); [|exists EmptyString; reflexivity].
    cbn [String.length] in Hn.
    destruct (IH (String.length s2) ltac:(lia) s2 eq_refl) as [pre Hpre].
    exists (String c (String d pre)).
    change (String c (String d s2) = String c (String d (pre +:+ Py.lstrip_space s2))).
    do 2 f_equal. exact Hpre. }
  destruct (Py.leads_space3 c); [|exists EmptyString; reflexivity].
  destruct s1 as [|d [|e s3]]; try (exists EmptyString; reflexivity).
  destruct (Py.is_space3 c d e); [|exists EmptyString; reflexivity].
  cbn [String.length] in Hn.
  destruct (IH (String.length s3) ltac:(lia) s3 eq_refl) as [pre Hpre].
  exists (String c (String d (String e pre))).
  change (String c (String d (String e s3))
          = String c (String d (String e (pre +:+ Py.lstrip_space s3)))).
  do 3 f_equal. exact Hpre.
Qed.

Lemma lstrip_idem s : Py.lstrip_space (Py.lstrip_space s) = Py.lstrip_space s.
Proof.
  remember (String.length s) as n eqn:Hn.
  revert s Hn. induction n as [n IH] using lt_wf_ind. intros s Hn.
  destruct s as [|c s1]; [reflexivity|].
  cbn [String.length] in Hn.
  change (Py.lstrip_space (String c s1)) with
    (if Py.is_space c then Py.lstrip_space s1
     else if Py.leads_space2 c then
       match s1 with
       | String d s2 => if Py.is_space2 c d then Py.lstrip_space s2 else String c s1
       | EmptyString => String c s1
       end
     else if Py.leads_space3 c then
       match s1 with
       | String d (String e s3) =>
           if Py.is_space3 c d e then Py.lstrip_space s3 else String c s1
       | _ => String c s1
       end
     else String c s1).
  destruct (Py.is_space c) eqn:E1; [apply (IH (String.length s1)); [lia|reflexivity]|].
  destruct (Py.leads_space2 c) eqn:E2.
  { destruct s1 as [|d s2].
    - cbn [Py.lstrip_space]. rewrite E1, E2. reflexivity.
    - destruct (Py.is_space2 c d) eqn:E3.
      + apply (IH (String.length s2)); [cbn [String.length] in Hn; lia|reflexivity].
      + cbn [Py.lstrip_space]. rewrite E1, E2, E3. reflexivity. }
  destruct (Py.leads_space3 c) eqn:E3.
  { destruct s1 as [|d [|e s3]].
    - cbn [Py.lstrip_space]. rewrite E1, E2, E3. reflexivity.
    - cbn [Py.lstrip_space]. rewrite E1, E2, E3. reflexivity.
    - destruct (Py.is_space3 c d e) eqn:E4.
      + apply (IH (String.length s3)); [cbn [String.length] in Hn; lia|reflexivity].
      + cbn [Py.lstrip_space]. rewrite E1, E2, E3, E4. reflexivity. }
  cbn [Py.lstrip_space]. rewrite E1, E2, E3. reflexivity.
Qed.

(** White space in front of any string goes with the white space that the
    string starts with. *)
Lemma lstrip_app_space x w :
  Py.lstrip_space x = EmptyString -> Py.lstrip_space (x +:+ w) = Py.lstrip_space w.
Proof.
  remember (String.length x) as n eqn:Hn.
  revert x Hn. induction n as [n IH] using lt_wf_ind. intros x Hn.
  destruct x as [|c x1]; [reflexivity|].
  cbn [String.length] in Hn.
  change (String c x1 +:+ w) with (String c (x1 +:+ w)).
  cbn [Py.lstrip_space].
  destruct (Py.is_space c); [apply (IH (String.length x1)); [lia|reflexivity]|].
  destruct (Py.leads_space2 c).
  { destruct x1 as [|d x2]; [discriminate|].
    change (String d x2 +:+ w) with (String d (x2 +:+ w)). cbv beta iota.
    destruct (Py.is_space2 c d); [|discriminate].
    apply (IH (String.length x2)); [cbn [String.length] in Hn; lia|reflexivity]. }
  destruct (Py.leads_space3 c); [|discriminate].
  destruct x1 as [|d [|e x3]]; [discriminate|discriminate|].
  change (String d (String e x3) +:+ w) with (String d (String e (x3 +:+ w))).
  cbv beta iota. destruct (Py.is_space3 c d e); [|discriminate].
  apply (IH (String.length x3)); [cbn [String.length] in Hn; lia|reflexivity].
Qed.

Lemma rstrip_cons c s :
  Py.rstrip_space (String c s) =
  match Py.lstrip_space (String c s) with
  | EmptyString => EmptyString
  | String _ _ => String c (Py.rstrip_space s)
  end.
Proof. reflexivity. Qed.

(** What [rstrip_space] drops is white space. *)
Lemma rstrip_prefix s :
  exists w, s = Py.rstrip_space s +:+ w /\ Py.lstrip_space w = EmptyString.
Proof.
  induction s as [|c s IH]; [exists EmptyString; split; reflexivity|].
  rewrite rstrip_cons. destruct (Py.lstrip_space (String c s)) as [|x y] eqn:E.
  - exists (String c s). split; [reflexivity|exact E].
  - destruct IH as (w & Hs & Hw). exists w. split; [|exact Hw].
    change (String c (Py.rstrip_space s) +:+ w) with (String c (Py.rstrip_space s +:+ w)).
    rewrite <- Hs. reflexivity.
Qed.

Lemma rstrip_idem s : Py.rstrip_space (Py.rstrip_space s) = Py.rstrip_space s.
Proof.
  induction s as [|c s IH]; [reflexivity|].
  rewrite rstrip_cons. destruct (Py.lstrip_space (String c s)) as [|x y] eqn:E;
    [reflexivity|].
  rewrite rstrip_cons, IH.
  destruct (Py.lstrip_space (String c (Py.rstrip_space s))) as [|x' y'] eqn:E';
    [|reflexivity].
  exfalso. destruct (rstrip_prefix s) as (w & Hs & Hw).
  pose proof (lstrip_app_space (String c (Py.rstrip_space s)) w E') as Happ.
  change (String c (Py.rstrip_space s) +:+ w)
    with (String c (Py.rstrip_space s +:+ w)) in Happ.
  rewrite <- Hs, E, Hw in Happ. discriminate.
Qed.

(** Every end of a string whose right end is stripped has its right end
    stripped. *)
Lemma rstrip_fixed_suffix pre t :
  Py.rstrip_space (pre +:+ t) = pre +:+ t -> Py.rstrip_space t = t.
Proof.
  induction pre as [|c pre IH]; [tauto|].
  change (String c pre +:+ t) with (String c (pre +:+ t)).
  rewrite rstrip_cons. destruct (Py.lstrip_space _); [discriminate|].
  intros [= Hfix]. apply IH, Hfix.
Qed.

Lemma rstrip_strip s : Py.rstrip_space (Py.strip s) = Py.strip s.
Proof.
  unfold Py.strip. destruct (lstrip_suffix (Py.rstrip_space s)) as [pre Hpre].
  apply (rstrip_fixed_suffix pre). rewrite <- Hpre. apply rstrip_idem.
Qed.

Lemma strip_idem s : Py.strip (Py.strip s) = Py.strip s.
Proof.
  unfold Py.strip at 1. rewrite rstrip_strip. unfold Py.strip. apply lstrip_idem.
Qed.

(** A byte that is no white space and starts none stays where it is. *)
Lemma strip_keep c s :
  Py.is_space c = false -> Py.leads_space2 c = false -> Py.leads_space3 c = false ->
  Py.rstrip_space s = s ->
  Py.strip (String c s) = String c s.
Proof.
  intros E1 E2 E3 Hfix. unfold Py.strip.
  assert (Hl : forall t, Py.lstrip_space (String c t) = String c t)
    by (intros t; cbn [Py.lstrip_space]; rewrite E1, E2, E3; reflexivity).
  rewrite rstrip_cons, Hl, Hfix. apply Hl.
Qed.

End StripFacts.

(** X20.  Whatever the user types, [main] hands the analyzer a URL that starts
    with [http://] or [https://]: an input that has one of them is only
    stripped of its white space, any other is stripped and gets [https://]
    in front; and a URL that [main] has made this way it would leave as it
    is. *)
Theorem seed_url_has_scheme input :
  Main.has_http_scheme (Main.seed_url input) = true /\
  Main.seed_url (Main.seed_url input) = Main.seed_url input /\
  Main.seed_url input =
    (if Main.has_http_scheme (Py.strip input) then Py.strip input
     else "https://" +:+ Py.strip input).
Proof.
  assert (Hprefix : forall u, Main.has_http_scheme ("https://" +:+ u) = true).
  { intros u. unfold Main.has_http_scheme.
    rewrite (PyFacts.startswith_app "https://" u). apply orb_true_r. }
  assert (Hshape : Main.seed_url input =
            (if Main.has_http_scheme (Py.strip input) then Py.strip input
             else "https://" +:+ Py.strip input)).
  { unfold Main.seed_url. cbv zeta. destruct (Main.has_http_scheme _); reflexivity. }
  assert (Hscheme : Main.has_http_scheme (Main.seed_url input) = true).
  { rewrite Hshape. destruct (Main.has_http_scheme (Py.strip input)) eqn:E;
      [exact E|apply Hprefix]. }
  split; [exact Hscheme|]. split; [|exact Hshape].
  assert (Hstrip : Py.strip (Main.seed_url input) = Main.seed_url input).
  { rewrite Hshape. destruct (Main.has_http_scheme (Py.strip input));
      [apply StripFacts.strip_idem|].
    change ("https://" +:+ Py.strip input)
      with (String "h" (String "t" (String "t" (String "p" (String "s"
             (String ":" (String "/" (String "/" (Py.strip input))))))))).
    assert (Hkeep : forall c t,
              Py.is_space c = false -> Py.leads_space2 c = false ->
              Py.leads_space3 c = false ->
              Py.strip t = t -> Py.rstrip_space t = t ->
              Py.strip (String c t) = String c t /\
              Py.rstrip_space (String c t) = String c t).
    { intros c t E1 E2 E3 _ Hfix.
      pose proof (StripFacts.strip_keep c t E1 E2 E3 Hfix) as Hs.
      split; [exact Hs|].
      pose proof (StripFacts.rstrip_strip (String c t)) as Hr.
      rewrite Hs in Hr. exact Hr. }
    pose proof (StripFacts.strip_idem input) as H0.
    pose proof (StripFacts.rstrip_strip input) as R0.
    destruct (Hkeep "/"%char _ eq_refl eq_refl eq_refl H0 R0) as [H1 R1].
    destruct (Hkeep "/"%char _ eq_refl eq_refl eq_refl H1 R1) as [H2 R2].
    destruct (Hkeep ":"%char _ eq_refl eq_refl eq_refl H2 R2) as [H3 R3].
    destruct (Hkeep "s"%char _ eq_refl eq_refl eq_refl H3 R3) as [H4 R4].
    destruct (Hkeep "p"%char _ eq_refl eq_refl eq_refl H4 R4) as [H5 R5].
    destruct (Hkeep "t"%char _ eq_refl eq_refl eq_refl H5 R5) as [H6 R6].
    destruct (Hkeep "t"%char _ eq_refl eq_refl eq_refl H6 R6) as [H7 R7].
    destruct (Hkeep "h"%char _ eq_refl eq_refl eq_refl H7 R7) as [H8 _].
    exact H8. }
  unfold Main.seed_url at 1. cbv zeta. rewrite Hstrip, Hscheme. reflexivity.
Qed.

(** A no-break space in front of the URL is white space for [strip]. *)
Example seed_url_no_break_space :
  Main.seed_url
    (String (ascii_of_nat 194) (String (ascii_of_nat 160) "http://example.com"))
  = "http://example.com".
Proof. vm_compute. reflexivity. Qed.

(** ** Set-up and preview *)

Module LabelFacts.

Lemma append_empty_r s : s +:+ EmptyString = s.
Proof.
  induction s as [|c s IH]; [reflexivity|].
  change (String c (s +:+ EmptyString) = String c s). rewrite IH. reflexivity.
Qed.

Lemma append_assoc_r x y z : (x +:+ y) +:+ z = x +:+ (y +:+ z).
Proof.
  induction x as [|c x IH]; [reflexivity|].
  change (String c ((x +:+ y) +:+ z) = String c (x +:+ (y +:+ z))).
  rewrite IH. reflexivity.
Qed.

Lemma join_tail_suffix sep x rest :
  exists pre, Py.join sep (x :: rest) = pre +:+ Py.join sep rest.
Proof.
  destruct rest as [|y ys].
  - exists x. cbn. symmetry. apply append_empty_r.
  - exists (x +:+ sep). rewrite PyFacts.join_cons. symmetry. apply append_assoc_r.
Qed.

(** The join of the last parts is the end of the join of all the parts. *)
Lemma join_drop_suffix sep parts k :
  exists pre, Py.join sep parts = pre +:+ Py.join sep (drop k parts).
Proof.
  revert parts. induction k as [|k IH]; intros parts.
  - exists EmptyString. rewrite drop_0. reflexivity.
  - destruct parts as [|x rest]; [exists EmptyString; reflexivity|].
    cbn [drop]. destruct (join_tail_suffix sep x rest) as [pre1 H1].
    destruct (IH rest) as [pre2 H2].
    exists (pre1 +:+ pre2). rewrite H1, H2. symmetry. apply append_assoc_r.
Qed.

Lemma base_of_netloc_suffix host : Py.endswith host (base_of_netloc host) = true.
Proof.
  apply PyFacts.endswith_spec. unfold base_of_netloc.
  destruct (2 <=? _)%nat; [|exists EmptyString; reflexivity].
  unfold Py.last_two.
  destruct (join_drop_suffix "." (Py.split "." host)
              (length (Py.split "." host) - 2)) as [pre Hpre].
  exists pre. rewrite <- Hpre. symmetry. apply (PyFacts.join_split "." host).
Qed.

End LabelFacts.

Section SetUp.
Context `{Runtime}.

(** X21.  [__init__] leaves the analyzers with a base domain that is the end of
    their domain, and so is contained in it: the last two labels of the
    host, or the host itself. *)
Theorem init_base_domain_suffix url0 depth pages a :
  Smart.init url0 depth pages = Some a ->
  Py.endswith (Smart.domain a) (Smart.base_domain a) = true /\
  Py.contains (Smart.base_domain a) (Smart.domain a) = true /\
  forall b, Advanced.init url0 depth pages = Some b ->
    Py.endswith (Advanced.domain b) (Advanced.base_domain b) = true /\
    Py.contains (Advanced.base_domain b) (Advanced.domain b) = true.
Proof.
  assert (Hcontains : forall host, Py.contains (base_of_netloc host) host = true).
  { intros host. pose proof (LabelFacts.base_of_netloc_suffix host) as Hs.
    apply PyFacts.endswith_spec in Hs as [pre Hpre].
    rewrite Hpre at 2. apply PyFacts.contains_app_r. }
  unfold Smart.init, Smart.extract_domain, Smart.extract_base_domain,
    Advanced.init, Advanced.extract_domain.
  destruct (urlparse url0) as [parsed|]; [|discriminate]. cbn.
  intros [= <-]. cbn.
  split; [apply LabelFacts.base_of_netloc_suffix|]. split; [apply Hcontains|].
  intros b [= <-]. cbn.
  split; [apply LabelFacts.base_of_netloc_suffix|apply Hcontains].
Qed.

(** X22.  The quick classification of [show_initial_urls_only] puts a URL where
    [classify_url] of Url_finder.py puts it: the same subdomains and the
    same pages, and the same subdirectory for a URL that is no page; what
    it leaves out is the directory that [classify_url] adds for a page. *)
Theorem preview_agrees_with_classify a u s label s' :
  Smart.classify_url Smart.Url_finder a u s = Some (label, s') ->
  exists t',
    Preview.preview_url a (Preview.of_state s) u = Some t' /\
    Preview.temp_subdomains t' = Smart.found_subdomains s' /\
    Preview.temp_pages t' = Smart.found_pages s' /\
    Preview.temp_subdirectories t' ⊆ Smart.found_subdirectories s' /\
    (label = "subdirectory" ->
     Preview.temp_subdirectories t' = Smart.found_subdirectories s').
Proof.
  unfold Smart.classify_url, Preview.preview_url.
  destruct (urlparse u) as [parsed|]; [|discriminate]. cbv zeta.
  destruct (_ && _).
  { intros [= <- <-]. eexists. split; [reflexivity|]. cbn. repeat split; reflexivity. }
  destruct (Py.truthy (Py.rstrip_slash (path parsed))) eqn:Et.
  2:{ intros [= <- <-]. eexists. split; [reflexivity|]. cbn. repeat split; reflexivity. }
  assert (Hne : Py.rstrip_slash (path parsed) <> EmptyString)
    by (intros E; rewrite E in Et; discriminate).
  pose proof (SegmentFacts.segments_nonempty (path parsed) Hne) as Hparts.
  destruct (filter _ _) as [|part parts] eqn:Ef; [contradiction|].
  change (Smart.page_extensions Smart.Url_finder)
    with [".html"; ".htm"; ".php"; ".asp"; ".jsp"; ".py"].
  destruct (existsb _ _).
  - destruct (1 <? length (part :: parts))%nat; intros [= <- <-];
      (eexists; split; [reflexivity|]); cbn.
    + split; [reflexivity|]. split; [reflexivity|].
      split; [apply union_subseteq_r|discriminate].
    + split; [reflexivity|]. split; [reflexivity|]. split; [reflexivity|discriminate].
  - intros [= <- <-]. eexists. split; [reflexivity|]. cbn. repeat split; reflexivity.
Qed.

End SetUp.

(** The analyzers of the site [shop]. *)
Lemma init_base_domain_suffix_witness :
  Py.endswith (Smart.domain (Sites.smart Sites.shop "https://api.example.com/v1" 100))
    (Smart.base_domain (Sites.smart Sites.shop "https://api.example.com/v1" 100)) = true.
Proof.
  apply (@init_base_domain_suffix (Demo.runtime Sites.shop)
           "https://api.example.com/v1" 3 100).
  vm_compute. reflexivity.
Defined.

(** A page of the site [shop], two segments deep. *)
Lemma preview_agrees_with_classify_witness :
  exists t',
    @Preview.preview_url (Demo.runtime Sites.shop)
      (Sites.smart Sites.shop "https://example.com" 100)
      (Preview.of_state Smart.fresh) "https://example.com/docs/intro.html" = Some t' /\
    Preview.temp_subdomains t' = Smart.found_subdomains Runs.classified_page /\
    Preview.temp_pages t' = Smart.found_pages Runs.classified_page /\
    Preview.temp_subdirectories t' ⊆ Smart.found_subdirectories Runs.classified_page /\
    ("page" = "subdirectory" ->
     Preview.temp_subdirectories t' = Smart.found_subdirectories Runs.classified_page).
Proof.
  apply (@preview_agrees_with_classify (Demo.runtime Sites.shop)
           (Sites.smart Sites.shop "https://example.com" 100)
           "https://example.com/docs/intro.html" Smart.fresh "page"
           Runs.classified_page).
  vm_compute. reflexivity.
Defined.

(** ** The further facts on the sites *)

(** The crawl of the site [shop]: every fetched URL is classified. *)
Lemma controlled_crawl_classifies_fetched_witness :
  Report.grows (Sites.queued Smart.Url_finder Sites.shop "https://example.com")
    (Smart.state_of (Sites.crawled Smart.Url_finder Sites.shop "https://example.com" 100)) /\
  exists tr,
    Smart.trace (Smart.state_of
      (Sites.crawled Smart.Url_finder Sites.shop "https://example.com" 100))
    = Smart.trace (Sites.queued Smart.Url_finder Sites.shop "https://example.com") ++ tr /\
    forall u, u ∈ fetch_log tr ->
      @Report.recorded (Demo.runtime Sites.shop) Smart.Url_finder
        (Sites.smart Sites.shop "https://example.com" 100) u
        (Smart.state_of (Sites.crawled Smart.Url_finder Sites.shop "https://example.com" 100)).
Proof.
  apply (@controlled_crawl_classifies_fetched (Demo.runtime Sites.shop)
           Smart.Url_finder (Sites.smart Sites.shop "https://example.com" 100) 100%nat).
  vm_compute. reflexivity.
Defined.

(** The crawl of the site [shop]: the directory [docs] of its page. *)
Lemma controlled_crawl_directory_levels_witness :
  "docs" ∈ Smart.found_subdirectories
             (Sites.queued Smart.Url_finder Sites.shop "https://example.com")
  \/ (1 <= Report.directory_level "docs")%nat.
Proof.
  apply (@controlled_crawl_directory_levels (Demo.runtime Sites.shop)
           Smart.Url_finder (Sites.smart Sites.shop "https://example.com" 100) 100%nat
           (Sites.queued Smart.Url_finder Sites.shop "https://example.com")
           (Sites.crawled Smart.Url_finder Sites.shop "https://example.com" 100)).
  - vm_compute. reflexivity.
  - apply (bool_decide_unpack _). vm_compute. exact I.
Defined.

(** The queue of the site [dated] after one round of the loop. *)
Lemma pending_queue_duplicate_free_witness :
  NoDup (Smart.urls_to_crawl
           (Sites.next Smart.Url_finder Sites.dated "https://example.com" 100
              (Sites.queued Smart.Url_finder Sites.dated "https://example.com"))).
Proof.
  apply (@pending_queue_duplicate_free (Demo.runtime Sites.dated) Smart.Url_finder
           (Sites.smart Sites.dated "https://example.com" 100)
           (Sites.scanned Smart.Url_finder Sites.dated "https://example.com")
           (Sites.next Smart.Url_finder Sites.dated "https://example.com" 100
              (Sites.queued Smart.Url_finder Sites.dated "https://example.com"))).
  - vm_compute. reflexivity.
  - eapply Smart.reaches_next; [vm_compute; reflexivity|apply Smart.reaches_here].
Defined.

(** The first sample of the site [wide] brings two new links. *)
Lemma sample_loop_counts_new_urls_witness :
  (Runs.first_sample.1.1 - 0 =
   Z.of_nat (size (Smart.initial_urls_found Runs.first_sample.2))
   - Z.of_nat (size (Smart.initial_urls_found
                       (Sites.main_page Sites.wide "https://example.com"))))%Z /\
  (0 <= Runs.first_sample.1.2 <= 0 + Z.of_nat (length ["https://example.com/p1"]))%Z /\
  Smart.trace Runs.first_sample.2
  = Smart.trace (Sites.main_page Sites.wide "https://example.com")
    ++ map Get ["https://example.com/p1"].
Proof.
  apply (@sample_loop_counts_new_urls (Demo.runtime Sites.wide) Smart.Url_finder
           (Sites.smart Sites.wide "https://example.com" 100)
           ["https://example.com/p1"] 0%Z 0%Z
           (Sites.main_page Sites.wide "https://example.com")).
  vm_compute. reflexivity.
Defined.

(** The initial scan of the site [wide]: six requests, the seed page and
    five samples. *)
Lemma initial_scan_requests_witness :
  exists links,
    Smart.trace (Sites.scanned Smart.Url_finder Sites.wide "https://example.com")
    = Smart.trace Smart.fresh
      ++ map Get (Smart.url (Sites.smart Sites.wide "https://example.com" 100) :: links) /\
    (length links <= Smart.sample_cap Smart.Url_finder)%nat /\ NoDup links /\
    (true = false ->
     links = [] /\
     Sites.scanned Smart.Url_finder Sites.wide "https://example.com"
     = Smart.record (Get (Smart.url (Sites.smart Sites.wide "https://example.com" 100)))
         Smart.fresh) /\
    (true = true ->
     Smart.url (Sites.smart Sites.wide "https://example.com" 100)
       ∈ Smart.initial_urls_found
           (Sites.scanned Smart.Url_finder Sites.wide "https://example.com") /\
     forall l, l ∈ links ->
       l ∈ Smart.initial_urls_found
             (Sites.scanned Smart.Url_finder Sites.wide "https://example.com")) /\
    Smart.initial_urls_found Smart.fresh
      ⊆ Smart.initial_urls_found
          (Sites.scanned Smart.Url_finder Sites.wide "https://example.com") /\
    Report.crawl_fields_equal Smart.fresh
      (Sites.scanned Smart.Url_finder Sites.wide "https://example.com").
Proof.
  apply (@initial_scan_requests (Demo.runtime Sites.wide) Smart.Url_finder
           (Sites.smart Sites.wide "https://example.com" 100) Smart.fresh true).
  vm_compute. reflexivity.
Defined.

(** The initial scan of the site [wide]: fifteen URLs found, estimate 18. *)
Lemma initial_scan_estimate_lower_bound_witness :
  (1 <= Z.of_nat (size (Smart.initial_urls_found
                          (Sites.scanned Smart.Url_finder Sites.wide "https://example.com")))
     <= Smart.estimated_total
          (Sites.scanned Smart.Url_finder Sites.wide "https://example.com"))%Z.
Proof.
  apply (@initial_scan_estimate_lower_bound (Demo.runtime Sites.wide) Smart.Url_finder
           (Sites.smart Sites.wide "https://example.com" 100) Smart.fresh).
  - intros f Hf. discriminate Hf.
  - vm_compute. reflexivity.
Defined.

(** The recursive crawl of the site [wide] with a budget of five pages. *)
Lemma recursive_crawl_budget_witness :
  Smart.trace (Recursive.state_of (Runs.recursive Sites.wide "https://example.com" 5).1)
  = Smart.trace Smart.fresh
    ++ Recursive.marks_and_gets (Runs.recursive Sites.wide "https://example.com" 5).2 /\
  Smart.visited_urls
    (Recursive.state_of (Runs.recursive Sites.wide "https://example.com" 5).1)
  = list_to_set (Runs.recursive Sites.wide "https://example.com" 5).2.*1
    ∪ Smart.visited_urls Smart.fresh /\
  NoDup (Runs.recursive Sites.wide "https://example.com" 5).2.*1 /\
  (forall u, u ∈ (Runs.recursive Sites.wide "https://example.com" 5).2.*1 ->
     u ∉ Smart.visited_urls Smart.fresh) /\
  ((Runs.recursive Sites.wide "https://example.com" 5).2 = [] \/
   (Z.of_nat (size (Smart.visited_urls Smart.fresh))
    + Z.of_nat (length (Runs.recursive Sites.wide "https://example.com" 5).2)
    <= Smart.max_pages (Sites.smart Sites.wide "https://example.com" 5))%Z).
Proof.
  apply (@recursive_crawl_budget (Demo.runtime Sites.wide)
           (Sites.smart Sites.wide "https://example.com" 5) Smart.fresh).
  vm_compute. reflexivity.
Defined.

(** The recursive crawl of the site [wide]: the depths are 0, 1 and 2. *)
Lemma recursive_crawl_depth_witness :
  Forall (fun p => (0 <= p.2
                    <= Smart.max_depth (Sites.smart Sites.wide "https://example.com" 5))%Z)
    (Runs.recursive Sites.wide "https://example.com" 5).2 /\
  ((Runs.recursive Sites.wide "https://example.com" 5).2 = [] \/
   exists rest,
     (Runs.recursive Sites.wide "https://example.com" 5).2
     = (Smart.url (Sites.smart Sites.wide "https://example.com" 5), 0%Z) :: rest).
Proof.
  apply (@recursive_crawl_depth (Demo.runtime Sites.wide)
           (Sites.smart Sites.wide "https://example.com" 5) Smart.fresh
           (Runs.recursive Sites.wide "https://example.com" 5).1).
  vm_compute. reflexivity.
Defined.

(** The recursive crawl of the site [shop] with room for ten nested calls. *)
Lemma recursive_crawl_nesting_witness :
  @Recursive.crawl_website_from (Demo.runtime Sites.shop) 10
    (Sites.smart Sites.shop "https://example.com" 100)
    (Smart.url (Sites.smart Sites.shop "https://example.com" 100)) 0 Smart.fresh []
  = Runs.recursive Sites.shop "https://example.com" 100.
Proof.
  apply (@recursive_crawl_nesting (Demo.runtime Sites.shop)
           (Sites.smart Sites.shop "https://example.com" 100) Smart.fresh 10%nat).
  vm_compute. lia.
Defined.

(** The level crawl of the site [three] with no page budget. *)
Lemma crawl_website_shallow_witness :
  Runs.levels Sites.three "https://example.com" 0 = Advanced.fresh.
Proof.
  apply (proj1 (@crawl_website_shallow (Demo.runtime Sites.three)
                  (Sites.advanced Sites.three "https://example.com" 0) Advanced.fresh)).
  right. vm_compute. discriminate.
Defined.

(** The links of the site [shop]: the subdomains are [api.example.com] and
    the host [notexample.com], which contains the base domain; the
    subdirectories are the two URLs under [/docs]. *)
Lemma analyze_links_results_witness :
  elements (Links.found_subdomains (Runs.analysed_links Sites.shop "https://example.com"))
  = ["api.example.com"; "notexample.com"] /\
  forall x,
    x ∈ Links.found_subdirectories (Runs.analysed_links Sites.shop "https://example.com") <->
    x ∈ Links.found_subdirectories Links.none \/
    (x ∈ Advanced.all_internal_links (Runs.levels Sites.shop "https://example.com" 100) /\
     exists c, @Links.listed (Demo.runtime Sites.shop)
                 (Sites.advanced Sites.shop "https://example.com" 100) x c).
Proof.
  split; [vm_compute; reflexivity|].
  apply (proj2 (@analyze_links_results (Demo.runtime Sites.shop)
                  (Sites.advanced Sites.shop "https://example.com" 100)
                  (Runs.levels Sites.shop "https://example.com" 100)
                  Links.none (Runs.analysed_links Sites.shop "https://example.com")
                  ltac:(reflexivity) ltac:(vm_compute; reflexivity))).
Defined.

(** The categories of the site [shop]: one, [docs], with two URLs. *)
Lemma analyze_links_categories_witness :
  NoDup ["https://example.com/docs/intro.html#top"; "https://example.com/docs/intro.html"] /\
  ["https://example.com/docs/intro.html#top"; "https://example.com/docs/intro.html"] <> [].
Proof.
  apply (proj2 (@analyze_links_categories (Demo.runtime Sites.shop)
                  (Sites.advanced Sites.shop "https://example.com" 100)
                  (Runs.levels Sites.shop "https://example.com" 100)
                  Links.none (Runs.analysed_links Sites.shop "https://example.com")
                  ltac:(reflexivity) ltac:(vm_compute; reflexivity)) "docs").
  vm_compute. reflexivity.
Defined.

(** The checks completing in the reverse order. *)
Lemma find_subdomains_dns_found_witness :
  @Probe.find_subdomains_dns_in Runs.prober
    (reverse (Probe.tasks Probe.common_subdomains)) "example.com" ∅
  = @Probe.find_subdomains_dns Runs.prober "example.com" ∅.
Proof.
  apply (proj1 (@find_subdomains_dns_found Runs.prober
                  (reverse (Probe.tasks Probe.common_subdomains)) "example.com" ∅
                  (reverse_Permutation _))).
Defined.

(** The analysis of the site [shop] when the user types [no]. *)
Lemma analysis_without_crawl_witness :
  Report.crawl_fields_equal Smart.fresh
    (Runs.state_of (Runs.analysis Sites.shop "https://example.com" "no")) /\
  exists links,
    Smart.trace (Runs.state_of (Runs.analysis Sites.shop "https://example.com" "no"))
    = Smart.trace Smart.fresh
      ++ map Get (Smart.url (Sites.smart Sites.shop "https://example.com" 100) :: links) /\
    (length links <= Smart.sample_cap Smart.Url_finder)%nat.
Proof.
  apply (proj2 (@analysis_without_crawl (Demo.runtime Sites.shop) Runs.prober
                  Smart.Url_finder (Sites.smart Sites.shop "https://example.com" 100)
                  false 100%nat Smart.fresh
                  (Runs.analysis Sites.shop "https://example.com" "no")
                  ltac:(vm_compute; reflexivity))).
  right. vm_compute. reflexivity.
Defined.

(** The analysis of the site [shop] when the user types [ Y ]. *)
Lemma analysis_request_budget_witness :
  (exists tr,
     Smart.trace (Smart.state_of
       (Runs.crawl_of (Runs.analysis Sites.shop "https://example.com" " Y ")))
     = Smart.trace Smart.fresh ++ tr /\
     (Z.of_nat (length (fetch_log tr))
      <= 1 + Z.of_nat (Smart.sample_cap Smart.Url_finder)
         + Z.max 0 (Smart.max_pages (Sites.smart Sites.shop "https://example.com" 100)
                    - Smart.crawl_count Smart.fresh))%Z) /\
  @Probe.find_subdomains_dns Runs.prober
    (Smart.base_domain (Sites.smart Sites.shop "https://example.com" 100))
    (Smart.found_subdomains Smart.fresh)
    ⊆ Smart.found_subdomains
        (Smart.state_of
           (Runs.crawl_of (Runs.analysis Sites.shop "https://example.com" " Y "))).
Proof.
  apply (@analysis_request_budget (Demo.runtime Sites.shop) Runs.prober
           Smart.Url_finder (Sites.smart Sites.shop "https://example.com" 100)
           true 100%nat Smart.fresh).
  vm_compute. reflexivity.
Defined.
